(** * Billing backend: queue workers, signed webhooks, usage meter,
      subscription state machine and payment transactions.

    A shallow embedding of the Python sources of the two services
    (subscription-service and payment-service) together with the
    properties checked against them.  Python [str] values are modelled by
    their UTF-8 byte strings ([string]), Python [int] by [Z], Redis and the
    relational store by explicit states that every operation threads. *)

From Stdlib Require Import ZArith String Ascii List Bool Lia DecimalString.
From stdpp Require Import gmap strings list fin_maps.
Import ListNotations.

Local Open Scope string_scope.
Local Open Scope Z_scope.
Local Open Scope list_scope.
Local Set Warnings "-register-all".

(** ** Results of fallible code *)

(** A Python call either returns a value or raises. *)
Inductive result (E A : Type) : Type :=
| Ok (a : A)
| Raise (e : E).
Arguments Ok {E A} a.
Arguments Raise {E A} e.

Definition is_ok {E A} (r : result E A) : bool :=
  match r with Ok _ => true | Raise _ => false end.

#[global] Instance result_ret {E} : MRet (result E) := fun _ a => Ok a.
#[global] Instance result_bind {E} : MBind (result E) :=
  fun _ _ f r => match r with Ok a => f a | Raise e => Raise e end.

(** [str(n)] for a Python int. *)
Definition py_str_of_int (n : Z) : string := NilZero.string_of_int (Z.to_int n).

(** * Decimal numerals *)
Module DecimalText.

(** The value of a decimal numeral read from its most significant digit
    (Horner's rule), starting from [acc]. *)
Fixpoint horner (acc : Z) (d : Decimal.uint) : Z :=
  match d with
  | Decimal.Nil => acc
  | Decimal.D0 r => horner (10 * acc + 0) r
  | Decimal.D1 r => horner (10 * acc + 1) r
  | Decimal.D2 r => horner (10 * acc + 2) r
  | Decimal.D3 r => horner (10 * acc + 3) r
  | Decimal.D4 r => horner (10 * acc + 4) r
  | Decimal.D5 r => horner (10 * acc + 5) r
  | Decimal.D6 r => horner (10 * acc + 6) r
  | Decimal.D7 r => horner (10 * acc + 7) r
  | Decimal.D8 r => horner (10 * acc + 8) r
  | Decimal.D9 r => horner (10 * acc + 9) r
  end.

(** The digits of a numeral, the most significant first. *)
Fixpoint udigits (d : Decimal.uint) : list Z :=
  match d with
  | Decimal.Nil => []
  | Decimal.D0 r => 0 :: udigits r
  | Decimal.D1 r => 1 :: udigits r
  | Decimal.D2 r => 2 :: udigits r
  | Decimal.D3 r => 3 :: udigits r
  | Decimal.D4 r => 4 :: udigits r
  | Decimal.D5 r => 5 :: udigits r
  | Decimal.D6 r => 6 :: udigits r
  | Decimal.D7 r => 7 :: udigits r
  | Decimal.D8 r => 8 :: udigits r
  | Decimal.D9 r => 9 :: udigits r
  end.

Definition digit_char (x : Z) : ascii := ascii_of_N (Z.to_N (48 + x)).

Fixpoint text (l : list Z) : string :=
  match l with
  | [] => EmptyString
  | x :: r => String (digit_char x) (text r)
  end.

(** The number a list of digits spells. *)
Fixpoint value (l : list Z) : Z :=
  match l with
  | [] => 0
  | x :: r => x * 10 ^ Z.of_nat (List.length r) + value r
  end.

End DecimalText.

(** * SHA-256 and HMAC (hashlib.sha256, hmac.new(...).hexdigest())

    The two library functions the signing code calls, written out over
    32-bit words held in [Z] (FIPS 180-4, RFC 2104). *)
Module Sha256.

Definition bytes_of_string (s : string) : list Z :=
  List.map (fun c => Z.of_N (N_of_ascii c)) (list_ascii_of_string s).

Definition mask32 : Z := 4294967295.
Definition add32 (a b : Z) : Z := Z.land (a + b) mask32.
Definition rotr (n x : Z) : Z :=
  Z.land (Z.lor (Z.shiftr x n) (Z.shiftl x (32 - n))) mask32.
Definition shr (n x : Z) : Z := Z.shiftr x n.
Definition not32 (x : Z) : Z := Z.lxor x mask32.

Definition Ch (x y z : Z) : Z := Z.lxor (Z.land x y) (Z.land (not32 x) z).
Definition Maj (x y z : Z) : Z :=
  Z.lxor (Z.lxor (Z.land x y) (Z.land x z)) (Z.land y z).
Definition bsig0 (x : Z) : Z := Z.lxor (Z.lxor (rotr 2 x) (rotr 13 x)) (rotr 22 x).
Definition bsig1 (x : Z) : Z := Z.lxor (Z.lxor (rotr 6 x) (rotr 11 x)) (rotr 25 x).
Definition ssig0 (x : Z) : Z := Z.lxor (Z.lxor (rotr 7 x) (rotr 18 x)) (shr 3 x).
Definition ssig1 (x : Z) : Z := Z.lxor (Z.lxor (rotr 17 x) (rotr 19 x)) (shr 10 x).

(** The round constants are the first 32 bits of the fractional parts of
    the cube roots of the first 64 primes, the initial hash value those of
    the square roots of the first 8. *)
Definition primes : list Z :=
  [ 2; 3; 5; 7; 11; 13; 17; 19; 23; 29; 31; 37; 41; 43; 47; 53; 59; 61; 67;
    71; 73; 79; 83; 89; 97; 101; 103; 107; 109; 113; 127; 131; 137; 139; 149;
    151; 157; 163; 167; 173; 179; 181; 191; 193; 197; 199; 211; 223; 227;
    229; 233; 239; 241; 251; 257; 263; 269; 271; 277; 281; 283; 293; 307;
    311 ].

(** The largest x in [lo, hi) with x^3 <= n, by bisection. *)
Fixpoint cube_root_between (steps : nat) (lo hi n : Z) : Z :=
  match steps with
  | O => lo
  | S k =>
      let mid := (lo + hi) / 2 in
      if mid * mid * mid <=? n then cube_root_between k mid hi n
      else cube_root_between k lo mid n
  end.

Definition frac_cube_root (p : Z) : Z :=
  Z.land (cube_root_between 48 0 (2 ^ 44) (p * 2 ^ 96)) mask32.

Definition frac_square_root (p : Z) : Z :=
  Z.land (Z.sqrt (p * 2 ^ 64)) mask32.

Definition K : list Z := Eval vm_compute in List.map frac_cube_root primes.

Definition H0 : list Z :=
  Eval vm_compute in List.map frac_square_root (firstn 8 primes).

(** Big-endian bytes of a word, and back. *)
Fixpoint be_bytes (n : nat) (x : Z) : list Z :=
  match n with
  | O => []
  | S k => Z.land (Z.shiftr x (8 * Z.of_nat k)) 255 :: be_bytes k x
  end.

Definition be_word (bs : list Z) : Z :=
  fold_left (fun acc b => acc * 256 + b) bs 0.

Fixpoint words_of (n : nat) (bs : list Z) : list Z :=
  match n with
  | O => []
  | S k => be_word (firstn 4 bs) :: words_of k (skipn 4 bs)
  end.

(** The padded message: a 1 bit, zeros, and the bit length on 64 bits. *)
Definition pad (msg : list Z) : list Z :=
  let len := Z.of_nat (List.length msg) in
  msg ++ [128] ++ List.repeat 0 (Z.to_nat ((55 - len) mod 64))
      ++ be_bytes 8 (8 * len).

(** The 64-entry message schedule, from the sliding window of the last
    sixteen words. *)
Fixpoint schedule (n : nat) (win : list Z) : list Z :=
  match n with
  | O => []
  | S k =>
      let w := add32 (add32 (ssig1 (nth 14 win 0)) (nth 9 win 0))
                     (add32 (ssig0 (nth 1 win 0)) (nth 0 win 0)) in
      w :: schedule k (List.tl win ++ [w])
  end.

Record regs : Type := Regs { ra : Z; rb : Z; rc : Z; rd : Z;
                             re : Z; rf : Z; rg : Z; rh : Z }.

Definition round (r : regs) (kw : Z * Z) : regs :=
  let t1 := add32 (add32 (add32 (rh r) (bsig1 (re r)))
                         (add32 (Ch (re r) (rf r) (rg r)) (fst kw))) (snd kw) in
  let t2 := add32 (bsig0 (ra r)) (Maj (ra r) (rb r) (rc r)) in
  Regs (add32 t1 t2) (ra r) (rb r) (rc r) (add32 (rd r) t1) (re r) (rf r) (rg r).

Definition regs_of (h : list Z) : regs :=
  Regs (nth 0 h 0) (nth 1 h 0) (nth 2 h 0) (nth 3 h 0)
       (nth 4 h 0) (nth 5 h 0) (nth 6 h 0) (nth 7 h 0).

Definition list_of (r : regs) : list Z :=
  [ra r; rb r; rc r; rd r; re r; rf r; rg r; rh r].

Definition compress (h : list Z) (block : list Z) : list Z :=
  let w16 := words_of 16 block in
  let w := w16 ++ schedule 48 w16 in
  let r := fold_left round (combine K w) (regs_of h) in
  List.map (fun p => add32 (fst p) (snd p)) (combine h (list_of r)).

Fixpoint blocks (n : nat) (h : list Z) (bs : list Z) : list Z :=
  match n with
  | O => h
  | S k => blocks k (compress h (firstn 64 bs)) (skipn 64 bs)
  end.

Definition sha256 (msg : list Z) : list Z :=
  let p := pad msg in
  List.concat (List.map (be_bytes 4) (blocks (List.length p / 64) H0 p)).

Definition hex_digit (n : Z) : ascii :=
  ascii_of_N (Z.to_N (if n <? 10 then 48 + n else 87 + n)).

Fixpoint hex (bs : list Z) : string :=
  match bs with
  | [] => EmptyString
  | b :: r => String (hex_digit (b / 16)) (String (hex_digit (b mod 16)) (hex r))
  end.

(** hashlib.sha256(s.encode("utf-8")).hexdigest() *)
Definition sha256_hex (s : string) : string := hex (sha256 (bytes_of_string s)).

(** hmac.new(key, msg, hashlib.sha256).hexdigest() *)
Definition hmac_sha256 (key msg : list Z) : list Z :=
  let k0 := if (64 <? Z.of_nat (List.length key)) then sha256 key else key in
  let k := k0 ++ List.repeat 0 (64 - List.length k0)%nat in
  let ipad := List.map (Z.lxor 0x36) k in
  let opad := List.map (Z.lxor 0x5c) k in
  sha256 (opad ++ sha256 (ipad ++ msg)).

Definition hmac_sha256_hex (key msg : string) : string :=
  hex (hmac_sha256 (bytes_of_string key) (bytes_of_string msg)).

End Sha256.

(** * payment-service/app/core/webhook_security.py *)
Module WebhookSecurity.

(** ** int(timestamp_header)

    Python's [int] on a [str] (CPython 3.11, [PyLong_FromUnicodeObject]
    and [PyLong_FromString] in base 10).  A text that is not ASCII is
    first rewritten: a white-space character becomes a space, a decimal
    digit of any script its ASCII digit, and the text stops with [?] at
    the first other character from code point 127 on.  Then come the
    white space of the C locale on both sides, an optional sign, and
    decimal digits with single underscores between digits.

    The interpreter also refuses a text of more than
    [int_max_str_digits] digits.  That limit is no part of [py_int]:
    [py_int] is [int] on every text of at most [int_max_str_digits]
    digits, and the statements about arbitrary header texts carry that
    bound. *)
Definition int_max_str_digits : nat := 4300.

Definition is_ascii (s : string) : bool :=
  List.forallb (fun c => Z.of_N (N_of_ascii c) <? 128) (list_ascii_of_string s).

(** [Py_ISSPACE]: tab, line feed, vertical tab, form feed, carriage
    return and space. *)
Definition is_space (c : ascii) : bool :=
  let n := Z.of_N (N_of_ascii c) in
  ((9 <=? n) && (n <=? 13)) || (n =? 32).

Definition digit_of (c : ascii) : option Z :=
  let n := Z.of_N (N_of_ascii c) in
  if (48 <=? n) && (n <=? 57) then Some (n - 48) else None.

(** The code points of a [str], read from its UTF-8 bytes.  A byte that
    starts no well-formed sequence is no character of a [str]; it is
    given the value -1. *)
Definition continuation (b : Z) : bool := (128 <=? b) && (b <? 192).

Fixpoint code_points (bs : list Z) : list Z :=
  match bs with
  | [] => []
  | b0 :: r0 =>
      if b0 <? 128 then b0 :: code_points r0
      else
        match r0 with
        | b1 :: r1 =>
            if (192 <=? b0) && (b0 <? 224) && continuation b1 then
              (b0 - 192) * 64 + (b1 - 128) :: code_points r1
            else
              match r1 with
              | b2 :: r2 =>
                  if (224 <=? b0) && (b0 <? 240)
                     && continuation b1 && continuation b2 then
                    (b0 - 224) * 4096 + (b1 - 128) * 64 + (b2 - 128)
                      :: code_points r2
                  else
                    match r2 with
                    | b3 :: r3 =>
                        if (240 <=? b0) && (b0 <? 248) && continuation b1
                           && continuation b2 && continuation b3 then
                          (b0 - 240) * 262144 + (b1 - 128) * 4096
                            + (b2 - 128) * 64 + (b3 - 128)
                            :: code_points r3
                        else -1 :: code_points r0
                    | [] => -1 :: code_points r0
                    end
              | [] => -1 :: code_points r0
              end
        | [] => [-1]
        end
  end.

(** [Py_UNICODE_ISSPACE] from code point 128 on (Unicode 14.0). *)
Definition unicode_spaces : list Z :=
  [ 0x85; 0xA0; 0x1680; 0x2000; 0x2001; 0x2002; 0x2003; 0x2004; 0x2005;
    0x2006; 0x2007; 0x2008; 0x2009; 0x200A; 0x2028; 0x2029; 0x202F; 0x205F;
    0x3000 ].

Definition is_unicode_space (cp : Z) : bool := existsb (Z.eqb cp) unicode_spaces.

(** [Py_UNICODE_TODECIMAL]: the decimal digits of Unicode 14.0 come in
    runs of ten, zero first; these are the zeros from code point 128 on. *)
Definition decimal_zeros : list Z :=
  [ 0x660; 0x6F0; 0x7C0; 0x966; 0x9E6; 0xA66; 0xAE6; 0xB66; 0xBE6;
    0xC66; 0xCE6; 0xD66; 0xDE6; 0xE50; 0xED0; 0xF20; 0x1040; 0x1090;
    0x17E0; 0x1810; 0x1946; 0x19D0; 0x1A80; 0x1A90; 0x1B50; 0x1BB0;
    0x1C40; 0x1C50; 0xA620; 0xA8D0; 0xA900; 0xA9D0; 0xA9F0; 0xAA50;
    0xABF0; 0xFF10; 0x104A0; 0x10D30; 0x11066; 0x110F0; 0x11136;
    0x111D0; 0x112F0; 0x11450; 0x114D0; 0x11650; 0x116C0; 0x11730;
    0x118E0; 0x11950; 0x11C50; 0x11D50; 0x11DA0; 0x16A60; 0x16AC0;
    0x16B50; 0x1D7CE; 0x1D7D8; 0x1D7E2; 0x1D7EC; 0x1D7F6; 0x1E140;
    0x1E2F0; 0x1E950; 0x1FBF0 ].

Definition to_decimal (cp : Z) : option Z :=
  match List.find (fun z => (z <=? cp) && (cp <=? z + 9)) decimal_zeros with
  | Some z => Some (cp - z)
  | None => None
  end.

(** [_PyUnicode_TransformDecimalAndSpaceToASCII] on a text that is not
    ASCII. *)
Fixpoint transform_decimal_and_space (cps : list Z) : list ascii :=
  match cps with
  | [] => []
  | ch :: r =>
      if (0 <=? ch) && (ch <? 127) then
        ascii_of_N (Z.to_N ch) :: transform_decimal_and_space r
      else if is_unicode_space ch then
        " "%char :: transform_decimal_and_space r
      else
        match to_decimal ch with
        | Some decimal =>
            ascii_of_N (Z.to_N (48 + decimal)) :: transform_decimal_and_space r
        | None => ["?"%char]
        end
  end.

Definition ascii_text (s : string) : list ascii :=
  if is_ascii s then list_ascii_of_string s
  else transform_decimal_and_space (code_points (Sha256.bytes_of_string s)).

Fixpoint lstrip (s : list ascii) : list ascii :=
  match s with
  | c :: r => if is_space c then lstrip r else s
  | [] => []
  end.

Definition strip (s : list ascii) : list ascii :=
  List.rev (lstrip (List.rev (lstrip s))).

Fixpoint parse_digits (acc : Z) (after_digit : bool) (s : list ascii) : option Z :=
  match s with
  | [] => if after_digit then Some acc else None
  | c :: r =>
      match digit_of c with
      | Some d => parse_digits (10 * acc + d) true r
      | None =>
          if Ascii.eqb c "_"%char && after_digit then parse_digits acc false r
          else None
      end
  end.

Definition py_int (s : string) : option Z :=
  match strip (ascii_text s) with
  | c :: r =>
      if Ascii.eqb c "-"%char then option_map Z.opp (parse_digits 0 false r)
      else if Ascii.eqb c "+"%char then parse_digits 0 false r
      else parse_digits 0 false (c :: r)
  | [] => None
  end.

(** ** hmac.compare_digest on two [str]

    Raises TypeError ([None]) when an argument holds a non-ASCII
    character; otherwise it is equality, in constant time. *)
Definition compare_digest (a b : string) : option bool :=
  if is_ascii a && is_ascii b then Some (String.eqb a b) else None.

(** ** WebhookSignatureVerifier *)

Record HTTPException : Type :=
  { status_code : Z; detail : string }.

Definition generate_signature (payload timestamp secret : string) : string :=
  let signed_payload := (timestamp ++ "." ++ payload)%string in
  let signature := Sha256.hmac_sha256_hex secret signed_payload in
  ("sha256=" ++ signature)%string.

(** [now] is the value of [int(time.time())] read by the call. *)
Definition verify_signature (now : Z)
    (payload signature_header timestamp_header secret : string)
    (tolerance_seconds : Z) : result HTTPException bool :=
  match py_int timestamp_header with
  | None => Raise {| status_code := 400; detail := "Invalid timestamp format" |}
  | Some webhook_timestamp =>
      let current_timestamp := now in
      let age_seconds := current_timestamp - webhook_timestamp in
      if age_seconds >? tolerance_seconds then
        Raise {| status_code := 400; detail := "Webhook timestamp too old" |}
      else if age_seconds <? - tolerance_seconds then
        Raise {| status_code := 400;
                 detail := "Webhook timestamp too far in future" |}
      else
        let expected_signature :=
          generate_signature payload timestamp_header secret in
        match compare_digest signature_header expected_signature with
        | None => Raise {| status_code := 500;
                           detail := "Signature verification failed" |}
        | Some false => Raise {| status_code := 401;
                                 detail := "Invalid webhook signature" |}
        | Some true => Ok true
        end
  end.



End WebhookSecurity.

(** * payment-service/app/core/webhook_client.py *)
Module WebhookClient.

(** What one POST does: a response (status code, body text, and whether
    the body parses as JSON), or an exception of httpx or of anything
    else. *)
Inductive post_outcome : Type :=
| Response (status_code : Z) (text : string) (is_json : bool)
| PostTimeout
| PostTransportError
| PostOtherError.

(** The exceptions [send_webhook] can leave with.  [HTTPStatusError] is
    raised by [response.raise_for_status()] and, like [TimeoutException],
    is a subclass of [httpx.HTTPError]. *)
Inductive exn : Type :=
| HTTPStatusError (status_code : Z)
| TimeoutException
| HTTPError
| OtherException
| HTTPErrorAllRetries.

(** The value returned on success: [response.json()], or the marker
    dictionary with the raw text when the body is not JSON. *)
Inductive delivered : Type :=
| JsonBody (text : string)
| RawResponse (text : string).

(** One iteration of the [for attempt in range(retries + 1)] body. *)
Inductive iteration : Type :=
| Return (d : delivered)
| Continue (slept : list Z) (last_exception : option exn).

(** The shared tail of the three [except] clauses. *)
Definition handler (retries attempt : Z) (e : exn) : iteration :=
  if attempt <? retries then Continue [2 ^ attempt] (Some e)
  else Continue [] (Some e).

Definition attempt_body (retries attempt : Z) (o : post_outcome)
    (last_exception : option exn) : iteration :=
  match o with
  | Response code text is_json =>
      if code <? 400 then
        Return (if is_json then JsonBody text else RawResponse text)
      else if (400 <=? code) && (code <? 500) then
        (* response.raise_for_status() inside the try block *)
        handler retries attempt (HTTPStatusError code)
      else if attempt <? retries then
        Continue [2 ^ attempt] last_exception
      else
        (* response.raise_for_status() inside the try block *)
        handler retries attempt (HTTPStatusError code)
  | PostTimeout => handler retries attempt TimeoutException
  | PostTransportError => handler retries attempt HTTPError
  | PostOtherError => handler retries attempt OtherException
  end.

(** The loop over [remaining] further attempts starting at [attempt];
    [net] gives the outcome of the POST of each attempt.  The second
    component lists the arguments of [asyncio.sleep], in order. *)
Fixpoint attempts (remaining : nat) (retries attempt : Z)
    (net : Z -> post_outcome) (last_exception : option exn)
  : result exn delivered * list Z :=
  match remaining with
  | O =>
      (Raise (match last_exception with
              | Some e => e
              | None => HTTPErrorAllRetries
              end), [])
  | S k =>
      match attempt_body retries attempt (net attempt) last_exception with
      | Return d => (Ok d, [])
      | Continue slept last =>
          let '(r, sl) := attempts k retries (attempt + 1) net last in
          (r, slept ++ sl)
      end
  end.

Definition send_webhook (retries : Z) (net : Z -> post_outcome)
  : result exn delivered * list Z :=
  attempts (Z.to_nat (retries + 1)) retries 0 net None.

(** Failures the specification says are retried. *)
Definition retryable (o : post_outcome) : Prop :=
  match o with
  | Response code _ _ => 500 <= code
  | _ => True
  end.

Definition error_of (o : post_outcome) : exn :=
  match o with
  | Response code _ _ => HTTPStatusError code
  | PostTimeout => TimeoutException
  | PostTransportError => HTTPError
  | PostOtherError => OtherException
  end.

(** [2^from; ...; 2^(from + n - 1)] *)
Fixpoint backoff_sleeps (n : nat) (from : Z) : list Z :=
  match n with
  | O => []
  | S k => 2 ^ from :: backoff_sleeps k (from + 1)
  end.

End WebhookClient.

(** * subscription-service: the usage meter

    [RedisClient.atomic_usage_check] (app/core/redis_client.py) and
    [UsageService.use_feature] (app/services/usage_service.py). *)
Module UsageMeter.

(** The Redis hash kept under [usage:<user_id>:<feature_name>]: its two
    fields, each possibly absent, and the key's time to live.  [hcount]
    is the integer the stored field spells ([None] when the field is
    absent or not numeric). *)
Record usage_hash : Type :=
  { hcount : option Z; hreset_at : option string; httl : option Z }.

Definition usage_key (user_id : Z) (feature_name : string) : string :=
  ("usage:" ++ py_str_of_int user_id ++ ":" ++ feature_name)%string.

(** Lua's [<=] on two strings: byte-wise lexicographic order. *)
Definition lua_str_le (a b : string) : bool := String.leb a b.

(** The reply of the script: [{flag, count, limit}]. *)
Record script_reply : Type :=
  { flag : Z; reply_count : Z; reply_limit : Z }.

(** Lua numbers are IEEE 754 doubles.  [lua_number z] is the double
    [tonumber] returns for the decimal text of the integer [z], and the
    one an arithmetic operation returns for the exact result [z]: [z]
    itself up to 2^53 in absolute value, and beyond that the nearest
    multiple of the spacing of doubles at its size, a tie going to the
    even one.  From 2^1024 on a double is infinite; such integers are
    outside this model. *)
Definition exact_integers : Z := 2 ^ 53.

Definition lua_number (z : Z) : Z :=
  let a := Z.abs z in
  if a <=? exact_integers then z
  else
    let e := Z.log2 a - 52 in
    let q := Z.shiftr a e in
    let r := a - Z.shiftl q e in
    let half := 2 ^ (e - 1) in
    let q := if (half <? r) || ((r =? half) && Z.odd q) then q + 1 else q in
    Z.sgn z * Z.shiftl q e.

Definition tonumber (z : Z) : Z := lua_number z.
Definition lua_add (a b : Z) : Z := lua_number (a + b).

(** The Lua script, as one transition of the key space.  [HMGET] on a
    missing key or field yields [false], which [tonumber] maps to [nil]
    and the [and] guard treats as false; a stored string, the empty one
    included, is true in Lua. *)
Definition lua_script (store : gmap string usage_hash) (key : string)
    (limit delta : Z) (reset_at current_time : string)
  : gmap string usage_hash * script_reply :=
  let limit := tonumber limit in
  let delta := tonumber delta in
  let current := store !! key in
  let count := match current with
               | Some h => match hcount h with
                           | Some c => tonumber c
                           | None => 0
                           end
               | None => 0
               end in
  let stored_reset := match current with
                      | Some h => hreset_at h
                      | None => None
                      end in
  (* Check if expired *)
  let count := match stored_reset with
               | Some r => if lua_str_le r current_time then 0 else count
               | None => count
               end in
  (* Check limit *)
  if lua_add count delta >? limit then
    (store, {| flag := 0; reply_count := count; reply_limit := limit |})
  else
    (* Increment *)
    let count := lua_add count delta in
    (<[key := {| hcount := Some count; hreset_at := Some reset_at;
                 httl := Some 86400 |}]> store,
     {| flag := 1; reply_count := count; reply_limit := limit |}).

Record usage_result : Type :=
  { success : bool; current_usage : Z; result_limit : Z }.

(** [current_time] is the text redis-py sends for [time.time()]. *)
Definition atomic_usage_check (store : gmap string usage_hash)
    (user_id : Z) (feature_name : string) (limit delta : Z)
    (reset_at : option string) (current_time : string)
  : gmap string usage_hash * usage_result :=
  let key := usage_key user_id feature_name in
  let '(store', reply) :=
    lua_script store key limit delta
      (default EmptyString reset_at)   (* reset_at or the empty string *)
      current_time in
  (store', {| success := negb (flag reply =? 0);
              current_usage := reply_count reply;
              result_limit := reply_limit reply |}).

(** The [user_usage] table: [(user_id, feature_name)] is unique. *)
Record UserUsage : Type := { usage_count : Z; reset_at_epoch : Z }.

Record UsageCheckResponse : Type :=
  { resp_success : bool; resp_current_usage : Z; resp_limit : Z;
    remaining : Z; resp_reset_at : Z }.

(** [use_feature]: [plan_limits] is the feature-limit bag of the plan of
    the user's active subscription ([None] without such a subscription);
    [next_month_first] is the epoch of the first day of the next month. *)
Definition use_feature (plan_limits : option (gmap string Z))
    (store : gmap string usage_hash) (db : gmap (Z * string) UserUsage)
    (user_id : Z) (feature_name : string) (delta : Z)
    (next_month_first : Z) (current_time : string)
  : result string UsageCheckResponse
    * gmap string usage_hash * gmap (Z * string) UserUsage :=
  match plan_limits with
  | None => (Raise "No active subscription found for user", store, db)
  | Some feature_limits =>
      let feature_limit := default 0 (feature_limits !! feature_name) in
      if feature_limit <=? 0 then
        (Raise "Feature is not available in current plan", store, db)
      else
        let reset_at_str := py_str_of_int next_month_first in
        let '(store', r) :=
          atomic_usage_check store user_id feature_name feature_limit delta
            (Some reset_at_str) current_time in
        let db' :=
          if success r then
            <[(user_id, feature_name) :=
                {| usage_count := current_usage r;
                   reset_at_epoch := next_month_first |}]> db
          else db in
        (Ok {| resp_success := success r;
               resp_current_usage := current_usage r;
               resp_limit := result_limit r;
               remaining := Z.max 0 (result_limit r - current_usage r);
               resp_reset_at := next_month_first |}, store', db')
  end.

(** The stored count, 0 when there is none. *)
Definition stored_count (store : gmap string usage_hash) (key : string) : Z :=
  match store !! key with
  | Some h => default 0 (hcount h)
  | None => 0
  end.

(** ** The meter of the specification (section 4.9)

    The state of a key is [(count, reset_at)], by default 0 and the empty
    string; [reset_at] is an epoch in seconds ([None] stands for the empty
    string).  [now] is the clock in whole seconds: an epoch is a whole
    number, so it is at most the time of the clock exactly when it is at
    most its whole seconds. *)
Record meter_state : Type := { m_count : Z; m_reset_at : option Z }.

Definition meter_default : meter_state := {| m_count := 0; m_reset_at := None |}.

Record meter_answer : Type :=
  { allowed : bool; answer_count : Z; answer_limit : Z }.

(** The answer, and the state and time to live written, if any. *)
Definition spec_meter (st : meter_state) (delta limit reset_at_epoch now : Z)
  : meter_answer * option (meter_state * Z) :=
  let count := match m_reset_at st with
               | Some reset_at => if reset_at <=? now then 0 else m_count st
               | None => m_count st
               end in
  if count + delta >? limit then
    ({| allowed := false; answer_count := count; answer_limit := limit |}, None)
  else
    let count := count + delta in
    ({| allowed := true; answer_count := count; answer_limit := limit |},
     Some ({| m_count := count; m_reset_at := Some reset_at_epoch |}, 86400)).

(** The hash a state is kept in: the count, and the reset epoch as the
    text [use_feature] sends, [str(int(next_month_first.timestamp()))]. *)
Definition hash_of (st : meter_state) (ttl : Z) : usage_hash :=
  {| hcount := Some (m_count st);
     hreset_at := py_str_of_int <$> m_reset_at st;
     httl := Some ttl |}.

(** What a key holds stands for a state: nothing for the default state,
    and the hash this meter writes for any other. *)
Definition represents (h : option usage_hash) (st : meter_state) : Prop :=
  match h with
  | None => st = meter_default
  | Some h => exists reset_at ttl,
      m_reset_at st = Some reset_at /\ h = hash_of st ttl
  end.

(** The text redis-py sends for the float [time.time()]: its whole
    seconds, a point, and the digits of the fraction. *)
Definition float_text (seconds : Z) (fraction : string) : string :=
  (py_str_of_int seconds ++ "." ++ fraction)%string.

(** Epochs of ten digits: from 2001-09-09 to 2286-11-20. *)
Definition ten_digits (t : Z) : Prop := 10 ^ 9 <= t < 10 ^ 10.

End UsageMeter.

(** * JSON values, as [json.loads] returns them *)
Module Json.

Inductive json : Type :=
| JNull
| JBool (b : bool)
| JInt (n : Z)
| JFloat (num den : Z)
| JStr (s : string)
| JList (l : list json)
| JDict (d : list (string * json)).

(** A Python dict keeps its keys in insertion order, each once. *)
Fixpoint dict_get (k : string) (d : list (string * json)) : option json :=
  match d with
  | [] => None
  | (k', v) :: r => if String.eqb k k' then Some v else dict_get k r
  end.

(** [d[k] = v]: in place when the key is there, at the end otherwise. *)
Fixpoint dict_set (k : string) (v : json) (d : list (string * json))
  : list (string * json) :=
  match d with
  | [] => [(k, v)]
  | (k', v') :: r =>
      if String.eqb k k' then (k', v) :: r else (k', v') :: dict_set k v r
  end.

(** Truth value of an object. *)
Definition truthy (j : json) : bool :=
  match j with
  | JNull => false
  | JBool b => b
  | JInt n => negb (n =? 0)
  | JFloat n _ => negb (n =? 0)
  | JStr s => negb (String.eqb s EmptyString)
  | JList l => match l with [] => false | _ => true end
  | JDict d => match d with [] => false | _ => true end
  end.

(** [int(j)]; [None] stands for the TypeError or ValueError raised. *)
Definition py_int_of (j : json) : option Z :=
  match j with
  | JInt n => Some n
  | JBool b => Some (if b then 1 else 0)
  | JFloat n d => if d =? 0 then None else Some (Z.quot n d)
  | JStr s => WebhookSecurity.py_int s
  | JNull | JList _ | JDict _ => None
  end.

End Json.

(** * The Redis key space used by the queues *)
Module Redis.

(** Lists hold their head first; a sorted set maps members to scores; a
    string key carries its value and the time at which it expires. *)
Record redis : Type :=
  { lists : gmap string (list string);
    zsets : gmap string (gmap string Z);
    strings : gmap string (string * Z) }.

Definition empty : redis :=
  {| lists := ∅; zsets := ∅; strings := ∅ |}.

Definition lrange_all (r : redis) (key : string) : list string :=
  default [] (lists r !! key).

Definition with_list (r : redis) (key : string) (l : list string) : redis :=
  {| lists := <[key := l]> (lists r); zsets := zsets r; strings := strings r |}.

(** LPUSH key value *)
Definition lpush (r : redis) (key value : string) : redis :=
  with_list r key (value :: lrange_all r key).

(** BRPOPLPUSH source destination, once the wait is over: the tail of the
    source becomes the head of the destination. *)
Definition brpoplpush (r : redis) (source destination : string)
  : redis * option string :=
  match List.rev (lrange_all r source) with
  | [] => (r, None)
  | msg :: rest =>
      let r1 := with_list r source (List.rev rest) in
      (lpush r1 destination msg, Some msg)
  end.

Fixpoint remove_first (value : string) (l : list string) : list string :=
  match l with
  | [] => []
  | x :: rest => if String.eqb x value then rest else x :: remove_first value rest
  end.

(** LREM key 1 value *)
Definition lrem1 (r : redis) (key value : string) : redis :=
  with_list r key (remove_first value (lrange_all r key)).

(** ZADD key score member *)
Definition zadd (r : redis) (key member : string) (score : Z) : redis :=
  {| lists := lists r;
     zsets := <[key := <[member := score]> (default ∅ (zsets r !! key))]> (zsets r);
     strings := strings r |}.

Definition zscore (r : redis) (key member : string) : option Z :=
  (zsets r !! key) ≫= (fun z => z !! member).

(** EXISTS key, at time [now]. *)
Definition exists_key (r : redis) (now : Z) (key : string) : bool :=
  match strings r !! key with
  | Some (_, expires_at) => now <? expires_at
  | None => false
  end.

(** SET key value NX EX ttl *)
Definition set_nx_ex (r : redis) (now : Z) (key value : string) (ttl : Z)
  : redis * bool :=
  if exists_key r now key then (r, false)
  else ({| lists := lists r; zsets := zsets r;
           strings := <[key := (value, now + ttl)]> (strings r) |}, true).

(** DEL key *)
Definition del (r : redis) (key : string) : redis :=
  {| lists := lists r; zsets := zsets r; strings := delete key (strings r) |}.

End Redis.

(** * Queue policies (app/core/queue_policies.py of both services)

    Every policy of the sources has the multiplier 2.0, kept here as the
    integer 2. *)
Module QueuePolicies.

Record QueuePolicy : Type :=
  { max_retries : Z;
    base_delay_seconds : Z;
    backoff_multiplier : Z;
    max_delay_seconds : Z;
    jitter_seconds : Z;
    lock_ttl_seconds : Z;
    visibility_timeout_seconds : Z }.

Definition DEFAULT_POLICY : QueuePolicy :=
  {| max_retries := 5; base_delay_seconds := 60; backoff_multiplier := 2;
     max_delay_seconds := 3600; jitter_seconds := 10;
     lock_ttl_seconds := 180; visibility_timeout_seconds := 300 |}.

Definition SHORT_POLICY : QueuePolicy :=
  {| max_retries := 3; base_delay_seconds := 60; backoff_multiplier := 2;
     max_delay_seconds := 600; jitter_seconds := 5;
     lock_ttl_seconds := 120; visibility_timeout_seconds := 240 |}.

(** subscription-service *)
Definition SUB_QUEUE_POLICIES : gmap string QueuePolicy :=
  {[ "q:sub:payment_initiation" := DEFAULT_POLICY;
     "q:sub:trial_payment" := SHORT_POLICY;
     "q:sub:plan_change" := DEFAULT_POLICY;
     "q:sub:usage_sync" := DEFAULT_POLICY ]}.

(** payment-service *)
Definition PAY_QUEUE_POLICIES : gmap string QueuePolicy :=
  {[ "q:pay:subscription_update" := DEFAULT_POLICY;
     "q:pay:refund_initiation" := SHORT_POLICY ]}.

(** [min(int(base * mult ** max(0, attempts)), cap)], then the jitter
    drawn by [random.randint(0, jitter)]. *)
Definition backoff_of (base mult cap : Z) (attempts draw : Z) : Z :=
  let delay := Z.min (base * mult ^ Z.max 0 attempts) cap in
  Z.max 0 (delay + draw).

Definition compute_backoff (policies : gmap string QueuePolicy)
    (queue_name : string) (attempts draw : Z) : Z :=
  match policies !! queue_name with
  | Some p => backoff_of (base_delay_seconds p) (backoff_multiplier p)
                (max_delay_seconds p) attempts draw
  | None => backoff_of 60 2 3600 attempts draw
  end.

End QueuePolicies.

(** * Queue workers and sweepers

    [json.loads], [json.dumps], the built-in [hash] of a str (seeded per
    process) and [str()] of compound values are library functions: the
    workers are defined over any behaviour of them.  [json_loads] returns
    [None] where Python raises. *)
Module Workers.
Import Json Redis QueuePolicies.

Section Library.
Variable json_loads : string -> option json.
Variable json_dumps : json -> string.
Variable py_hash : string -> Z.
Variable py_repr : json -> string.

(** What an f-string prints for a value. *)
Definition py_str (j : json) : string :=
  match j with
  | JStr s => s
  | JInt n => py_str_of_int n
  | JBool true => "True"
  | JBool false => "False"
  | JNull => "None"
  | _ => py_repr j
  end.

Definition processing_of (queue_main : string) : string :=
  (queue_main ++ ":processing")%string.
Definition delayed_of (queue_main : string) : string :=
  (queue_main ++ ":delayed")%string.
Definition failed_of (queue_main : string) : string :=
  (queue_main ++ ":failed")%string.

(** RedisClient.queue_message, remove_from_processing,
    queue_delayed_message, set_lock, release_lock *)
Definition queue_message (r : redis) (queue_name : string) (message : json) : redis :=
  lpush r queue_name (json_dumps message).

Definition remove_from_processing (r : redis) (processing_queue message_json : string)
  : redis :=
  lrem1 r processing_queue message_json.

Definition queue_delayed_message (r : redis) (now : Z) (queue_name : string)
    (message : json) (delay_seconds : Z) : redis :=
  zadd r (delayed_of queue_name) (json_dumps message) (now + delay_seconds).

Definition set_lock (r : redis) (now : Z) (lock_key : string) (ttl_seconds : Z)
  : redis * bool :=
  set_nx_ex r now lock_key "1" ttl_seconds.

Definition release_lock (r : redis) (lock_key : string) : redis := del r lock_key.

(** [int((raw or {}).get("attempts", 0) if isinstance(raw, dict) else 0)] *)
Definition attempts_of (raw : json) : option Z :=
  match raw with
  | JDict d => py_int_of (default (JInt 0) (dict_get "attempts" d))
  | _ => Some 0
  end.

(** The message written back for a retry: the dict itself with its
    attempts replaced, or a fresh wrapper around a non-dict. *)
Definition retry_message (raw : json) (attempts : Z) : json :=
  match raw with
  | JDict d => JDict (dict_set "attempts" (JInt attempts) d)
  | _ => JDict [("payload", raw); ("attempts", JInt attempts)]
  end.

(** ** subscription-service/app/workers/queue_processor.py *)

(** The lock key of [_claim_lock_process]. *)
Definition sub_worker_lock_key (queue_main msg : string) : string :=
  ("lock:" ++ queue_main ++ ":" ++ py_str_of_int (py_hash msg))%string.

(** The message id and lock key of [sweep_processing_queues]. *)
Definition sub_sweeper_mid (msg : string) : string :=
  let raw := default (JDict []) (json_loads msg) in
  match raw with
  | JDict d =>
      match dict_get "id" d with
      | Some v => if truthy v then py_str v else py_str_of_int (py_hash msg)
      | None => py_str_of_int (py_hash msg)
      end
  | _ => py_str_of_int (py_hash msg)
  end.

Definition sub_sweeper_lock_key (queue_main msg : string) : string :=
  ("lock:" ++ queue_main ++ ":" ++ sub_sweeper_mid msg)%string.

(** Where [_claim_lock_process] stands once the lock is decided. *)
Inductive claimed : Type :=
| NoMessage
| AttemptsError
| LockUnavailable
| Locked (msg : string) (raw : json) (attempts : Z) (lock_key : string).

Definition sub_max_retries (queue_main : string) : Z :=
  match SUB_QUEUE_POLICIES !! queue_main with
  | Some p => max_retries p
  | None => 5
  end.

Definition sub_lock_ttl (queue_main : string) : Z :=
  let ttl := match SUB_QUEUE_POLICIES !! queue_main with
             | Some p => lock_ttl_seconds p
             | None => 120
             end in
  if ttl =? 0 then 120 else ttl.

(** [_claim_lock_process] up to the call of the handler. *)
Definition claim_and_lock (r : redis) (now : Z) (queue_main : string)
  : redis * claimed :=
  let queue_processing := processing_of queue_main in
  match brpoplpush r queue_main queue_processing with
  | (r1, None) => (r1, NoMessage)
  | (r1, Some msg) =>
      if String.eqb msg EmptyString then (r1, NoMessage) else
      let raw := default (JStr msg) (json_loads msg) in
      match attempts_of raw with
      | None => (r1, AttemptsError)
      | Some attempts =>
          let lock_key := sub_worker_lock_key queue_main msg in
          match set_lock r1 now lock_key (sub_lock_ttl queue_main) with
          | (r2, false) =>
              let r3 := remove_from_processing r2 queue_processing msg in
              let r4 := queue_message r3 queue_main
                          (match raw with
                           | JDict _ => raw
                           | _ => JDict [("payload", raw)]
                           end) in
              (r4, LockUnavailable)
          | (r2, true) => (r2, Locked msg raw attempts lock_key)
          end
      end
  end.

(** What the handler did: it returned a label, or raised. *)
Inductive handler_outcome : Type :=
| Returned (label : string)
| Raised.

(** [_claim_lock_process] from the call of the handler on: the [except]
    branch and the [finally] clause.  [draw] is the jitter drawn. *)
Definition after_handler (r : redis) (now draw : Z) (queue_main : string)
    (msg : string) (raw : json) (attempts : Z) (lock_key : string)
    (h : handler_outcome) : redis * string :=
  match h with
  | Returned label => (release_lock r lock_key, label)
  | Raised =>
      let attempts_next := attempts + 1 in
      let max_retries := sub_max_retries queue_main in
      let r1 := remove_from_processing r (processing_of queue_main) msg in
      if attempts_next <=? max_retries then
        let r2 := queue_delayed_message r1 now queue_main
                    (retry_message raw attempts_next)
                    (compute_backoff SUB_QUEUE_POLICIES queue_main attempts_next draw) in
        (release_lock r2 lock_key, "retry")
      else
        let r2 := lpush r1 (failed_of queue_main) msg in
        (release_lock r2 lock_key, "failed")
  end.

Definition claim_lock_process (r : redis) (now draw : Z) (queue_main : string)
    (handler_task : string -> handler_outcome) : redis * option string :=
  match claim_and_lock r now queue_main with
  | (r1, NoMessage) => (r1, Some "no_message")
  | (r1, AttemptsError) => (r1, None)
  | (r1, LockUnavailable) => (r1, Some "retry")
  | (r1, Locked msg raw attempts lock_key) =>
      let '(r2, label) :=
        after_handler r1 now draw queue_main msg raw attempts lock_key
          (handler_task msg) in
      (r2, Some label)
  end.

(** One entry of a processing list under [sweep_processing_queues]:
    the new key space, whether the entry was swept, and whether a jitter
    value was drawn; [None] when [int(...)] raises, which ends the whole
    sweep. *)
Definition sub_sweep_item (r : redis) (now draw : Z) (main msg : string)
  : option (redis * bool * bool) :=
  let raw := default (JDict []) (json_loads msg) in
  let lock_key := sub_sweeper_lock_key main msg in
  if exists_key r now lock_key then Some (r, false, false)
  else
    (* No lock -> orphan *)
    match attempts_of raw with
    | None => None
    | Some a =>
        let attempts := a + 1 in
        let r1 := remove_from_processing r (processing_of main) msg in
        let max_try := sub_max_retries main in
        if attempts <=? max_try then
          Some (queue_delayed_message r1 now main (retry_message raw attempts)
                  (compute_backoff SUB_QUEUE_POLICIES main attempts draw),
                true, true)
        else
          Some (lpush r1 (failed_of main) msg, true, false)
    end.

(** The loop over the entries read by LRANGE; [draws] are the jitter
    values in the order they are drawn. *)
Fixpoint sub_sweep_items (r : redis) (now : Z) (draws : list Z) (main : string)
    (items : list string) (swept : Z) : redis * option Z :=
  match items with
  | [] => (r, Some swept)
  | msg :: rest =>
      match sub_sweep_item r now (hd 0 draws) main msg with
      | None => (r, None)
      | Some (r1, was_swept, drew) =>
          sub_sweep_items r1 now (if drew then tl draws else draws) main rest
            (if was_swept then swept + 1 else swept)
      end
  end.

Definition sub_sweep_queue (r : redis) (now : Z) (draws : list Z) (main : string)
  : redis * option Z :=
  sub_sweep_items r now draws main (lrange_all r (processing_of main)) 0.

(** ** payment-service/app/workers/tasks.py *)

Definition hash_message (message_json : string) : string :=
  Sha256.sha256_hex message_json.

Record parsed_message : Type :=
  { envelope_or_raw : json;
    payload : json;
    message_id : string;
    attempts : Z;
    max_attempts : json }.

(** [x or 0], then [int] *)
Definition int_or_zero (v : option json) : option Z :=
  match v with
  | Some j => if truthy j then py_int_of j else Some 0
  | None => Some 0
  end.

Definition id_or_hash (v : option json) (message_json : string) : string :=
  match v with
  | Some j => if truthy j then py_str j else hash_message message_json
  | None => hash_message message_json
  end.

(** [_parse_message]; [None] when it raises. *)
Definition parse_message (message_json : string) : option parsed_message :=
  match json_loads message_json with
  | Some (JDict d) =>
      let is_envelope :=
        match dict_get "payload" d, dict_get "action" d with
        | Some _, Some _ => true
        | _, _ => false
        end in
      a ← int_or_zero (dict_get "attempts" d);
      Some {| envelope_or_raw := JDict d;
              payload := if is_envelope
                         then default (JDict []) (dict_get "payload" d)
                         else JDict d;
              message_id := id_or_hash
                              (dict_get (if is_envelope then "id" else "event_id") d)
                              message_json;
              attempts := a;
              max_attempts := default JNull (dict_get "max_attempts" d) |}
  | _ => None
  end.

(** The retry ceiling of the payment workers: the policy's, unless the
    message carries a max_attempts that [int] accepts. *)
Definition pay_max_try (queue_main : string) (fallback : Z) (max_attempts : json) : Z :=
  let max_try := match PAY_QUEUE_POLICIES !! queue_main with
                 | Some p => max_retries p
                 | None => fallback
                 end in
  match max_attempts with
  | JNull => max_try
  | j => default max_try (py_int_of j)
  end.

Definition pay_retry_message (p : parsed_message) (attempts_next : Z) : json :=
  match envelope_or_raw p with
  | JDict d =>
      match dict_get "payload" d with
      | Some _ => JDict (dict_set "attempts" (JInt attempts_next) d)
      | None =>
          match payload p with
          | JDict pd => JDict (dict_set "attempts" (JInt attempts_next) pd)
          | other => other
          end
      end
  | other => other
  end.

(** The [except] branch and [finally] clause of
    [_process_subscription_update_once] and
    [_process_refund_initiation_once]. *)
Definition pay_on_failure (r : redis) (now draw : Z) (queue_main : string)
    (fallback : Z) (message_json : string) (p : parsed_message) : redis * string :=
  let lock_key := ("lock:" ++ queue_main ++ ":" ++ message_id p)%string in
  let attempts_next := attempts p + 1 in
  let r1 := remove_from_processing r (processing_of queue_main) message_json in
  let max_try := pay_max_try queue_main fallback (max_attempts p) in
  if attempts_next <=? max_try then
    let r2 := queue_delayed_message r1 now queue_main
                (pay_retry_message p attempts_next)
                (compute_backoff PAY_QUEUE_POLICIES queue_main attempts_next draw) in
    (release_lock r2 lock_key, "retry")
  else
    let r2 := lpush r1 (failed_of queue_main) message_json in
    (release_lock r2 lock_key, "failed").

End Library.

(** The retry ceiling the specification describes: the envelope's
    max_attempts when present, the policy's max_retries otherwise. *)
Definition spec_effective_max (policy_max : Z) (max_attempts : option Z) : Z :=
  match max_attempts with
  | Some m => m
  | None => policy_max
  end.

(** The message id the specification describes: the envelope's id when
    present, the SHA-256 of the serialized message otherwise. *)
Definition spec_message_id (id : option string) (msg : string) : string :=
  match id with
  | Some i => i
  | None => Sha256.sha256_hex msg
  end.

End Workers.

(** * subscription-service: models, repositories and the webhook service

    Rows carry the columns the webhook path reads or writes (the
    created_at and updated_at stamps of the mixin are left out).  A date
    is its number of seconds since the epoch; a UUID is its 128-bit
    value.  [UUID] is the constructor [uuid.UUID(text)] ([None] where it
    raises ValueError), [uuid_str] is [str(u)], and [isoformat] is
    [datetime.isoformat]. *)
Module Subscriptions.
Import Json.

Definition day : Z := 86400.

(** ** app/models *)

Record Plan : Type :=
  { plan_pk : Z; plan_name : string; billing_cycle : string; features : json }.

Record Subscription : Type :=
  { sub_pk : Z; user_pk : Z; sub_plan_id : Z; status : string;
    start_date : Z; end_date : Z; canceled_at : option Z }.

Record SubscriptionEvent : Type :=
  { ev_subscription_id : Z; event_type : string;
    ev_transaction_id : option Z;
    old_plan_id : option Z; new_plan_id : option Z;
    effective_at : Z; event_metadata : json }.

Record PaymentWebhookRequest : Type :=
  { row_id : Z; event_id : string; payload : json; processed : bool;
    processed_at : option Z; error_message : option string; retry_count : Z }.

(** Plan.is_trial_plan: the features are a dict whose trial is True. *)
Definition is_trial_plan (p : Plan) : bool :=
  match features p with
  | JDict d => match dict_get "trial" d with
               | Some (JBool true) => true
               | _ => false
               end
  | _ => false
  end.

(** Plan.trial_renewal_plan_id: the value whose [str] is returned. *)
Definition trial_renewal_plan_id (p : Plan) : option json :=
  match features p with
  | JDict d =>
      if is_trial_plan p then
        match dict_get "renewal_plan" d with
        | Some JNull | None => None
        | Some v => Some v
        end
      else None
  | _ => None
  end.

(** [int(str(v))] for a value read from the feature bag: the text of a
    bool, a float, a list or a dict is no integer literal. *)
Definition int_of_str_of (v : json) : option Z :=
  match v with
  | JInt n => Some n
  | JStr s => WebhookSecurity.py_int s
  | _ => None
  end.

(** Subscription.extend_subscription(months) *)
Definition extend_subscription (cycle : string) (months : Z) (s : Subscription)
  : Subscription :=
  {| sub_pk := sub_pk s; user_pk := user_pk s; sub_plan_id := sub_plan_id s;
     status := status s; start_date := start_date s;
     end_date := if String.eqb cycle "yearly" then end_date s + 365 * day
                 else end_date s + (30 * months) * day;
     canceled_at := canceled_at s |}.

(** ** The relational store and the session *)

Record db : Type :=
  { subscriptions : gmap Z Subscription;
    plans : gmap Z Plan;
    events : list SubscriptionEvent;
    inbox : list PaymentWebhookRequest }.

(** A session reads and writes [pending]; commit makes it the stored
    state, rollback goes back to the stored state. *)
Record session : Type := { committed : db; pending : db }.

Definition commit (s : session) : session :=
  {| committed := pending s; pending := pending s |}.

Definition rollback (s : session) : session :=
  {| committed := committed s; pending := committed s |}.

Definition with_pending (s : session) (d : db) : session :=
  {| committed := committed s; pending := d |}.

(** ** app/repositories *)

(** Modelled from the spec: BaseRepository.update of the subscription
    service is not among the sources; it is taken to be the one of the
    payment service (app/repositories/base_repository.py): an UPDATE of
    the row with that id, which changes nothing when there is none. *)
Definition update_subscription (d : db) (id : Z)
    (f : Subscription -> Subscription) : db :=
  {| subscriptions := alter f id (subscriptions d);
     plans := plans d; events := events d; inbox := inbox d |}.

Definition set_status (new_status : string) (now : Z) (s : Subscription)
  : Subscription :=
  {| sub_pk := sub_pk s; user_pk := user_pk s; sub_plan_id := sub_plan_id s;
     status := new_status; start_date := start_date s; end_date := end_date s;
     canceled_at := if String.eqb new_status "cancelled" then Some now
                    else canceled_at s |}.

Definition set_end_date (e : Z) (s : Subscription) : Subscription :=
  {| sub_pk := sub_pk s; user_pk := user_pk s; sub_plan_id := sub_plan_id s;
     status := status s; start_date := start_date s; end_date := e;
     canceled_at := canceled_at s |}.

Definition set_plan_and_status (plan : Z) (new_status : string) (s : Subscription)
  : Subscription :=
  {| sub_pk := sub_pk s; user_pk := user_pk s; sub_plan_id := plan;
     status := new_status; start_date := start_date s; end_date := end_date s;
     canceled_at := canceled_at s |}.

(** SubscriptionRepository.update_status *)
Definition update_status (d : db) (id : Z) (new_status : string) (now : Z) : db :=
  update_subscription d id (set_status new_status now).

(** PlanRepository.get_renewal_plan *)
Definition get_renewal_plan (d : db) (trial_plan_id : Z) : option Plan :=
  match plans d !! trial_plan_id with
  | None => None
  | Some trial_plan =>
      if negb (is_trial_plan trial_plan) then None
      else
        match trial_renewal_plan_id trial_plan with
        | Some v =>
            match int_of_str_of v with
            | Some n => plans d !! n
            | None => None
            end
        | None => None
        end
  end.

(** session.add(event) *)
Definition add_event (d : db) (e : SubscriptionEvent) : db :=
  {| subscriptions := subscriptions d; plans := plans d;
     events := events d ++ [e]; inbox := inbox d |}.

Definition with_inbox (d : db) (rows : list PaymentWebhookRequest) : db :=
  {| subscriptions := subscriptions d; plans := plans d;
     events := events d; inbox := rows |}.

(** WebhookRepository.get_by_event_id *)
Definition get_by_event_id (d : db) (e : string) : option PaymentWebhookRequest :=
  List.find (fun r => String.eqb (event_id r) e) (inbox d).

Definition next_row_id (rows : list PaymentWebhookRequest) : Z :=
  1 + fold_right (fun r m => Z.max (row_id r) m) 0 rows.

(** WebhookRepository.create_webhook_request; the unique constraint on
    event_id refuses a second row. *)
Definition create_webhook_request (d : db) (e : string) (p : json)
  : result string db :=
  match get_by_event_id d e with
  | Some _ => Raise "IntegrityError"
  | None =>
      Ok (with_inbox d
            (inbox d ++ [{| row_id := next_row_id (inbox d); event_id := e;
                            payload := p; processed := false;
                            processed_at := None; error_message := None;
                            retry_count := 0 |}]))
  end.

Definition update_row (d : db) (id : Z)
    (f : PaymentWebhookRequest -> PaymentWebhookRequest) : db :=
  with_inbox d (List.map (fun r => if row_id r =? id then f r else r) (inbox d)).

Definition set_payload (p : json) (r : PaymentWebhookRequest) : PaymentWebhookRequest :=
  {| row_id := row_id r; event_id := event_id r; payload := p;
     processed := processed r; processed_at := processed_at r;
     error_message := error_message r; retry_count := retry_count r |}.

Definition set_processed (now : Z) (r : PaymentWebhookRequest) : PaymentWebhookRequest :=
  {| row_id := row_id r; event_id := event_id r; payload := payload r;
     processed := true; processed_at := Some now;
     error_message := error_message r; retry_count := retry_count r |}.

(** WebhookRepository.mark_processed *)
Definition mark_processed (d : db) (id : Z) (now : Z) : db :=
  update_row d id (set_processed now).

(** ** app/services/webhook_service.py *)

Section Service.
Variable UUID : string -> option Z.
Variable uuid_str : Z -> string.
Variable isoformat : Z -> string.

Definition payment_event (sub : Z) (type : string) (tx : option Z)
    (old_plan new_plan : option Z) (now : Z) (metadata : json) : SubscriptionEvent :=
  {| ev_subscription_id := sub; event_type := type; ev_transaction_id := tx;
     old_plan_id := old_plan; new_plan_id := new_plan;
     effective_at := now; event_metadata := metadata |}.

(** [_handle_payment_success].  [subscription] and [plan] are the row
    and its plan as loaded by the caller; attributes read after an UPDATE
    are read from the session. *)
Definition handle_payment_success (d : db) (subscription : Subscription)
    (plan : Plan) (transaction_id : option Z) (amount : json) (now : Z) : db :=
  let id := sub_pk subscription in
  if String.eqb (status subscription) "pending" then
    let new_status := if is_trial_plan plan then "trial" else "active" in
    let d1 := update_status d id new_status now in
    add_event d1
      (payment_event id "payment_success" transaction_id None None now
         (JDict [("amount", amount);
                 ("status_change", JStr ("pending -> " ++ new_status)%string)]))
  else if String.eqb (status subscription) "past_due" then
    let d1 := update_status d id "active" now in
    add_event d1
      (payment_event id "payment_success" transaction_id None None now
         (JDict [("amount", amount);
                 ("status_change", JStr "past_due -> active")]))
  else if String.eqb (status subscription) "active"
          || String.eqb (status subscription) "trial" then
    let extended :=
      if String.eqb (billing_cycle plan) "yearly"
      then extend_subscription (billing_cycle plan) 1 subscription  (* default months *)
      else extend_subscription (billing_cycle plan) 1 subscription in
    let d1 := update_subscription d id (set_end_date (end_date extended)) in
    let '(d2, old_plan, new_plan, status_change) :=
      if String.eqb (status subscription) "active" then
        (d1, None, None, "active -> active (renewed)")
      else
        match get_renewal_plan d1 (plan_pk plan) with
        | Some renewal_plan =>
            (update_subscription d1 id
               (set_plan_and_status (plan_pk renewal_plan) "active"),
             Some (plan_pk plan), Some (plan_pk renewal_plan),
             ("trial -> active (" ++ plan_name renewal_plan ++ ")")%string)
        | None => (d1, None, None, "trial -> trial (extended)")
        end in
    add_event d2
      (payment_event id "renewed" transaction_id old_plan new_plan now
         (JDict [("amount", amount);
                 ("new_end_date", JStr (isoformat (end_date extended)));
                 ("status_change", JStr status_change)]))
  else d.

(** The branches of [_handle_payment_success] that read
    [subscription.plan], and a placeholder for the plan where no branch
    reads it. *)
Definition reads_plan (st : string) : bool :=
  String.eqb st "pending" || String.eqb st "active" || String.eqb st "trial".

Definition no_plan (id : Z) : Plan :=
  {| plan_pk := id; plan_name := EmptyString; billing_cycle := EmptyString;
     features := JNull |}.

(** [_handle_payment_failure] *)
Definition handle_payment_failure (d : db) (subscription : Subscription)
    (transaction_id : option Z) (amount : json) (now : Z) : db :=
  let id := sub_pk subscription in
  let '(d1, metadata) :=
    if String.eqb (status subscription) "pending" then
      (d, JDict [("amount", amount); ("reason", JStr "initial_payment_failed")])
    else if String.eqb (status subscription) "active"
            || String.eqb (status subscription) "trial" then
      let d1 := update_status d id "revoked" now in
      let current := match subscriptions d1 !! id with
                     | Some s => status s
                     | None => status subscription
                     end in
      (d1, JDict [("amount", amount);
                  ("status_change", JStr (current ++ " -> revoked")%string);
                  ("reason", JStr "renewal_payment_failed")])
    else
      (d, JDict [("amount", amount);
                 ("reason", JStr "payment_failed_existing_status");
                 ("current_status", JStr (status subscription))]) in
  add_event d1 (payment_event id "payment_failed" transaction_id None None now metadata).

(** [UUID(x[k]) if isinstance(x.get(k), str) else x.get(k)]: a string is
    parsed, None (or a missing key) stays None.  Any other value is no id
    the store can compare or keep; the model raises for it, as the
    database does. *)
Definition id_field (actual : list (string * json)) (k : string)
  : result string (option Z) :=
  match dict_get k actual with
  | Some (JStr text) =>
      match UUID text with
      | Some u => Ok (Some u)
      | None => Raise "ValueError"
      end
  | Some JNull | None => Ok None
  | Some _ => Raise "TypeError"
  end.

(** The body of the try block of [process_webhook_event]: the new
    pending state and the value returned, or an exception. *)
Definition process_webhook_event_body (s : session) (event : string)
    (payload_dict : json) (now : Z) : result string (session * bool) :=
  actual ← match payload_dict with
           | JDict d =>
               match default (JDict d) (dict_get "payload" d) with
               | JDict a => Ok a
               | _ => Raise "AttributeError"
               end
           | _ => Raise "AttributeError"
           end;
  transaction_id ← id_field actual "transaction_id";
  subscription_id ← id_field actual "subscription_id";
  status_value ← match dict_get "status" actual with
                 | Some v => Ok v
                 | None => Raise "KeyError"
                 end;
  let amount := default (JFloat 0 1) (dict_get "amount" actual) in
  match subscription_id ≫= (fun id => subscriptions (pending s) !! id) with
  | None => Ok (s, false)
  | Some subscription =>
      handled ←
        match status_value with
        | JStr st =>
            if String.eqb st "success" then
              match plans (pending s) !! sub_plan_id subscription with
              | Some plan =>
                  Ok (Some (handle_payment_success (pending s) subscription plan
                              transaction_id amount now))
              | None =>
                  (* subscription.plan is None: reading it raises on the
                     branches that read it; the others never do *)
                  if reads_plan (status subscription) then Raise "AttributeError"
                  else Ok (Some (handle_payment_success (pending s) subscription
                                   (no_plan (sub_plan_id subscription))
                                   transaction_id amount now))
              end
            else if String.eqb st "failed" then
              Ok (Some (handle_payment_failure (pending s) subscription
                          transaction_id amount now))
            else Ok None
        | _ => Ok None
        end;
      match handled with
      | None => Ok (s, false)
      | Some d1 =>
          (* Mark webhook as processed *)
          let d2 := match get_by_event_id d1 event with
                    | Some webhook => mark_processed d1 (row_id webhook) now
                    | None => d1
                    end in
          Ok (commit (with_pending s d2), true)
      end
  end.

(** [process_webhook_event]: any exception rolls back and gives False. *)
Definition process_webhook_event (s : session) (event : string)
    (payload_dict : json) (now : Z) : session * bool :=
  match process_webhook_event_body s event payload_dict now with
  | Ok r => r
  | Raise _ => (rollback s, false)
  end.

(** schemas/webhook.py *)
Record WebhookPayload : Type :=
  { wp_event_id : string; wp_transaction_id : Z; wp_subscription_id : Z;
    wp_status : string; wp_amount : json; wp_currency : string;
    wp_occurred_at : Z; wp_metadata : json }.

Record WebhookResponse : Type :=
  { response_status : string; response_message : string;
    response_event_id : option string }.

Definition duplicate_response (e : string) : WebhookResponse :=
  {| response_status := "duplicate";
     response_message := "Event already processed";
     response_event_id := Some e |}.

Definition processed_response (e : string) : WebhookResponse :=
  {| response_status := "processed";
     response_message := "Webhook processed successfully";
     response_event_id := Some e |}.

(** [serialize_payload] *)
Definition serialize_payload (p : WebhookPayload) : json :=
  JDict [("event_id", JStr (wp_event_id p));
         ("transaction_id", JStr (uuid_str (wp_transaction_id p)));
         ("subscription_id", JStr (uuid_str (wp_subscription_id p)));
         ("status", JStr (wp_status p));
         ("amount", wp_amount p);
         ("currency", JStr (wp_currency p));
         ("occurred_at", JStr (isoformat (wp_occurred_at p)));
         ("metadata", wp_metadata p)].

(** [process_payment_webhook]: the session it leaves, and the response
    or the exception raised after the rollback. *)
Definition process_payment_webhook (s : session) (p : WebhookPayload) (now : Z)
  : session * result string WebhookResponse :=
  match get_by_event_id (pending s) (wp_event_id p) with
  | Some existing_webhook =>
      if processed existing_webhook then
        (s, Ok (duplicate_response (wp_event_id p)))
      else
        let s1 := with_pending s
                    (update_row (pending s) (row_id existing_webhook)
                       (set_payload (serialize_payload p))) in
        match process_webhook_event s1 (wp_event_id p) (serialize_payload p) now with
        | (s2, true) =>
            (commit s2, Ok (processed_response (wp_event_id p)))
        | (s2, false) => (rollback s2, Raise "Webhook processing returned false")
        end
  | None =>
      match create_webhook_request (pending s) (wp_event_id p) (serialize_payload p) with
      | Raise e => (rollback s, Raise e)
      | Ok d1 =>
          match process_webhook_event (with_pending s d1) (wp_event_id p)
                  (serialize_payload p) now with
          | (s2, true) =>
              (commit s2, Ok (processed_response (wp_event_id p)))
          | (s2, false) => (rollback s2, Raise "Webhook processing returned false")
          end
      end
  end.

End Service.

(** ** The transition table of the specification (section 4.10)

    Written from the table and the data model of the specification; the
    handlers are compared with it. *)

(** The statuses no event leaves: cancelled and revoked. *)
Definition terminal_status (st : string) : bool :=
  String.eqb st "cancelled" || String.eqb st "revoked".

(** [plan.trial]: the flag of the feature bag. *)
Definition spec_trial (p : Plan) : bool :=
  match features p with
  | JDict d => match dict_get "trial" d with
               | Some (JBool b) => b
               | _ => false
               end
  | _ => false
  end.

(** [plan.renewal_plan]: the plan id of the feature bag, when present. *)
Definition spec_renewal_plan (p : Plan) : option Z :=
  match features p with
  | JDict d => match dict_get "renewal_plan" d with
               | Some (JInt n) => Some n
               | _ => None
               end
  | _ => None
  end.

(** The status after an event, row by row; [None] where the table has no
    row (past_due and failed, and events that are neither success nor
    failed on a status that is not terminal). *)
Definition table_status (prior event : string) (plan_trial renewal_present : bool)
  : option string :=
  if terminal_status prior then Some prior
  else if String.eqb event "success" then
    if String.eqb prior "pending" then Some (if plan_trial then "trial" else "active")
    else if String.eqb prior "past_due" then Some "active"
    else if String.eqb prior "active" then Some "active"
    else if String.eqb prior "trial"
    then Some (if renewal_present then "active" else "trial")
    else None
  else if String.eqb event "failed" then
    if String.eqb prior "pending" then Some "pending"
    else if String.eqb prior "active" || String.eqb prior "trial" then Some "revoked"
    else None
  else None.

(** One cycle: 365 days for a yearly plan, 30 days otherwise. *)
Definition cycle_days (cycle : string) : Z :=
  if String.eqb cycle "yearly" then 365 else 30.

(** The end date after an event: extended by one cycle on a success for
    an active or trial subscription. *)
Definition table_end_date (prior event cycle : string) (end_date : Z) : Z :=
  if String.eqb event "success"
     && (String.eqb prior "active" || String.eqb prior "trial")
  then end_date + cycle_days cycle * day
  else end_date.

(** The plan after an event: the renewal plan on a success for a trial
    subscription that has one. *)
Definition table_plan (prior event : string) (plan : Z) (renewal : option Z) : Z :=
  if String.eqb event "success" && String.eqb prior "trial"
  then default plan renewal
  else plan.

(** What an event names: the dict the fields are read from, the
    subscription its subscription_id finds in the session, and its status
    when that is a string. *)
Definition event_actual (payload_dict : json) : option (list (string * json)) :=
  match payload_dict with
  | JDict d =>
      match default (JDict d) (dict_get "payload" d) with
      | JDict a => Some a
      | _ => None
      end
  | _ => None
  end.

Definition named_subscription (UUID : string -> option Z) (s : session)
    (payload_dict : json) : option Subscription :=
  a ← event_actual payload_dict;
  match id_field UUID a "subscription_id" with
  | Ok (Some id) => subscriptions (pending s) !! id
  | _ => None
  end.

Definition event_status (payload_dict : json) : option string :=
  a ← event_actual payload_dict;
  match dict_get "status" a with
  | Some (JStr st) => Some st
  | _ => None
  end.

(** Updates of inbox rows that keep the event id. *)
Definition keeps_event_id (f : PaymentWebhookRequest -> PaymentWebhookRequest) : Prop :=
  forall r, event_id (f r) = event_id r.

(** The rows of the inbox for one event id. *)
Definition inbox_rows (d : db) (e : string) : list PaymentWebhookRequest :=
  List.filter (fun r => String.eqb (event_id r) e) (inbox d).

Definition spec_renewal_present (p : Plan) : bool :=
  match spec_renewal_plan p with Some _ => true | None => false end.

(** The subscription the table describes after an event. *)
Definition table_subscription (event : string) (plan : Plan)
    (s : Subscription) (new_status : string) : Subscription :=
  {| sub_pk := sub_pk s; user_pk := user_pk s;
     sub_plan_id := table_plan (status s) event (sub_plan_id s)
                      (spec_renewal_plan plan);
     status := new_status; start_date := start_date s;
     end_date := table_end_date (status s) event (billing_cycle plan) (end_date s);
     canceled_at := canceled_at s |}.

(** The store keeps its references: a plan is stored under its id, the
    plan of a subscription in trial is a trial plan, and the renewal plan
    a stored plan names is a plan id, of a stored plan. *)
Definition plan_keys (d : db) : Prop :=
  forall id p, plans d !! id = Some p -> plan_pk p = id.

Definition renewal_refers (d : db) (p : Plan) : Prop :=
  match features p with
  | JDict bag =>
      match dict_get "renewal_plan" bag with
      | Some (JInt n) => is_Some (plans d !! n)
      | Some JNull | None => True
      | Some _ => False
      end
  | _ => True
  end.

Definition handle_payment (isoformat : Z -> string) (event : string) (d : db)
    (subscription : Subscription) (plan : Plan) (transaction_id : option Z)
    (amount : json) (now : Z) : db :=
  if String.eqb event "success"
  then handle_payment_success isoformat d subscription plan transaction_id amount now
  else handle_payment_failure d subscription transaction_id amount now.

End Subscriptions.

(** * payment-service: transactions, the gateway and the payment service

    An amount is its number of hundredths.  The writes to Redis of
    [process_payment] are left out but for whether the refund enqueue
    raises. *)
Module Payments.
Import Json.

(** ** app/models/transaction.py *)
Record Transaction : Type :=
  { tx_pk : Z; tx_subscription_id : option Z; tx_amount : Z;
    tx_currency : string; tx_status : string;
    tx_gateway_reference : option string; tx_error_message : option string;
    tx_trial : bool; tx_renewal : bool;
    tx_card_last_four : string; tx_cardholder_name : string }.

Definition is_successful (t : Transaction) : bool := String.eqb (tx_status t) "success".

Definition is_refund_status (st : string) : bool :=
  String.eqb st "refund_initiated" || String.eqb st "refund_complete"
  || String.eqb st "refund_error".

(** The terminal statuses of the specification. *)
Definition terminal (st : string) : bool :=
  String.eqb st "success" || String.eqb st "failed" || is_refund_status st.

Record session : Type :=
  { committed : gmap Z Transaction; pending : gmap Z Transaction }.

Definition begin (d : gmap Z Transaction) : session :=
  {| committed := d; pending := d |}.
Definition commit (s : session) : session :=
  {| committed := pending s; pending := pending s |}.
Definition rollback (s : session) : session :=
  {| committed := committed s; pending := committed s |}.

(** ** app/repositories *)

(** BaseRepository.create: the primary key refuses a second row. *)
Definition create (d : gmap Z Transaction) (t : Transaction)
  : result string (gmap Z Transaction) :=
  match d !! tx_pk t with
  | Some _ => Raise "IntegrityError"
  | None => Ok (<[tx_pk t := t]> d)
  end.

Definition truthy_text (o : option string) : bool :=
  match o with
  | Some t => negb (String.eqb t EmptyString)
  | None => false
  end.

Definition set_status (st : string) (gateway_reference error_message : option string)
    (t : Transaction) : Transaction :=
  {| tx_pk := tx_pk t; tx_subscription_id := tx_subscription_id t;
     tx_amount := tx_amount t; tx_currency := tx_currency t;
     tx_status := st;
     tx_gateway_reference := if truthy_text gateway_reference
                             then gateway_reference else tx_gateway_reference t;
     tx_error_message := if truthy_text error_message
                         then error_message else tx_error_message t;
     tx_trial := tx_trial t; tx_renewal := tx_renewal t;
     tx_card_last_four := tx_card_last_four t;
     tx_cardholder_name := tx_cardholder_name t |}.

(** TransactionRepository.update_status: an UPDATE of the row with that
    id, whatever its present status. *)
Definition update_status (d : gmap Z Transaction) (transaction_id : Z)
    (st : string) (gateway_reference error_message : option string)
  : gmap Z Transaction :=
  alter (set_status st gateway_reference error_message) transaction_id d.

(** ** app/services/gateway_service.py *)

(** What a gateway call returns: an object with attributes, or a dict. *)
Inductive gateway_response : Type :=
| GwObject (gateway_reference status message : string)
| GwDict (fields : list (string * json)).

(** Attribute access; AttributeError on a dict. *)
Definition attr_status (r : gateway_response) : result string string :=
  match r with
  | GwObject _ st _ => Ok st
  | GwDict _ => Raise "AttributeError"
  end.

Definition attr_gateway_reference (r : gateway_response) : result string string :=
  match r with
  | GwObject ref _ _ => Ok ref
  | GwDict _ => Raise "AttributeError"
  end.

Definition attr_message (r : gateway_response) : result string string :=
  match r with
  | GwObject _ _ m => Ok m
  | GwDict _ => Raise "AttributeError"
  end.

Record PaymentRequest : Type :=
  { req_subscription_id : option Z; req_amount : Z; req_currency : string;
    card_number : string; cardholder_name : string;
    trial : bool; renewal : bool }.

(** What the gateway draws at random: the outcome for an ordinary card,
    the reference, and the reason of a failure. *)
Record draws : Type :=
  { random_success : bool; reference : string; error_code : string }.

Record gateway : Type :=
  { charge : PaymentRequest -> draws -> gateway_response;
    refund : Z -> Z -> string -> string -> gateway_response }.

Definition fail_card : string := "4000000000000002".
Definition success_card : string := "4242424242424242".

(** MockGatewayService.process_payment *)
Definition mock_process_payment (req : PaymentRequest) (dr : draws)
  : gateway_response :=
  if String.eqb (card_number req) fail_card then
    GwObject (reference dr) "failed" "Payment failed: card_declined"
  else if String.eqb (card_number req) success_card || random_success dr then
    GwObject (reference dr) "success" "Payment processed successfully"
  else
    GwObject (reference dr) "failed" ("Payment failed: " ++ error_code dr)%string.

(** MockGatewayService.initiate_refund: a dict. *)
Definition mock_initiate_refund (transaction_id amount : Z) (reason : string)
    (refund_reference : string) : gateway_response :=
  GwDict [("refund_reference", JStr refund_reference);
          ("status", JStr "initiated");
          ("transaction_id", JInt transaction_id);
          ("amount", JInt amount);
          ("reason", JStr reason)].

Definition MockGatewayService : gateway :=
  {| charge := mock_process_payment; refund := mock_initiate_refund |}.

(** ** app/services/payment_service.py *)

Record PaymentResponse : Type :=
  { pr_transaction_id : Z; pr_status : string; pr_gateway_reference : string;
    pr_message : string }.

Definition last_four (card : string) : string :=
  let n := String.length card in
  String.substring (n - 4) 4 card.

Definition new_transaction (req : PaymentRequest) (id : Z) : Transaction :=
  {| tx_pk := id; tx_subscription_id := req_subscription_id req;
     tx_amount := req_amount req; tx_currency := req_currency req;
     tx_status := "pending";
     tx_gateway_reference := None; tx_error_message := None;
     tx_trial := trial req; tx_renewal := renewal req;
     tx_card_last_four := last_four (card_number req);
     tx_cardholder_name := cardholder_name req |}.

(** The try block of [process_payment]: the pending rows after the
    create, after the move to processing, and after the gateway's answer,
    with the response.  [id] is the fresh uuid4 of the row;
    [enqueue_raises] tells whether writing the refund job raises. *)
Definition process_payment_body (g : gateway) (d : gmap Z Transaction)
    (req : PaymentRequest) (id : Z) (dr : draws) (enqueue_raises : bool)
  : result string (gmap Z Transaction * gmap Z Transaction * gmap Z Transaction
                   * PaymentResponse) :=
  d1 ← create d (new_transaction req id);
  let d2 := update_status d1 id "processing" None None in
  let gateway_response := charge g req dr in
  st ← attr_status gateway_response;
  ref ← attr_gateway_reference gateway_response;
  msg ← attr_message gateway_response;
  let d3 := update_status d2 id st (Some ref)
              (if String.eqb st "failed" then Some msg else None) in
  if trial req && String.eqb st "success" && enqueue_raises
  then Raise "ConnectionError"
  else Ok (d1, d2, d3,
           {| pr_transaction_id := id; pr_status := st;
              pr_gateway_reference := ref; pr_message := msg |}).

Definition process_payment (g : gateway) (s : session) (req : PaymentRequest)
    (id : Z) (dr : draws) (enqueue_raises : bool)
  : session * result string PaymentResponse :=
  match process_payment_body g (pending s) req id dr enqueue_raises with
  | Ok (_, _, d3, response) =>
      (commit {| committed := committed s; pending := d3 |}, Ok response)
  | Raise e => (rollback s, Raise e)
  end.

(** [initiate_refund] *)
Definition initiate_refund (g : gateway) (s : session) (transaction_id : Z)
    (refund_reference : string) : session * bool :=
  match pending s !! transaction_id with
  | None => (s, false)
  | Some transaction =>
      if negb (is_successful transaction) then (s, false)
      else
        let gateway_response :=
          refund g transaction_id (tx_amount transaction) "manual_refund"
            refund_reference in
        match attr_status gateway_response,
              attr_gateway_reference gateway_response,
              attr_message gateway_response with
        | Ok st, Ok ref, Ok msg =>
            let d1 := update_status (pending s) transaction_id st (Some ref)
                        (if String.eqb st "refund_error" then Some msg else None) in
            (commit {| committed := committed s; pending := d1 |},
             String.eqb st "refund_complete")
        | _, _, _ => (rollback s, false)
        end
  end.

(** ** Sequences of service calls *)

Inductive op : Type :=
| ProcessPayment (req : PaymentRequest) (id : Z) (dr : draws) (enqueue_raises : bool)
| InitiateRefund (transaction_id : Z) (refund_reference : string).

(** One call, on a session of its own over the stored rows. *)
Definition step (g : gateway) (d : gmap Z Transaction) (o : op) : gmap Z Transaction :=
  match o with
  | ProcessPayment req id dr enqueue_raises =>
      committed (fst (process_payment g (begin d) req id dr enqueue_raises))
  | InitiateRefund id refund_reference =>
      committed (fst (initiate_refund g (begin d) id refund_reference))
  end.

Definition run (g : gateway) (d : gmap Z Transaction) (ops : list op)
  : gmap Z Transaction :=
  fold_left (step g) ops d.

(** The stored status of a transaction after the first [n] calls. *)
Definition status_after (g : gateway) (d : gmap Z Transaction) (ops : list op)
    (n : nat) (id : Z) : option string :=
  tx_status <$> (run g d (firstn n ops) !! id).

(** The contract of a gateway: a charge answers success or failed, a
    refund answers one of the refund statuses. *)
Definition gateway_contract (g : gateway) : Prop :=
  (forall req dr ref st msg,
     charge g req dr = GwObject ref st msg -> st = "success" \/ st = "failed")
  /\ (forall id amount reason rr ref st msg,
        refund g id amount reason rr = GwObject ref st msg ->
        is_refund_status st = true).

(** How a stored status may differ between two moments: not at all, from
    no row to a terminal status, or from success to a refund status. *)
Definition advances (a b : option string) : Prop :=
  a = b
  \/ (a = None /\ exists t, b = Some t /\ terminal t = true)
  \/ (a = Some "success" /\ exists t, b = Some t /\ is_refund_status t = true).

End Payments.

(** * Scenario data *)
Module Scenario.

(** The double-quote character of JSON texts. *)
Definition dq : string := String (ascii_of_nat 34) EmptyString.

(** S1: the canonical body with keys a and b, its timestamp and secret. *)
Definition s1_body : string :=
  ("{" ++ dq ++ "a" ++ dq ++ ":1," ++ dq ++ "b" ++ dq ++ ":2}")%string.
Definition s1_timestamp : string := "1700000000".
Definition s1_secret : string := "k".

(** A peer that answers 404 to the first POST and 200 afterwards. *)
Definition net_404_then_200 (attempt : Z) : WebhookClient.post_outcome :=
  if attempt =? 0 then WebhookClient.Response 404 "not found" false
  else WebhookClient.Response 200 "ok" false.

(** A peer that always answers 404. *)
Definition net_always_404 (attempt : Z) : WebhookClient.post_outcome :=
  WebhookClient.Response 404 "not found" false.

(** S4: user 7 has used 3 of 3 api_calls; the counter resets in the future. *)
Definition s4_store : gmap string UsageMeter.usage_hash :=
  {[ UsageMeter.usage_key 7 "api_calls" :=
       {| UsageMeter.hcount := Some 3;
          UsageMeter.hreset_at := Some "1701388800";
          UsageMeter.httl := Some 86400 |} ]}.

Definition now_text : string := "1700000000.5".

(** Queue messages, as [json.dumps] writes them, and their parsed forms. *)
Definition quoted (s : string) : string := (dq ++ s ++ dq)%string.

Definition msg_m1 : string :=
  ("{" ++ quoted "id" ++ ": " ++ quoted "m-1" ++ ", "
       ++ quoted "action" ++ ": " ++ quoted "payment_initiation" ++ ", "
       ++ quoted "attempts" ++ ": 0, " ++ quoted "payload" ++ ": {}}")%string.

Definition env_m1 : Json.json :=
  Json.JDict [("id", Json.JStr "m-1"); ("action", Json.JStr "payment_initiation");
              ("attempts", Json.JInt 0); ("payload", Json.JDict [])].

Definition msg_m2 : string :=
  ("{" ++ quoted "id" ++ ": " ++ quoted "m-2" ++ ", "
       ++ quoted "action" ++ ": " ++ quoted "payment_initiation" ++ ", "
       ++ quoted "attempts" ++ ": 2, " ++ quoted "max_attempts" ++ ": 2, "
       ++ quoted "payload" ++ ": {}}")%string.

Definition env_m2 : Json.json :=
  Json.JDict [("id", Json.JStr "m-2"); ("action", Json.JStr "payment_initiation");
              ("attempts", Json.JInt 2); ("max_attempts", Json.JInt 2);
              ("payload", Json.JDict [])].

Definition msg_noid : string :=
  ("{" ++ quoted "action" ++ ": " ++ quoted "plan_change" ++ ", "
       ++ quoted "attempts" ++ ": 0, " ++ quoted "payload" ++ ": {}}")%string.

Definition env_noid : Json.json :=
  Json.JDict [("action", Json.JStr "plan_change");
              ("attempts", Json.JInt 0); ("payload", Json.JDict [])].

(** [json.loads] on the three messages above. *)
Definition loads (text : string) : option Json.json :=
  if String.eqb text msg_m1 then Some env_m1
  else if String.eqb text msg_m2 then Some env_m2
  else if String.eqb text msg_noid then Some env_noid
  else None.

(** S2: subscription S, pending, on the monthly plan 1 without trial;
    plan 2 is a trial plan renewed by plan 1. *)
Definition uuid_S : Z := 0x11111111111111111111111111111111.
Definition uuid_T : Z := 0x22222222222222222222222222222222.
Definition text_S : string := "11111111-1111-1111-1111-111111111111".
Definition text_T : string := "22222222-2222-2222-2222-222222222222".

(** [uuid.UUID] and [str] on the two ids of the scenario. *)
Definition UUID (text : string) : option Z :=
  if String.eqb text text_S then Some uuid_S
  else if String.eqb text text_T then Some uuid_T
  else None.

Definition uuid_str (u : Z) : string :=
  if u =? uuid_S then text_S else if u =? uuid_T then text_T else EmptyString.

(** A stand-in for [datetime.isoformat]: the seconds, in decimal. *)
Definition isoformat (t : Z) : string := py_str_of_int t.

Definition basic_plan : Subscriptions.Plan :=
  {| Subscriptions.plan_pk := 1; Subscriptions.plan_name := "Basic";
     Subscriptions.billing_cycle := "monthly";
     Subscriptions.features :=
       Json.JDict [("limits", Json.JDict [("api_calls", Json.JInt 100)])] |}.

Definition trial_plan : Subscriptions.Plan :=
  {| Subscriptions.plan_pk := 2; Subscriptions.plan_name := "Trial";
     Subscriptions.billing_cycle := "monthly";
     Subscriptions.features :=
       Json.JDict [("trial", Json.JBool true); ("renewal_plan", Json.JInt 1);
                   ("limits", Json.JDict [("api_calls", Json.JInt 100)])] |}.

Definition s2_subscription : Subscriptions.Subscription :=
  {| Subscriptions.sub_pk := uuid_S; Subscriptions.user_pk := 7;
     Subscriptions.sub_plan_id := 1; Subscriptions.status := "pending";
     Subscriptions.start_date := 1700000000;
     Subscriptions.end_date := 1702592000;
     Subscriptions.canceled_at := None |}.

Definition s2_db : Subscriptions.db :=
  {| Subscriptions.subscriptions := {[ uuid_S := s2_subscription ]};
     Subscriptions.plans := {[ 1 := basic_plan; 2 := trial_plan ]};
     Subscriptions.events := [];
     Subscriptions.inbox := [] |}.

Definition s2_session : Subscriptions.session :=
  {| Subscriptions.committed := s2_db; Subscriptions.pending := s2_db |}.

Definition s2_payload : Subscriptions.WebhookPayload :=
  {| Subscriptions.wp_event_id := "evt-1";
     Subscriptions.wp_transaction_id := uuid_T;
     Subscriptions.wp_subscription_id := uuid_S;
     Subscriptions.wp_status := "success";
     Subscriptions.wp_amount := Json.JInt 29;
     Subscriptions.wp_currency := "AED";
     Subscriptions.wp_occurred_at := 1700000100;
     Subscriptions.wp_metadata := Json.JDict [] |}.

(** A subscription in trial on the trial plan, whose renewal plan is the
    basic plan. *)
Definition trial_subscription : Subscriptions.Subscription :=
  {| Subscriptions.sub_pk := uuid_S; Subscriptions.user_pk := 7;
     Subscriptions.sub_plan_id := 2; Subscriptions.status := "trial";
     Subscriptions.start_date := 1700000000;
     Subscriptions.end_date := 1701209600;
     Subscriptions.canceled_at := None |}.

Definition trial_db : Subscriptions.db :=
  {| Subscriptions.subscriptions := {[ uuid_S := trial_subscription ]};
     Subscriptions.plans := {[ 1 := basic_plan; 2 := trial_plan ]};
     Subscriptions.events := [];
     Subscriptions.inbox := [] |}.

(** The same subscription after it was revoked, and a failed payment. *)
Definition revoked_subscription : Subscriptions.Subscription :=
  {| Subscriptions.sub_pk := uuid_S; Subscriptions.user_pk := 7;
     Subscriptions.sub_plan_id := 1; Subscriptions.status := "revoked";
     Subscriptions.start_date := 1700000000;
     Subscriptions.end_date := 1702592000;
     Subscriptions.canceled_at := None |}.

Definition revoked_db : Subscriptions.db :=
  {| Subscriptions.subscriptions := {[ uuid_S := revoked_subscription ]};
     Subscriptions.plans := {[ 1 := basic_plan; 2 := trial_plan ]};
     Subscriptions.events := [];
     Subscriptions.inbox := [] |}.

Definition revoked_session : Subscriptions.session :=
  {| Subscriptions.committed := revoked_db; Subscriptions.pending := revoked_db |}.

Definition failed_payload : Subscriptions.WebhookPayload :=
  {| Subscriptions.wp_event_id := "evt-1";
     Subscriptions.wp_transaction_id := uuid_T;
     Subscriptions.wp_subscription_id := uuid_S;
     Subscriptions.wp_status := "failed";
     Subscriptions.wp_amount := Json.JInt 29;
     Subscriptions.wp_currency := "AED";
     Subscriptions.wp_occurred_at := 1700000100;
     Subscriptions.wp_metadata := Json.JDict [] |}.

(** The same event for a subscription nobody stored, and with a status
    that is neither success nor failed. *)
Definition unknown_subscription_payload : Subscriptions.WebhookPayload :=
  {| Subscriptions.wp_event_id := "evt-2";
     Subscriptions.wp_transaction_id := uuid_T;
     Subscriptions.wp_subscription_id := uuid_T;
     Subscriptions.wp_status := "success";
     Subscriptions.wp_amount := Json.JInt 29;
     Subscriptions.wp_currency := "AED";
     Subscriptions.wp_occurred_at := 1700000100;
     Subscriptions.wp_metadata := Json.JDict [] |}.

Definition refunded_payload : Subscriptions.WebhookPayload :=
  {| Subscriptions.wp_event_id := "evt-3";
     Subscriptions.wp_transaction_id := uuid_T;
     Subscriptions.wp_subscription_id := uuid_S;
     Subscriptions.wp_status := "refunded";
     Subscriptions.wp_amount := Json.JInt 29;
     Subscriptions.wp_currency := "AED";
     Subscriptions.wp_occurred_at := 1700000100;
     Subscriptions.wp_metadata := Json.JDict [] |}.

(** Payments: a trial charge on the success card, then a refund request. *)
Definition trial_request : Payments.PaymentRequest :=
  {| Payments.req_subscription_id := Some uuid_S; Payments.req_amount := 100;
     Payments.req_currency := "AED";
     Payments.card_number := Payments.success_card;
     Payments.cardholder_name := "A Holder";
     Payments.trial := true; Payments.renewal := false |}.

Definition some_draws : Payments.draws :=
  {| Payments.random_success := false; Payments.reference := "gw_1";
     Payments.error_code := "card_declined" |}.

Definition payment_ops : list Payments.op :=
  [ Payments.ProcessPayment trial_request uuid_T some_draws false;
    Payments.InitiateRefund uuid_T "rf_1";
    Payments.ProcessPayment trial_request uuid_T some_draws false ].

End Scenario.


From Stdlib Require DecimalPos.

(** * Signed requests: what the sender posts and what the receiver's
      dependency lets through

    [WebhookClient.send_webhook] (payment-service/app/core/webhook_client.py)
    up to its retry loop, and [verify_webhook_signature]
    (payment-service/app/core/webhook_security.py), the FastAPI dependency
    of the webhook endpoints. *)
Module SignedRequest.
Import Json WebhookSecurity.

(** The parts of a request the webhook code writes or reads: the body
    and the three headers, each possibly absent. *)
Record request : Type :=
  { content : string;
    x_webhook_signature : option string;
    x_webhook_timestamp : option string;
    x_webhook_event_id : option string }.

(** The request [send_webhook] posts at every attempt.  [payload_json]
    is the canonical [json.dumps] of the payload and [now] the value of
    [int(time.time())] read before the loop. *)
Definition signed_request (now : Z) (payload_json signing_secret : string)
    (event_id : option string) : request :=
  let timestamp := py_str_of_int now in
  let signature := generate_signature payload_json timestamp signing_secret in
  {| content := payload_json;
     x_webhook_signature := Some signature;
     x_webhook_timestamp := Some timestamp;
     x_webhook_event_id :=
       match event_id with
       | Some e => if String.eqb e EmptyString then None else Some e
       | None => None
       end |}.

(** [not header]: the header is absent or empty. *)
Definition header_missing (h : option string) : bool :=
  match h with
  | Some v => String.eqb v EmptyString
  | None => true
  end.

Definition lower_hex_digit (c : ascii) : bool :=
  let n := Z.of_N (N_of_ascii c) in
  ((48 <=? n) && (n <=? 57)) || ((97 <=? n) && (n <=? 102)).

Section Dependency.
(** [json.loads] ([None] where it raises JSONDecodeError) and whether
    [bytes.decode('utf-8')] accepts the body. *)
Variable json_loads : string -> option json.
Variable utf8_decodes : string -> bool.

(** [verify_webhook_signature]: the parsed payload, or the HTTPException
    raised.  An exception that is no HTTPException becomes the 500 of the
    outer handler; reading [payload_data.get] on a parsed value that is
    no dict is one. *)
Definition verify_webhook_signature (now : Z) (secret : string)
    (tolerance_seconds : Z) (req : request) : result HTTPException json :=
  if header_missing (x_webhook_signature req) then
    Raise {| status_code := 400; detail := "Missing X-Webhook-Signature header" |}
  else if header_missing (x_webhook_timestamp req) then
    Raise {| status_code := 400; detail := "Missing X-Webhook-Timestamp header" |}
  else if String.eqb (content req) EmptyString then
    Raise {| status_code := 400; detail := "Empty payload" |}
  else if negb (utf8_decodes (content req)) then
    Raise {| status_code := 500; detail := "Webhook verification failed" |}
  else
    let payload_str := content req in
    match verify_signature now payload_str
            (default EmptyString (x_webhook_signature req))
            (default EmptyString (x_webhook_timestamp req))
            secret tolerance_seconds with
    | Raise e => Raise e
    | Ok _ =>
        match json_loads payload_str with
        | None => Raise {| status_code := 400; detail := "Invalid JSON payload" |}
        | Some (JDict d) => Ok (JDict d)
        | Some _ =>
            Raise {| status_code := 500; detail := "Webhook verification failed" |}
        end
    end.

End Dependency.

(** A request whose timestamp header ends with a no-break space
    (U+00A0), signed over that header. *)
Definition padded_timestamp : string :=
  ("1700000000" ++ String (ascii_of_nat 194) (String (ascii_of_nat 160) EmptyString))%string.

Definition padded_request (body secret : string) : request :=
  {| content := body;
     x_webhook_signature := Some (generate_signature body padded_timestamp secret);
     x_webhook_timestamp := Some padded_timestamp;
     x_webhook_event_id := None |}.

End SignedRequest.

(** * Outcomes of a delivery *)
Module Delivery.
Import WebhookClient.

(** What [send_webhook] returns for an answer below 400: the parsed body,
    or the marker around the raw text; [None] for every other outcome of
    a POST. *)
Definition accepted (o : post_outcome) : option delivered :=
  match o with
  | Response code text is_json =>
      if code <? 400
      then Some (if is_json then JsonBody text else RawResponse text)
      else None
  | _ => None
  end.

(** The seconds slept in all. *)
Definition total_sleep (sleeps : list Z) : Z := fold_right Z.add 0 sleeps.

End Delivery.

(** * The delayed sets, the failed lists and the promotion of due messages

    [RedisClient.move_ready_delayed_to_main] and
    [get_ready_delayed_messages] (app/core/redis_client.py of both
    services), and [QueueProcessorConsumer._process_delayed_queues] and
    [_cleanup_old_messages] (subscription-service
    app/workers/queue_processor.py).  Time is read in whole seconds. *)
Module Queues.
Import Redis Workers.

(** LLEN key *)
Definition llen (r : redis) (key : string) : Z :=
  Z.of_nat (List.length (lrange_all r key)).

(** RPOP key: the tail leaves. *)
Definition rpop (r : redis) (key : string) : redis :=
  with_list r key (List.removelast (lrange_all r key)).

Definition in_range (lo hi score : Z) : bool :=
  (lo <=? score) && (score <=? hi).

(** The order of a sorted set: by score, members of equal score by their
    bytes. *)
Definition entry_leb (a b : string * Z) : bool :=
  (snd a <? snd b) || ((snd a =? snd b) && String.leb (fst a) (fst b)).

Fixpoint insert_entry (x : string * Z) (l : list (string * Z))
  : list (string * Z) :=
  match l with
  | [] => [x]
  | y :: rest => if entry_leb x y then x :: l else y :: insert_entry x rest
  end.

Definition sort_entries (l : list (string * Z)) : list (string * Z) :=
  fold_right insert_entry [] l.

Definition zset_of (r : redis) (key : string) : gmap string Z :=
  default ∅ (zsets r !! key).

(** ZRANGEBYSCORE key lo hi *)
Definition zrangebyscore (r : redis) (key : string) (lo hi : Z) : list string :=
  List.map fst
    (sort_entries
       (List.filter (fun e => in_range lo hi (snd e))
          (map_to_list (zset_of r key)))).

(** ZREMRANGEBYSCORE key lo hi *)
Definition zremrangebyscore (r : redis) (key : string) (lo hi : Z) : redis :=
  {| lists := lists r;
     zsets := <[key := filter (fun e => in_range lo hi (snd e) = false)
                         (zset_of r key)]> (zsets r);
     strings := strings r |}.

(** LPUSH of each message in turn. *)
Definition push_all (r : redis) (queue_name : string) (messages : list string)
  : redis :=
  fold_left (fun acc msg => lpush acc queue_name msg) messages r.

(** [move_ready_delayed_to_main]: the key space it leaves and the number
    of messages moved. *)
Definition move_ready_delayed_to_main (r : redis) (now : Z) (queue_name : string)
  : redis * Z :=
  let delayed_queue := delayed_of queue_name in
  let messages := zrangebyscore r delayed_queue 0 now in
  let r1 := push_all r queue_name messages in
  let moved := Z.of_nat (List.length messages) in
  match messages with
  | [] => (r1, moved)
  | _ => (zremrangebyscore r1 delayed_queue 0 now, moved)
  end.

(** [get_ready_delayed_messages] *)
Definition get_ready_delayed_messages (r : redis) (now : Z) (queue_name : string)
  : redis * list string :=
  let delayed_queue := delayed_of queue_name in
  let messages := zrangebyscore r delayed_queue 0 now in
  match messages with
  | [] => (r, messages)
  | _ => (zremrangebyscore r delayed_queue 0 now, messages)
  end.

Definition sub_main_queues : list string :=
  [ "q:sub:payment_initiation"; "q:sub:trial_payment"; "q:sub:plan_change";
    "q:sub:usage_sync" ].

(** [_process_delayed_queues] *)
Definition process_delayed_queues (r : redis) (now : Z) : redis :=
  fold_left (fun acc main => fst (move_ready_delayed_to_main acc now main))
    sub_main_queues r.

Definition cleaned_failed_queues : list string :=
  [ "q:sub:payment_initiation:failed"; "q:sub:trial_payment:failed";
    "q:sub:plan_change:failed" ].

(** The body of the loop of [_cleanup_old_messages] for one list. *)
Definition cleanup_queue (r : redis) (queue : string) : redis :=
  let current_length := llen r queue in
  if current_length >? 1000 then
    Nat.iter (Z.to_nat (current_length - 100)) (fun acc => rpop acc queue) r
  else r.

(** [_cleanup_old_messages] *)
Definition cleanup_old_messages (r : redis) : redis :=
  fold_left cleanup_queue cleaned_failed_queues r.

(** [n] claims in a row, with the messages they return. *)
Fixpoint claim_many (n : nat) (r : redis) (main_queue processing_queue : string)
  : redis * list string :=
  match n with
  | O => (r, [])
  | S k =>
      match brpoplpush r main_queue processing_queue with
      | (r1, Some msg) =>
          let '(r2, rest) := claim_many k r1 main_queue processing_queue in
          (r2, msg :: rest)
      | (r1, None) => (r1, [])
      end
  end.

End Queues.

(** * payment-service/app/workers/tasks.py: the worker of the
      subscription-update queue and the visibility sweeper

    The writes to the job log (the list q:log:jobs and the job_logs
    table), which the source makes on a best-effort basis, are left
    out. *)
Module PaymentWorkers.
Import Json Redis QueuePolicies Workers.

Section Library.
Variable json_loads : string -> option json.
Variable json_dumps : json -> string.
Variable py_repr : json -> string.

Definition pay_lock_key (queue_main message_id : string) : string :=
  ("lock:" ++ queue_main ++ ":" ++ message_id)%string.

Definition pay_lock_ttl (queue_main : string) : Z :=
  let ttl := match PAY_QUEUE_POLICIES !! queue_main with
             | Some p => lock_ttl_seconds p
             | None => 120
             end in
  if ttl =? 0 then 120 else ttl.

Definition subscription_update_queue : string := "q:pay:subscription_update".

(** [_process_subscription_update_once]: the key space it leaves and the
    label it returns, [None] when an exception leaves it.  [now] is the
    time of the lock, [later] the time at which a retry is scheduled,
    [net] the behaviour of the peer during [send_webhook]. *)
Definition process_subscription_update_once (r : redis) (now later draw : Z)
    (net : Z -> WebhookClient.post_outcome) : redis * option string :=
  let queue_main := subscription_update_queue in
  let queue_processing := processing_of queue_main in
  match brpoplpush r queue_main queue_processing with
  | (r1, None) => (r1, Some "no_message")
  | (r1, Some message_json) =>
      if String.eqb message_json EmptyString then (r1, Some "no_message") else
      match parse_message json_loads py_repr message_json with
      | None => (r1, None)
      | Some p =>
          let lock_key := pay_lock_key queue_main (message_id p) in
          match set_lock r1 now lock_key (pay_lock_ttl queue_main) with
          | (r2, false) =>
              let r3 := remove_from_processing r2 queue_processing message_json in
              (queue_message json_dumps r3 queue_main (envelope_or_raw p),
               Some "retry")
          | (r2, true) =>
              match payload p with
              | JDict _ =>
                  match fst (WebhookClient.send_webhook 3 net) with
                  | Ok _ =>
                      let r3 := remove_from_processing r2 queue_processing
                                  message_json in
                      (release_lock r3 lock_key, Some "success")
                  | Raise _ =>
                      let '(r3, label) :=
                        pay_on_failure json_dumps r2 later draw queue_main 5
                          message_json p in
                      (r3, Some label)
                  end
              | _ =>
                  (* payload.get("event_id") raises before the try block *)
                  (r2, None)
              end
          end
      end
  end.

(** The message id of [sweep_processing_queues]:
    [(raw.get("id") if isinstance(raw, dict) else None) or _hash_message(msg)] *)
Definition pay_sweeper_mid (msg : string) : string :=
  match default (JDict []) (json_loads msg) with
  | JDict d => id_or_hash py_repr (dict_get "id" d) msg
  | _ => hash_message msg
  end.

(** The message the sweeper schedules again.  [env] and [payload] come
    from [_parse_message], or are both the empty dict when it raised. *)
Definition sweeper_msg_for_delay (env payload : json) (attempts_next : Z)
  : option json :=
  let env_payload := match env with
                     | JDict d => default JNull (dict_get "payload" d)
                     | _ => JNull
                     end in
  match env, env_payload with
  | JDict d, JNull =>
      match (if truthy payload then payload else JDict []) with
      | JDict pd => Some (JDict (dict_set "attempts" (JInt attempts_next) pd))
      | _ => None
      end
  | JDict d, _ => Some (JDict (dict_set "attempts" (JInt attempts_next) d))
  | _, _ =>
      match (if truthy payload then payload else JDict []) with
      | JDict pd => Some (JDict (dict_set "attempts" (JInt attempts_next) pd))
      | _ => None
      end
  end.

(** One entry of a processing list under the sweeper: the key space it
    leaves and whether the entry was swept; [None] when an exception ends
    the sweep of the queue. *)
Definition pay_sweep_item (r : redis) (now draw : Z) (main msg : string)
  : redis * option bool :=
  let mid := pay_sweeper_mid msg in
  let lock_key := pay_lock_key main mid in
  if exists_key r now lock_key then (r, Some false)
  else
    let '(env, payload, attempts, max_attempts) :=
      match parse_message json_loads py_repr msg with
      | Some p => (envelope_or_raw p, payload p, attempts p, max_attempts p)
      | None => (JDict [], JDict [], 0, JNull)
      end in
    let attempts_next := attempts + 1 in
    let r1 := remove_from_processing r (processing_of main) msg in
    let max_try := pay_max_try main 5 max_attempts in
    if attempts_next <=? max_try then
      match sweeper_msg_for_delay env payload attempts_next with
      | Some msg_for_delay =>
          (queue_delayed_message json_dumps r1 now main msg_for_delay
             (compute_backoff PAY_QUEUE_POLICIES main attempts_next draw),
           Some true)
      | None => (r1, None)
      end
    else (lpush r1 (failed_of main) msg, Some true).

End Library.

End PaymentWorkers.

(** * Invocations of the usage meter, one after the other *)
Module UsageSequences.
Import UsageMeter.

(** Calls of [atomic_usage_check] for one user and feature under one
    limit: each call has its delta and the time text it is made with.
    The results are listed in the order of the calls. *)
Fixpoint usage_calls (store : gmap string usage_hash) (user_id : Z)
    (feature_name : string) (limit : Z) (reset_at : string)
    (calls : list (Z * string))
  : gmap string usage_hash * list usage_result :=
  match calls with
  | [] => (store, [])
  | (delta, current_time) :: rest =>
      let '(store1, res) :=
        atomic_usage_check store user_id feature_name limit delta
          (Some reset_at) current_time in
      let '(store2, results) :=
        usage_calls store1 user_id feature_name limit reset_at rest in
      (store2, res :: results)
  end.

(** The stored reset time of a key is absent or after [current_time]. *)
Definition not_expired (store : gmap string usage_hash) (key current_time : string)
  : Prop :=
  match (store !! key) ≫= hreset_at with
  | Some r => lua_str_le r current_time = false
  | None => True
  end.

End UsageSequences.
(** * Properties *)

(** ** SHA-256 and HMAC known answers *)

(** Known answers: the empty message and "abc" (FIPS 180-4), and the
    HMAC test case 2 of RFC 4231. *)
Example sha256_empty :
  Sha256.sha256_hex EmptyString =
  "e3b0c44298fc1c149afbf4c8996fb92427ae41e4649b934ca495991b7852b855".
Proof. vm_compute. reflexivity. Qed.

Example sha256_abc :
  Sha256.sha256_hex "abc" =
  "ba7816bf8f01cfea414140de5dae2223b00361a396177a9cb410ff61f20015ad".
Proof. vm_compute. reflexivity. Qed.

Example hmac_rfc4231_case2 :
  Sha256.hmac_sha256_hex "Jefe" "what do ya want for nothing?" =
  "5bdcc146bf60754e6a042426089575c75a003f089d2739839dec58b964ec3843".
Proof. vm_compute. reflexivity. Qed.

Example sha256_two_blocks :
  Sha256.sha256_hex
    "aaaaaaaaaaaaaaaaaaaaaaaaaaaaaaaaaaaaaaaaaaaaaaaaaaaaaaaaaaaaaaaaaaaaaaaaaaaaaaaaaaaaaaaaaaaaaaaaaaaa" =
  "2816597888e4a0d3a36b82b83316ab32680eb8f00f8cd3b904d681246d285a0e".
Proof. vm_compute. reflexivity. Qed.


(** ** Decimal text of an int and back *)

Section DecimalRoundTrip.
Import WebhookSecurity DecimalText.

Lemma horner_pos d p :
  horner (Z.pos p) d = Z.pos (Pos.of_uint_acc d p).
Proof.
  revert p. induction d; intros p; cbn [horner Pos.of_uint_acc]; auto;
    match goal with
    | |- horner ?a _ = _ =>
        match goal with
        | |- _ = Z.pos (Pos.of_uint_acc _ ?q) =>
            replace a with (Z.pos q) by lia; apply IHd
        end
    end.
Qed.

Lemma horner_zero d : horner 0 d = Z.of_N (Pos.of_uint d).
Proof.
  induction d; cbn [horner Pos.of_uint]; auto;
    change (10 * 0 + 0) with 0; auto;
    match goal with
    | |- horner ?a _ = _ =>
        let v := eval vm_compute in a in change a with v
    end; rewrite horner_pos; reflexivity.
Qed.

Lemma parse_digits_uint d acc af :
  parse_digits acc af (list_ascii_of_string (NilEmpty.string_of_uint d)) =
  match d with
  | Decimal.Nil => if af then Some acc else None
  | _ => Some (horner acc d)
  end.
Proof.
  revert acc af.
  induction d; intros acc af; [reflexivity|..];
    cbn [NilEmpty.string_of_uint list_ascii_of_string parse_digits];
    (match goal with
     | |- context [digit_of ?c] =>
         let v := eval vm_compute in (digit_of c) in
         change (digit_of c) with v
     end);
    cbv iota; rewrite IHd; destruct d; reflexivity.
Qed.

Lemma digit_chars_no_space d :
  Forall (fun c => is_space c = false)
    (list_ascii_of_string (NilEmpty.string_of_uint d)).
Proof. induction d; simpl; constructor; auto. Qed.

Lemma lstrip_no_space l :
  Forall (fun c => is_space c = false) l -> lstrip l = l.
Proof. destruct 1 as [|c l Hc _]; simpl; [reflexivity|now rewrite Hc]. Qed.

Lemma strip_no_space l :
  Forall (fun c => is_space c = false) l -> strip l = l.
Proof.
  intros H. unfold strip. rewrite (lstrip_no_space l H).
  rewrite lstrip_no_space by now apply Forall_rev.
  apply rev_involutive.
Qed.

Lemma digit_chars_ascii d :
  forallb (fun c => Z.of_N (N_of_ascii c) <? 128)
    (list_ascii_of_string (NilEmpty.string_of_uint d)) = true.
Proof. induction d; simpl; auto. Qed.

Lemma py_str_of_int_ascii n : is_ascii (py_str_of_int n) = true.
Proof.
  unfold py_str_of_int, is_ascii.
  destruct n as [|p|p]; [reflexivity| |];
    cbn [Z.to_int NilZero.string_of_int NilZero.string_of_uint];
    assert (Hs : NilZero.string_of_uint (Pos.to_uint p) =
                 NilEmpty.string_of_uint (Pos.to_uint p))
      by (destruct (Pos.to_uint p) eqn:E; try reflexivity;
          pose proof (DecimalPos.Unsigned.of_to p) as H; rewrite E in H;
          discriminate);
    rewrite Hs; [|cbn [list_ascii_of_string forallb]];
    rewrite digit_chars_ascii; reflexivity.
Qed.

(** [int(str(n)) == n] for every int. *)
Lemma py_int_py_str_of_int n : py_int (py_str_of_int n) = Some n.
Proof.
  unfold py_int, ascii_text. rewrite py_str_of_int_ascii.
  unfold py_str_of_int.
  destruct n as [|p|p]; [reflexivity| |].
  - cbn [Z.to_int NilZero.string_of_int NilZero.string_of_uint].
    assert (Hs : NilZero.string_of_uint (Pos.to_uint p) =
                 NilEmpty.string_of_uint (Pos.to_uint p))
      by (destruct (Pos.to_uint p) eqn:E; try reflexivity;
          pose proof (DecimalPos.Unsigned.of_to p) as H; rewrite E in H;
          discriminate).
    rewrite Hs, strip_no_space by apply digit_chars_no_space.
    pose proof (parse_digits_uint (Pos.to_uint p) 0 false) as Hp.
    pose proof (DecimalPos.Unsigned.of_to p) as Hv.
    destruct (Pos.to_uint p) eqn:E; try discriminate;
      cbn [NilEmpty.string_of_uint list_ascii_of_string] in *;
      cbn [Ascii.eqb Bool.eqb]; cbv iota;
      rewrite Hp, horner_zero, Hv; reflexivity.
  - cbn [Z.to_int NilZero.string_of_int NilZero.string_of_uint].
    assert (Hs : NilZero.string_of_uint (Pos.to_uint p) =
                 NilEmpty.string_of_uint (Pos.to_uint p))
      by (destruct (Pos.to_uint p) eqn:E; try reflexivity;
          pose proof (DecimalPos.Unsigned.of_to p) as H; rewrite E in H;
          discriminate).
    rewrite Hs.
    change (list_ascii_of_string (String "-" ?s))
      with ("-"%char :: list_ascii_of_string s).
    rewrite strip_no_space
      by (constructor; [reflexivity|apply digit_chars_no_space]).
    cbn [Ascii.eqb Bool.eqb]. cbv iota.
    pose proof (parse_digits_uint (Pos.to_uint p) 0 false) as Hp.
    pose proof (DecimalPos.Unsigned.of_to p) as Hv.
    destruct (Pos.to_uint p) eqn:E; try discriminate;
      rewrite Hp, horner_zero, Hv; reflexivity.
Qed.

Lemma py_str_of_int_pos p :
  py_str_of_int (Z.pos p) = NilEmpty.string_of_uint (Pos.to_uint p).
Proof.
  unfold py_str_of_int.
  cbn [Z.to_int NilZero.string_of_int NilZero.string_of_uint].
  destruct (Pos.to_uint p) eqn:E; try reflexivity.
  pose proof (DecimalPos.Unsigned.of_to p) as H. rewrite E in H. discriminate.
Qed.

(** *** The order of decimal texts of the same length *)

Lemma horner_udigits d acc :
  horner acc d =
  acc * 10 ^ Z.of_nat (List.length (udigits d)) + value (udigits d).
Proof.
  revert acc. induction d; intros acc; cbn [horner udigits value List.length];
    [rewrite Z.pow_0_r; lia | ..];
    rewrite IHd, Nat2Z.inj_succ, Z.pow_succ_r by lia; ring.
Qed.

Lemma string_of_uint_text d : NilEmpty.string_of_uint d = text (udigits d).
Proof.
  induction d; cbn [NilEmpty.string_of_uint udigits text]; [reflexivity|..];
    rewrite IHd; reflexivity.
Qed.

Lemma udigits_range d : Forall (fun x => 0 <= x <= 9) (udigits d).
Proof. induction d; cbn [udigits]; constructor; auto; lia. Qed.

Lemma value_bounds l :
  Forall (fun x => 0 <= x <= 9) l ->
  0 <= value l < 10 ^ Z.of_nat (List.length l).
Proof.
  induction 1 as [|x l Hx _ IH]; cbn [value List.length].
  - rewrite Z.pow_0_r. lia.
  - rewrite Nat2Z.inj_succ, Z.pow_succ_r by lia. nia.
Qed.

Lemma value_to_uint p : value (udigits (Pos.to_uint p)) = Z.pos p.
Proof.
  pose proof (horner_udigits (Pos.to_uint p) 0) as H.
  rewrite horner_zero, DecimalPos.Unsigned.of_to in H.
  cbn [Z.of_N] in H. lia.
Qed.

(** The numeral of a positive number starts with a digit that is not 0. *)
Lemma to_uint_head p :
  exists x l, udigits (Pos.to_uint p) = x :: l /\ 1 <= x.
Proof.
  pose proof (DecimalPos.Unsigned.to_of (Pos.to_uint p)) as Hnorm.
  rewrite DecimalPos.Unsigned.of_to in Hnorm. cbn [N.to_uint] in Hnorm.
  pose proof (DecimalPos.Unsigned.to_uint_nonnil p) as Hnil.
  pose proof (DecimalPos.Unsigned.to_uint_nonzero p) as Hzero.
  destruct (Pos.to_uint p) as [|d|d|d|d|d|d|d|d|d|d];
    [contradiction| |cbn [udigits]; eexists _, _; split; [reflexivity|lia] ..].
  exfalso. rewrite DecimalFacts.unorm_D0 in Hnorm.
  destruct d as [|d|d|d|d|d|d|d|d|d|d]; [apply Hzero; reflexivity|..];
    match type of Hnorm with
    | _ = Decimal.unorm ?u =>
        pose proof (DecimalFacts.nb_digits_unorm u ltac:(discriminate)) as Hlen;
        rewrite <- Hnorm in Hlen; cbn [Decimal.nb_digits] in Hlen; lia
    end.
Qed.

(** A number of k + 1 digits has a numeral of k + 1 digits. *)
Lemma digits_of_pos (k : nat) p :
  10 ^ Z.of_nat k <= Z.pos p < 10 ^ Z.of_nat (S k) ->
  List.length (udigits (Pos.to_uint p)) = S k.
Proof.
  intros Hp.
  destruct (to_uint_head p) as (x & l & Hl & Hx).
  pose proof (value_to_uint p) as Hv.
  pose proof (udigits_range (Pos.to_uint p)) as Hr.
  rewrite Hl in Hv, Hr |- *. inversion Hr as [|? ? Hx9 Hrl]; subst.
  pose proof (value_bounds l Hrl) as Hb.
  cbn [value List.length] in *.
  set (n := List.length l) in *.
  assert (Hpos : 0 < 10 ^ Z.of_nat n) by (apply Z.pow_pos_nonneg; lia).
  f_equal.
  destruct (Nat.lt_trichotomy n k) as [Hlt|[->|Hgt]]; [exfalso|reflexivity|exfalso].
  - assert (10 ^ Z.of_nat (S n) <= 10 ^ Z.of_nat k)
      by (apply Z.pow_le_mono_r; lia).
    rewrite Nat2Z.inj_succ, Z.pow_succ_r in H by lia. nia.
  - assert (10 ^ Z.of_nat (S k) <= 10 ^ Z.of_nat n)
      by (apply Z.pow_le_mono_r; lia).
    nia.
Qed.

Lemma digit_char_compare a b :
  0 <= a <= 9 -> 0 <= b <= 9 ->
  Ascii.compare (digit_char a) (digit_char b) = (a ?= b).
Proof.
  intros Ha Hb. unfold Ascii.compare, digit_char.
  rewrite !N_ascii_embedding by lia.
  rewrite Z2N.inj_compare by lia. apply Z.add_compare_mono_l.
Qed.

(** Two texts that start with as many digits compare as the numbers those
    digits spell, and as what follows them when the numbers are equal. *)
Lemma text_compare l1 l2 s1 s2 :
  List.length l1 = List.length l2 ->
  Forall (fun x => 0 <= x <= 9) l1 -> Forall (fun x => 0 <= x <= 9) l2 ->
  String.compare (text l1 ++ s1) (text l2 ++ s2) =
  match value l1 ?= value l2 with
  | Eq => String.compare s1 s2
  | c => c
  end.
Proof.
  revert l2. induction l1 as [|a l1 IH]; intros [|b l2] Hlen H1 H2;
    try discriminate.
  - reflexivity.
  - injection Hlen as Hlen.
    inversion H1 as [|? ? Ha H1']; inversion H2 as [|? ? Hb H2']; subst.
    cbn [text value]. simpl append. simpl String.compare.
    rewrite digit_char_compare by assumption.
    pose proof (value_bounds l1 H1') as B1.
    pose proof (value_bounds l2 H2') as B2.
    rewrite Hlen in B1 |- *.
    set (P := 10 ^ Z.of_nat (List.length l2)) in *.
    destruct (Z.compare_spec a b) as [->|Hlt|Hgt].
    + rewrite Z.add_compare_mono_l. apply IH; assumption.
    + assert (E : (a * P + value l1 ?= b * P + value l2) = Lt)
        by (apply Z.compare_lt_iff; nia).
      rewrite E. reflexivity.
    + assert (E : (a * P + value l1 ?= b * P + value l2) = Gt)
        by (apply Z.compare_gt_iff; nia).
      rewrite E. reflexivity.
Qed.

Lemma append_empty (s : string) : (s ++ EmptyString)%string = s.
Proof.
  induction s as [|c s IH]; [reflexivity|].
  change (String c (s ++ EmptyString)%string = String c s). now rewrite IH.
Qed.

(** For epochs of ten digits, the order of the texts the script compares
    is the order of the times: the text of an epoch is at most the text
    of a clock reading exactly when the epoch is at most its whole
    seconds. *)
Lemma epoch_text_le r n fraction :
  UsageMeter.ten_digits r -> UsageMeter.ten_digits n ->
  UsageMeter.lua_str_le (py_str_of_int r) (UsageMeter.float_text n fraction)
  = (r <=? n).
Proof.
  unfold UsageMeter.ten_digits. intros Hr Hn.
  destruct r as [|pr|pr]; try lia. destruct n as [|pn|pn]; try lia.
  unfold UsageMeter.lua_str_le, UsageMeter.float_text, String.leb.
  rewrite !py_str_of_int_pos, !string_of_uint_text.
  rewrite <- (append_empty (text (udigits (Pos.to_uint pr)))) at 1.
  rewrite text_compare; try apply udigits_range.
  - rewrite !value_to_uint.
    destruct (Z.compare_spec (Z.pos pr) (Z.pos pn)) as [E|E|E].
    + rewrite E. simpl.
      symmetry. apply Z.leb_le. lia.
    + symmetry. apply Z.leb_le. lia.
    + symmetry. apply Z.leb_gt. lia.
  - rewrite (digits_of_pos 9 pr), (digits_of_pos 9 pn); [reflexivity| |];
      (split; [change (10 ^ Z.of_nat 9) with (10 ^ 9) | change (10 ^ Z.of_nat 10) with (10 ^ 10)]; lia).
Qed.

End DecimalRoundTrip.

(** ** Signed webhooks: signer and verifier *)

Section VerifySignature.
Import WebhookSecurity.

Lemma be_bytes_range n x :
  Forall (fun b => 0 <= b < 256) (Sha256.be_bytes n x).
Proof.
  induction n as [|n IH]; simpl; constructor; auto.
  change 255 with (Z.ones 8). rewrite Z.land_ones by lia.
  apply Z.mod_pos_bound. lia.
Qed.

Lemma sha256_range msg : Forall (fun b => 0 <= b < 256) (Sha256.sha256 msg).
Proof.
  unfold Sha256.sha256. apply Forall_concat, Forall_map.
  apply Forall_forall. intros w _. apply be_bytes_range.
Qed.

Lemma hex_digit_ascii d :
  0 <= d < 16 -> (Z.of_N (N_of_ascii (Sha256.hex_digit d)) <? 128) = true.
Proof.
  intros Hd.
  assert (Hcases : In d [0;1;2;3;4;5;6;7;8;9;10;11;12;13;14;15]).
  { simpl. lia. }
  simpl in Hcases.
  repeat (destruct Hcases as [<-|Hcases]; [reflexivity|]). contradiction.
Qed.

Lemma hex_is_ascii bs :
  Forall (fun b => 0 <= b < 256) bs -> is_ascii (Sha256.hex bs) = true.
Proof.
  unfold is_ascii. induction 1 as [|b bs Hb _ IH]; [reflexivity|].
  cbn [Sha256.hex list_ascii_of_string forallb].
  rewrite !hex_digit_ascii, IH; [reflexivity| |].
  - apply Z.mod_pos_bound. lia.
  - split; [apply Z.div_pos; lia | apply Z.div_lt_upper_bound; lia].
Qed.

Lemma generate_signature_ascii payload timestamp secret :
  is_ascii (generate_signature payload timestamp secret) = true.
Proof.
  unfold generate_signature, Sha256.hmac_sha256_hex, Sha256.hmac_sha256.
  unfold is_ascii. cbn [String.append list_ascii_of_string forallb].
  apply hex_is_ascii, sha256_range.
Qed.

(** The verifier accepts exactly the signatures equal to the one it
    recomputes, and only inside the window. *)
Lemma verify_signature_accepts_iff now payload sig T secret tol :
  verify_signature now payload sig T secret tol = Ok true <->
  exists t, py_int T = Some t /\ - tol <= now - t <= tol /\
            sig = generate_signature payload T secret.
Proof.
  unfold verify_signature. split.
  - destruct (py_int T) as [t|]; [|discriminate].
    destruct (Z.gtb_spec (now - t) tol); [discriminate|].
    destruct (Z.ltb_spec (now - t) (- tol)); [discriminate|].
    unfold compare_digest.
    destruct (is_ascii sig && is_ascii _); [|discriminate].
    destruct (String.eqb_spec sig (generate_signature payload T secret));
      [|discriminate].
    intros _. exists t. repeat split; auto; lia.
  - intros (t & -> & Hwin & ->).
    destruct (Z.gtb_spec (now - t) tol); [lia|].
    destruct (Z.ltb_spec (now - t) (- tol)); [lia|].
    unfold compare_digest.
    rewrite generate_signature_ascii, String.eqb_refl. reflexivity.
Qed.

Lemma verify_signature_ok_true now payload sig T secret tol :
  is_ok (verify_signature now payload sig T secret tol) = true ->
  verify_signature now payload sig T secret tol = Ok true.
Proof.
  unfold verify_signature.
  repeat (match goal with
          | |- context [match ?x with _ => _ end] => destruct x
          end; simpl; try discriminate; auto).
Qed.


End VerifySignature.


(** Scenario S1: the header value, acceptance at now = 1700000060, refusal
    with 400 at now = 1700001000, and refusal of a tampered body. *)
Example s1_signature_value :
  WebhookSecurity.generate_signature
    Scenario.s1_body Scenario.s1_timestamp Scenario.s1_secret =
  "sha256=47161ca4971dc2318c05a3a293314b9376652e44940fde37e199a72b1e04f5f9".
Proof. vm_compute. reflexivity. Qed.


(** ** Webhook client: bounded retries *)

Section SendWebhook.
Import WebhookClient.

(** A response below 400 on the first attempt is returned at once. *)
Lemma send_webhook_success_first retries net code text is_json :
  0 <= retries -> net 0 = Response code text is_json -> code < 400 ->
  send_webhook retries net =
  (Ok (if is_json then JsonBody text else RawResponse text), []).
Proof.
  intros Hr Hnet Hc. unfold send_webhook.
  destruct (Z.to_nat (retries + 1)) eqn:E; [lia|].
  simpl. rewrite Hnet. simpl.
  destruct (Z.ltb_spec code 400); [reflexivity|lia].
Qed.

(** While only 5xx answers, timeouts and transport errors come back, every
    attempt but the last sleeps 2^attempt and the loop goes on; the
    exception of the last attempt is the one raised. *)
Lemma attempts_all_retryable remaining retries attempt net last :
  0 <= attempt ->
  attempt + Z.of_nat remaining = retries + 1 ->
  (remaining <> O) ->
  (forall a, attempt <= a <= retries -> retryable (net a)) ->
  attempts remaining retries attempt net last =
  (Raise (error_of (net retries)), backoff_sleeps (remaining - 1) attempt).
Proof.
  revert attempt last. induction remaining as [|k IH]; intros attempt last Ha Hsum Hne Hnet;
    [congruence|].
  cbn [attempts].
  destruct k as [|k'].
  - (* the last attempt *)
    assert (attempt = retries) by lia. subst attempt.
    pose proof (Hnet retries ltac:(lia)) as Hcode.
    unfold attempt_body, handler.
    destruct (net retries) as [c t j| | |] eqn:En; rewrite ?Z.ltb_irrefl; simpl;
      try reflexivity.
    simpl in Hcode.
    destruct (Z.ltb_spec c 400); [lia|].
    destruct (Z.ltb_spec c 500); [lia|].
    rewrite andb_false_r. reflexivity.
  - assert (Hlt : attempt < retries) by lia.
    pose proof (Hnet attempt ltac:(lia)) as Hcode.
    assert (Hstep : exists l, attempt_body retries attempt (net attempt) last
                              = Continue [2 ^ attempt] l).
    { unfold attempt_body, handler.
      destruct (net attempt) as [c t j| | |] eqn:En;
        destruct (Z.ltb_spec attempt retries); try lia; eauto.
      simpl in Hcode.
      destruct (Z.ltb_spec c 400); [lia|].
      destruct (Z.ltb_spec c 500); [lia|].
      rewrite andb_false_r. eauto. }
    destruct Hstep as [l ->].
    rewrite IH; try lia.
    + simpl. replace (k' - 0)%nat with k' by lia. reflexivity.
    + intros a Hrange. apply Hnet. lia.
Qed.

Lemma send_webhook_all_retryable retries net :
  0 <= retries ->
  (forall a, 0 <= a <= retries -> retryable (net a)) ->
  send_webhook retries net =
  (Raise (error_of (net retries)), backoff_sleeps (Z.to_nat retries) 0).
Proof.
  intros Hr Hnet. unfold send_webhook.
  rewrite attempts_all_retryable; try lia; auto.
  f_equal. f_equal. lia.
Qed.

(** A 4xx answer before the last attempt: the loop sleeps and goes on. *)
Lemma attempt_body_client_error retries attempt code text is_json last :
  400 <= code < 500 -> attempt < retries ->
  attempt_body retries attempt (Response code text is_json) last =
  Continue [2 ^ attempt] (Some (HTTPStatusError code)).
Proof.
  intros Hc Ha. unfold attempt_body, handler.
  destruct (Z.ltb_spec code 400); [lia|].
  destruct (Z.leb_spec 400 code); [|lia].
  destruct (Z.ltb_spec code 500); [|lia].
  destruct (Z.ltb_spec attempt retries); [reflexivity|lia].
Qed.

End SendWebhook.

(** C8, at the failing input: with the default budget of three retries,
    a 404 answer to the first POST is not raised: the client sleeps one
    second, posts again, and returns the second answer.  With a peer that
    always answers 404 it posts four times, sleeping 1, 2 and 4 seconds,
    before the status error leaves. *)
Theorem send_webhook_retries_client_errors :
  WebhookClient.send_webhook 3 Scenario.net_404_then_200 =
    (Ok (WebhookClient.RawResponse "ok"), [1]) /\
  WebhookClient.send_webhook 3 Scenario.net_always_404 =
    (Raise (WebhookClient.HTTPStatusError 404), [1; 2; 4]).
Proof. split; reflexivity. Qed.

(** ** Usage meter *)

Section UsageMeterProofs.
Import UsageMeter.

Lemma stored_count_insert store key c r t :
  stored_count (<[key := {| hcount := Some c; hreset_at := r; httl := t |}]> store)
    key = c.
Proof. unfold stored_count. rewrite lookup_insert_eq. reflexivity. Qed.

(** Integers up to 2^53 in absolute value are Lua numbers. *)
Lemma lua_number_exact z : Z.abs z <= exact_integers -> lua_number z = z.
Proof.
  intros H. unfold lua_number.
  destruct (Z.leb_spec (Z.abs z) exact_integers); [reflexivity|lia].
Qed.

(** Beyond 2^53 they are rounded: 2^53 + 3 is read as 2^53 + 4, and
    2^53 + 1 as 2^53. *)
Example lua_number_rounds :
  lua_number (2 ^ 53 + 3) = 2 ^ 53 + 4 /\ lua_add (2 ^ 53) 1 = 2 ^ 53.
Proof. split; reflexivity. Qed.

(** The script on a key that stands for a state of the specification,
    with exact numbers and epochs of ten digits. *)
Lemma lua_script_spec_meter store key st limit delta reset_at now fraction :
  represents (store !! key) st ->
  (forall r, m_reset_at st = Some r -> ten_digits r) ->
  ten_digits now ->
  1 <= delta -> 0 <= m_count st ->
  m_count st + delta <= exact_integers ->
  Z.abs limit <= exact_integers ->
  lua_script store key limit delta (py_str_of_int reset_at)
    (float_text now fraction) =
  match spec_meter st delta limit reset_at now with
  | (a, None) =>
      (store, {| flag := 0; reply_count := answer_count a;
                 reply_limit := answer_limit a |})
  | (a, Some (st', ttl)) =>
      (<[key := hash_of st' ttl]> store,
       {| flag := 1; reply_count := answer_count a;
          reply_limit := answer_limit a |})
  end.
Proof.
  intros Hrep Hepoch Hnow Hdelta Hcount Hsum Hlimit.
  unfold lua_script, spec_meter, tonumber, lua_add.
  rewrite (lua_number_exact limit), (lua_number_exact delta) by lia.
  destruct (store !! key) as [h|]; cbn [represents] in Hrep.
  - destruct Hrep as (r & ttl & Hr & ->).
    cbn [hash_of hcount hreset_at]. rewrite Hr. cbn [fmap option_fmap option_map].
    rewrite (lua_number_exact (m_count st)) by lia.
    rewrite epoch_text_le by auto.
    destruct (r <=? now).
    + rewrite (lua_number_exact (0 + delta)) by lia.
      destruct (0 + delta >? limit); reflexivity.
    + rewrite (lua_number_exact (m_count st + delta)) by lia.
      destruct (m_count st + delta >? limit); reflexivity.
  - subst st. cbn [meter_default m_count m_reset_at] in *.
    rewrite (lua_number_exact (0 + delta)) by lia.
    destruct (0 + delta >? limit); reflexivity.
Qed.

End UsageMeterProofs.

(** C3: one invocation of the usage meter, as the program makes it.  The
    key holds nothing (count 0, no reset_at) or a count that is not
    negative with the reset epoch of an earlier call; delta is at least 1,
    as the request schema requires; reset_at is sent as the decimal text
    of the new epoch and now as the text of the clock; epochs and clock
    have ten digits, and the numbers stay within 2^53, where the script's
    arithmetic is exact.  Then the script answers as the meter of the
    specification: when the stored reset_at is not after now the count is
    first taken as 0; if that count plus delta exceeds the limit the
    answer is allowed = false with the count and the limit, and the key
    space is left as it was; otherwise the answer is allowed = true with
    the new count, at most the limit and not negative, and the key holds
    the new count and the new reset_at with a time to live of 86400
    seconds.  The script is one transition of the key space. *)
Theorem atomic_usage_check_contract
    (store : gmap string UsageMeter.usage_hash) (user_id : Z)
    (feature : string) (st : UsageMeter.meter_state)
    (limit delta reset_at now : Z) (fraction : string) :
  UsageMeter.represents (store !! UsageMeter.usage_key user_id feature) st ->
  (forall r, UsageMeter.m_reset_at st = Some r -> UsageMeter.ten_digits r) ->
  UsageMeter.ten_digits now ->
  1 <= delta ->
  0 <= UsageMeter.m_count st ->
  UsageMeter.m_count st + delta <= UsageMeter.exact_integers ->
  Z.abs limit <= UsageMeter.exact_integers ->
  let out := UsageMeter.atomic_usage_check store user_id feature limit delta
               (Some (py_str_of_int reset_at))
               (UsageMeter.float_text now fraction) in
  let spec := UsageMeter.spec_meter st delta limit reset_at now in
  snd out = {| UsageMeter.success := UsageMeter.allowed (fst spec);
               UsageMeter.current_usage := UsageMeter.answer_count (fst spec);
               UsageMeter.result_limit := UsageMeter.answer_limit (fst spec) |}
  /\ match snd spec with
     | None =>
         UsageMeter.allowed (fst spec) = false /\ fst out = store
     | Some (st', ttl) =>
         UsageMeter.allowed (fst spec) = true
         /\ ttl = 86400
         /\ 0 <= UsageMeter.m_count st' <= limit
         /\ UsageMeter.m_reset_at st' = Some reset_at
         /\ fst out = <[UsageMeter.usage_key user_id feature :=
                          UsageMeter.hash_of st' ttl]> store
         /\ UsageMeter.represents
              (fst out !! UsageMeter.usage_key user_id feature) st'
     end.
Proof.
  intros Hrep Hepoch Hnow Hdelta Hcount Hsum Hlimit out spec.
  subst out spec. unfold UsageMeter.atomic_usage_check.
  cbn [default from_option id].
  rewrite (lua_script_spec_meter store _ st limit delta reset_at now fraction)
    by assumption.
  unfold UsageMeter.spec_meter.
  set (count := match UsageMeter.m_reset_at st with
                | Some r => if r <=? now then 0 else UsageMeter.m_count st
                | None => UsageMeter.m_count st
                end).
  assert (Hc : 0 <= count)
    by (subst count; destruct (UsageMeter.m_reset_at st) as [r|];
        [destruct (r <=? now)|]; lia).
  destruct (Z.gtb_spec (count + delta) limit) as [Hgt|Hle].
  - cbn. auto.
  - cbn. repeat split; try lia.
    rewrite lookup_insert_eq. cbn [UsageMeter.represents].
    eexists reset_at, 86400. split; reflexivity.
Qed.

Lemma atomic_usage_check_contract_witness :
  UsageMeter.atomic_usage_check Scenario.s4_store 7 "api_calls" 3 1
    (Some "1704067200") Scenario.now_text
  = (Scenario.s4_store,
     {| UsageMeter.success := false; UsageMeter.current_usage := 3;
        UsageMeter.result_limit := 3 |}).
Proof.
  assert (Hrep : UsageMeter.represents
                   (Scenario.s4_store !! UsageMeter.usage_key 7 "api_calls")
                   {| UsageMeter.m_count := 3;
                      UsageMeter.m_reset_at := Some 1701388800 |}).
  { unfold Scenario.s4_store. rewrite lookup_singleton_eq.
    exists 1701388800, 86400. split; reflexivity. }
  pose proof (atomic_usage_check_contract Scenario.s4_store 7 "api_calls"
                _ 3 1 1704067200 1700000000 "5" Hrep) as H.
  destruct H as [Hres [_ Hstore]].
  - intros r [= <-]. unfold UsageMeter.ten_digits. lia.
  - unfold UsageMeter.ten_digits. lia.
  - lia.
  - cbn. lia.
  - cbn. unfold UsageMeter.exact_integers. lia.
  - unfold UsageMeter.exact_integers. lia.
  - destruct (UsageMeter.atomic_usage_check _ _ _ _ _ _ _) as [s r].
    cbn [fst snd] in *. subst. reflexivity.
Defined.

(** Scenario S4: at the limit the meter denies and the table is untouched. *)
Example s4_usage_meter_deny (db : gmap (Z * string) UsageMeter.UserUsage) :
  UsageMeter.use_feature (Some {[ "api_calls" := 3 ]}) Scenario.s4_store db
    7 "api_calls" 1 1704067200 Scenario.now_text =
  (Ok {| UsageMeter.resp_success := false;
         UsageMeter.resp_current_usage := 3;
         UsageMeter.resp_limit := 3;
         UsageMeter.remaining := 0;
         UsageMeter.resp_reset_at := 1704067200 |}, Scenario.s4_store, db).
Proof. reflexivity. Qed.

(** ** Queue workers: retry ceiling and lock keys *)

Section WorkerProofs.
Import Json Redis QueuePolicies Workers.

Lemma append_inj_l (p a b : string) : (p ++ a = p ++ b)%string -> a = b.
Proof. induction p as [|c p IH]; simpl; intros H; [exact H|]. inversion H. auto. Qed.

(** [str] of an int starts with a digit or a minus sign. *)
Lemma py_str_of_int_head (z : Z) :
  exists c rest, py_str_of_int z = String c rest /\
    (c = "-"%char \/ (48 <= Z.of_N (N_of_ascii c) <= 57)).
Proof.
  unfold py_str_of_int.
  destruct (Z.to_int z) as [d|d]; simpl.
  - destruct d; simpl; eexists _, _; (split; [reflexivity|right; simpl; lia]).
  - eexists _, _. split; [reflexivity|left; reflexivity].
Qed.

Lemma py_str_of_int_not_letter (z : Z) (c : ascii) (rest : string) :
  97 <= Z.of_N (N_of_ascii c) -> py_str_of_int z <> String c rest.
Proof.
  intros Hc Heq. destruct (py_str_of_int_head z) as (c' & r' & E & Hc').
  rewrite E in Heq. inversion Heq; subst.
  destruct Hc' as [->|Hd]; [simpl in Hc; lia|lia].
Qed.

(** The payment workers compute the ceiling the specification describes. *)
Lemma pay_max_try_is_spec queue_main fallback (m : option Z) :
  pay_max_try queue_main fallback
    (match m with Some n => JInt n | None => JNull end) =
  spec_effective_max
    (match PAY_QUEUE_POLICIES !! queue_main with
     | Some p => max_retries p
     | None => fallback
     end) m.
Proof. destruct m; reflexivity. Qed.

(** The subscription worker's decision depends on the policy alone. *)
Lemma after_handler_raised_label json_dumps r now draw queue_main msg raw attempts key :
  snd (after_handler json_dumps r now draw queue_main msg raw attempts key Raised) =
  if attempts + 1 <=? sub_max_retries queue_main then "retry" else "failed".
Proof.
  unfold after_handler. destruct (_ <=? _); reflexivity.
Qed.

(** Within the ceiling the failed message leaves the processing list and
    a copy with the new attempts goes to the delayed set, scored now plus
    the policy backoff; beyond it the original text is pushed on the
    failed list.  The lock is released either way. *)
Lemma after_handler_raised_state json_dumps r now draw queue_main msg raw attempts key :
  fst (after_handler json_dumps r now draw queue_main msg raw attempts key Raised) =
  let r1 := remove_from_processing r (processing_of queue_main) msg in
  if attempts + 1 <=? sub_max_retries queue_main then
    release_lock
      (zadd r1 (delayed_of queue_main) (json_dumps (retry_message raw (attempts + 1)))
         (now + compute_backoff SUB_QUEUE_POLICIES queue_main (attempts + 1) draw))
      key
  else release_lock (lpush r1 (failed_of queue_main) msg) key.
Proof.
  unfold after_handler. destruct (_ <=? _); reflexivity.
Qed.

End WorkerProofs.

(** C4, at the failing input: on q:sub:payment_initiation (policy ceiling
    5) an envelope with attempts = 2 and max_attempts = 2 whose handler
    raises is delayed for a third retry with attempts = 3, although the
    ceiling the specification describes is 2 and 3 exceeds it.  The
    payment-service worker dead-letters the same envelope. *)
Theorem sub_worker_ignores_envelope_max_attempts
    (json_dumps : Json.json -> string) (r : Redis.redis) (now draw : Z)
    (lock_key : string) :
  let q := "q:sub:payment_initiation" in
  Json.dict_get "max_attempts"
    (match Scenario.env_m2 with Json.JDict d => d | _ => [] end) = Some (Json.JInt 2)
  /\ Workers.attempts_of Scenario.env_m2 = Some 2
  /\ snd (Workers.after_handler json_dumps r now draw q Scenario.msg_m2
            Scenario.env_m2 2 lock_key Workers.Raised) = "retry"
  /\ Redis.zscore
       (fst (Workers.after_handler json_dumps r now draw q Scenario.msg_m2
               Scenario.env_m2 2 lock_key Workers.Raised))
       (Workers.delayed_of q)
       (json_dumps (Workers.retry_message Scenario.env_m2 3))
     = Some (now + QueuePolicies.compute_backoff
                     QueuePolicies.SUB_QUEUE_POLICIES q 3 draw)
  /\ (3 <=? Workers.spec_effective_max (Workers.sub_max_retries q) (Some 2)) = false.
Proof.
  intros q.
  assert (Hmax : Workers.sub_max_retries q = 5) by reflexivity.
  split; [reflexivity|]. split; [reflexivity|].
  split; [rewrite after_handler_raised_label, Hmax; reflexivity|].
  split; [|rewrite Hmax; reflexivity].
  rewrite after_handler_raised_state. cbv zeta. rewrite Hmax.
  change (2 + 1 <=? 5) with true. cbv iota.
  unfold Workers.release_lock, Redis.del, Redis.zadd, Redis.zscore.
  cbn [Redis.zsets]. rewrite lookup_insert_eq. cbn [mbind option_bind].
  rewrite lookup_insert_eq. reflexivity.
Qed.

(** The sibling worker of the payment service reads max_attempts: the
    same envelope is dead-lettered there. *)
Lemma pay_worker_honours_envelope_max_attempts
    (json_dumps : Json.json -> string) (py_repr : Json.json -> string)
    (r : Redis.redis) (now draw : Z) :
  exists p,
    Workers.parse_message Scenario.loads py_repr Scenario.msg_m2 = Some p /\
    Workers.message_id p = "m-2" /\
    Workers.attempts p = 2 /\
    Workers.max_attempts p = Json.JInt 2 /\
    snd (Workers.pay_on_failure json_dumps r now draw "q:pay:subscription_update" 5
           Scenario.msg_m2 p) = "failed".
Proof. eexists. repeat split. Qed.

(** The payment workers derive the message id the specification
    describes: the id of the envelope when it is a non-empty string, the
    SHA-256 of the text otherwise. *)
Lemma pay_message_id_is_spec (py_repr : Json.json -> string)
    (id : option string) (msg : string) :
  id <> Some EmptyString ->
  Workers.id_or_hash py_repr (option_map Json.JStr id) msg =
  Workers.spec_message_id id msg.
Proof.
  intros Hid. destruct id as [i|]; simpl; [|reflexivity].
  destruct (String.eqb_spec i EmptyString); [congruence|reflexivity].
Qed.

(** C6, at the failing inputs: for the envelope with id m-1 the sweeper
    builds the lock key from the id, as specified, but the worker that
    claims the message builds it from the built-in hash of the text, so
    the two keys differ; for a message without id neither uses the
    SHA-256 of the text. *)
Theorem sub_worker_and_sweeper_lock_keys_differ
    (worker_hash sweeper_hash : string -> Z) (py_repr : Json.json -> string) :
  let q1 := "q:sub:payment_initiation" in
  let q2 := "q:sub:plan_change" in
  Workers.sub_sweeper_lock_key Scenario.loads sweeper_hash py_repr q1 Scenario.msg_m1
    = ("lock:" ++ q1 ++ ":" ++ Workers.spec_message_id (Some "m-1") Scenario.msg_m1)%string
  /\ Workers.sub_worker_lock_key worker_hash q1 Scenario.msg_m1
     <> Workers.sub_sweeper_lock_key Scenario.loads sweeper_hash py_repr q1 Scenario.msg_m1
  /\ Workers.sub_worker_lock_key worker_hash q2 Scenario.msg_noid
     <> ("lock:" ++ q2 ++ ":" ++ Workers.spec_message_id None Scenario.msg_noid)%string
  /\ Workers.sub_sweeper_lock_key Scenario.loads sweeper_hash py_repr q2 Scenario.msg_noid
     <> ("lock:" ++ q2 ++ ":" ++ Workers.spec_message_id None Scenario.msg_noid)%string.
Proof.
  intros q1 q2.
  assert (Hsha : Workers.spec_message_id None Scenario.msg_noid =
    "f59fbd6cd3128a4996ff3dd28457bd8c2ea0027c0c24c5767c3515b9e5c564ba").
  { vm_compute. reflexivity. }
  split; [reflexivity|]. split; [|split].
  - unfold Workers.sub_worker_lock_key, Workers.sub_sweeper_lock_key.
    change (Workers.sub_sweeper_mid Scenario.loads sweeper_hash py_repr Scenario.msg_m1)
      with "m-1".
    intros H. apply (append_inj_l "lock:q:sub:payment_initiation:") in H.
    revert H. apply py_str_of_int_not_letter. simpl. lia.
  - unfold Workers.sub_worker_lock_key. rewrite Hsha.
    intros H. apply (append_inj_l "lock:q:sub:plan_change:") in H.
    revert H. apply py_str_of_int_not_letter. simpl. lia.
  - unfold Workers.sub_sweeper_lock_key. rewrite Hsha.
    change (Workers.sub_sweeper_mid Scenario.loads sweeper_hash py_repr Scenario.msg_noid)
      with (py_str_of_int (sweeper_hash Scenario.msg_noid)).
    intros H. apply (append_inj_l "lock:q:sub:plan_change:") in H.
    revert H. apply py_str_of_int_not_letter. simpl. lia.
Qed.

(** C5, at the failing input: a worker claims the envelope with id m-1 on
    q:sub:payment_initiation at time 1000 and holds its lock (time to live
    180 s).  Twenty seconds later, with that lock still alive, the sweeper
    finds no key under the name it derives from the id, takes the entry
    off the processing list and delays it with attempts = 1. *)
Theorem sub_sweeper_reclaims_live_locked_message
    (json_dumps : Json.json -> string) (worker_hash sweeper_hash : string -> Z)
    (py_repr : Json.json -> string) (draw : Z) :
  let q := "q:sub:payment_initiation" in
  let r0 := Redis.lpush Redis.empty q Scenario.msg_m1 in
  let lock_key := Workers.sub_worker_lock_key worker_hash q Scenario.msg_m1 in
  let r1 := fst (Workers.claim_and_lock Scenario.loads json_dumps worker_hash r0 1000 q) in
  let swept := Workers.sub_sweep_queue Scenario.loads json_dumps sweeper_hash
                 py_repr r1 1020 [draw] q in
  snd (Workers.claim_and_lock Scenario.loads json_dumps worker_hash r0 1000 q)
    = Workers.Locked Scenario.msg_m1 Scenario.env_m1 0 lock_key
  /\ Redis.lrange_all r1 (Workers.processing_of q) = [Scenario.msg_m1]
  /\ Redis.exists_key r1 1020 lock_key = true
  /\ snd swept = Some 1
  /\ Redis.lrange_all (fst swept) (Workers.processing_of q) = []
  /\ Redis.zscore (fst swept) (Workers.delayed_of q)
       (json_dumps (Workers.retry_message Scenario.env_m1 1))
     = Some (1020 + QueuePolicies.compute_backoff
                      QueuePolicies.SUB_QUEUE_POLICIES q 1 draw).
Proof.
  intros q r0 lock_key r1 swept.
  assert (Hne : ("lock:" ++ q ++ ":m-1")%string <> lock_key).
  { unfold lock_key, Workers.sub_worker_lock_key. intros H.
    apply (append_inj_l "lock:q:sub:payment_initiation:") in H.
    symmetry in H. revert H. apply py_str_of_int_not_letter. simpl. lia. }
  assert (Hclaim : Workers.claim_and_lock Scenario.loads json_dumps worker_hash r0 1000 q =
    ({| Redis.lists := <[Workers.processing_of q := [Scenario.msg_m1]]>
                         (<[q := []]> (<[q := [Scenario.msg_m1]]> ∅));
        Redis.zsets := ∅;
        Redis.strings := <[lock_key := ("1", 1180)]> ∅ |},
     Workers.Locked Scenario.msg_m1 Scenario.env_m1 0 lock_key)).
  { reflexivity. }
  set (r1' := {| Redis.lists := <[Workers.processing_of q := [Scenario.msg_m1]]>
                                  (<[q := []]> (<[q := [Scenario.msg_m1]]> ∅));
                 Redis.zsets := ∅;
                 Redis.strings := <[lock_key := ("1", 1180)]> ∅ |}) in *.
  assert (Hex : Redis.exists_key r1' 1020 ("lock:" ++ q ++ ":m-1")%string = false).
  { unfold Redis.exists_key, r1'. cbn [Redis.strings].
    rewrite lookup_insert_ne by (intros E; apply Hne; symmetry; exact E).
    rewrite lookup_empty. reflexivity. }
  assert (Hsw : Workers.sub_sweep_queue Scenario.loads json_dumps sweeper_hash
                  py_repr r1' 1020 [draw] q =
    (Workers.queue_delayed_message json_dumps
       (Workers.remove_from_processing r1' (Workers.processing_of q) Scenario.msg_m1)
       1020 q (Workers.retry_message Scenario.env_m1 1)
       (QueuePolicies.compute_backoff QueuePolicies.SUB_QUEUE_POLICIES q 1 draw),
     Some 1)).
  { unfold Workers.sub_sweep_queue.
    change (Redis.lrange_all r1' (Workers.processing_of q)) with [Scenario.msg_m1].
    cbn [Workers.sub_sweep_items]. unfold Workers.sub_sweep_item.
    change (Workers.sub_sweeper_lock_key Scenario.loads sweeper_hash py_repr q
              Scenario.msg_m1) with ("lock:" ++ q ++ ":m-1")%string.
    rewrite Hex. reflexivity. }
  subst r1. unfold swept. rewrite Hclaim. cbn [fst snd]. rewrite Hsw. cbn [fst snd].
  split; [reflexivity|]. split; [reflexivity|].
  split.
  { unfold Redis.exists_key, r1'. cbn [Redis.strings]. rewrite lookup_insert_eq.
    reflexivity. }
  split; [reflexivity|]. split; [reflexivity|].
  unfold Workers.queue_delayed_message, Redis.zadd, Redis.zscore.
  cbn [Redis.zsets]. rewrite lookup_insert_eq. cbn [mbind option_bind].
  rewrite lookup_insert_eq. reflexivity.
Qed.

(** Where the sweeper does find the key it looks for, it leaves the entry
    alone; for a text without id, read by a sweeper whose process hashes
    as the worker's does, that key is the worker's. *)
Lemma sub_sweep_item_skips_locked
    (json_loads : string -> option Json.json) (json_dumps : Json.json -> string)
    (py_hash : string -> Z) (py_repr : Json.json -> string)
    (r : Redis.redis) (now draw : Z) (main msg : string) :
  Redis.exists_key r now
    (Workers.sub_sweeper_lock_key json_loads py_hash py_repr main msg) = true ->
  Workers.sub_sweep_item json_loads json_dumps py_hash py_repr r now draw main msg
  = Some (r, false, false).
Proof. intros H. unfold Workers.sub_sweep_item. rewrite H. reflexivity. Qed.

(** An entry whose key the sweeper does not find is taken off the
    processing list; with its attempts raised by one it is delayed by the
    policy backoff when within the policy ceiling, and its text is pushed
    on the failed list otherwise. *)
Lemma sub_sweep_item_orphan
    (json_loads : string -> option Json.json) (json_dumps : Json.json -> string)
    (py_hash : string -> Z) (py_repr : Json.json -> string)
    (r : Redis.redis) (now draw : Z) (main msg : string) (a : Z) :
  Redis.exists_key r now
    (Workers.sub_sweeper_lock_key json_loads py_hash py_repr main msg) = false ->
  Workers.attempts_of (default (Json.JDict []) (json_loads msg)) = Some a ->
  Workers.sub_sweep_item json_loads json_dumps py_hash py_repr r now draw main msg
  = let r1 := Redis.lrem1 r (Workers.processing_of main) msg in
    if a + 1 <=? Workers.sub_max_retries main then
      Some (Redis.zadd r1 (Workers.delayed_of main)
              (json_dumps (Workers.retry_message
                             (default (Json.JDict []) (json_loads msg)) (a + 1)))
              (now + QueuePolicies.compute_backoff
                       QueuePolicies.SUB_QUEUE_POLICIES main (a + 1) draw),
            true, true)
    else Some (Redis.lpush r1 (Workers.failed_of main) msg, true, false).
Proof.
  intros Hk Ha. unfold Workers.sub_sweep_item. rewrite Hk, Ha. reflexivity.
Qed.

Lemma sub_lock_keys_agree_without_id
    (json_loads : string -> option Json.json)
    (py_hash : string -> Z) (py_repr : Json.json -> string)
    (main msg : string) (d : list (string * Json.json)) :
  json_loads msg = Some (Json.JDict d) ->
  Json.dict_get "id" d = None ->
  Workers.sub_sweeper_lock_key json_loads py_hash py_repr main msg =
  Workers.sub_worker_lock_key py_hash main msg.
Proof.
  intros Hl Hid. unfold Workers.sub_sweeper_lock_key, Workers.sub_sweeper_mid,
    Workers.sub_worker_lock_key.
  rewrite Hl. simpl. rewrite Hid. reflexivity.
Qed.

(** ** Subscription state machine *)

Section StateMachine.
Import Json Subscriptions.
Variable isoformat : Z -> string.

Lemma update_subscription_lookup d id f :
  subscriptions (update_subscription d id f) !! id = f <$> subscriptions d !! id.
Proof. apply lookup_alter_eq. Qed.

Lemma update_subscription_other d id f id' :
  id <> id' ->
  subscriptions (update_subscription d id f) !! id' = subscriptions d !! id'.
Proof. intros H. unfold update_subscription. simpl. now apply lookup_alter_ne. Qed.

Lemma get_renewal_plan_update d id f p :
  get_renewal_plan (update_subscription d id f) p = get_renewal_plan d p.
Proof. reflexivity. Qed.

(** When a renewal plan is found: the plan is a trial plan whose
    renewal_plan reads as the key of a stored plan. *)
Lemma get_renewal_plan_some d id rp :
  get_renewal_plan d id = Some rp <->
  exists tp v n, plans d !! id = Some tp /\ is_trial_plan tp = true /\
                 trial_renewal_plan_id tp = Some v /\ int_of_str_of v = Some n /\
                 plans d !! n = Some rp.
Proof.
  unfold get_renewal_plan. split.
  - destruct (plans d !! id) as [tp|]; [|discriminate].
    destruct (is_trial_plan tp) eqn:Et; simpl; [|discriminate].
    destruct (trial_renewal_plan_id tp) as [v|] eqn:Ev; [|discriminate].
    destruct (int_of_str_of v) as [n|] eqn:En; [|discriminate].
    intros H. exists tp, v, n. repeat split; auto.
  - intros (tp & v & n & -> & -> & -> & -> & H). exact H.
Qed.

Lemma extended_end_date cycle s :
  end_date (if String.eqb cycle "yearly"
            then extend_subscription cycle 1 s
            else extend_subscription cycle 1 s)
  = end_date s + cycle_days cycle * day.
Proof.
  unfold cycle_days, extend_subscription.
  destruct (String.eqb cycle "yearly"); cbn; unfold day; lia.
Qed.

(** The success handler on any status other than pending, past_due,
    active and trial: the store is returned as it is, without an event. *)
Lemma handle_payment_success_other_status d sub plan tx amount now :
  status sub <> "pending" -> status sub <> "past_due" ->
  status sub <> "active" -> status sub <> "trial" ->
  handle_payment_success isoformat d sub plan tx amount now = d.
Proof.
  intros H1 H2 H3 H4. unfold handle_payment_success.
  destruct (String.eqb_spec (status sub) "pending"); [contradiction|].
  destruct (String.eqb_spec (status sub) "past_due"); [contradiction|].
  destruct (String.eqb_spec (status sub) "active"); [contradiction|].
  destruct (String.eqb_spec (status sub) "trial"); [contradiction|].
  reflexivity.
Qed.

(** The failure handler appends its event on every status. *)
Lemma handle_payment_failure_events d sub tx amount now :
  exists e, events (handle_payment_failure d sub tx amount now) = events d ++ [e]
            /\ ev_subscription_id e = sub_pk sub /\ event_type e = "payment_failed".
Proof.
  unfold handle_payment_failure.
  destruct (String.eqb (status sub) "pending");
    [|destruct (String.eqb (status sub) "active" || String.eqb (status sub) "trial")];
    cbn; eexists; repeat split.
Qed.

End StateMachine.

(** C1, at the failing input: a success event for a revoked subscription
    is applied (the synchronous path answers processed, the inbox row of
    the event is marked processed and the session is committed) and leaves
    the subscription as it was, as the table says; but no SubscriptionEvent
    row is appended, where the table records the event.  The failed event
    for the same subscription does append its row. *)
Theorem payment_success_on_revoked_appends_no_event :
  let applied := Subscriptions.process_payment_webhook Scenario.UUID
                   Scenario.uuid_str Scenario.isoformat Scenario.revoked_session
                   Scenario.s2_payload 1700000200 in
  let failed := Subscriptions.process_payment_webhook Scenario.UUID
                  Scenario.uuid_str Scenario.isoformat Scenario.revoked_session
                  Scenario.failed_payload 1700000200 in
  snd applied = Ok (Subscriptions.processed_response "evt-1")
  /\ Subscriptions.processed <$>
       Subscriptions.get_by_event_id
         (Subscriptions.committed (fst applied)) "evt-1" = Some true
  /\ Subscriptions.subscriptions (Subscriptions.committed (fst applied))
       !! Scenario.uuid_S = Some Scenario.revoked_subscription
  /\ Subscriptions.events (Subscriptions.committed (fst applied)) = []
  /\ snd failed = Ok (Subscriptions.processed_response "evt-1")
  /\ Subscriptions.subscriptions (Subscriptions.committed (fst failed))
       !! Scenario.uuid_S = Some Scenario.revoked_subscription
  /\ List.map Subscriptions.event_type
       (Subscriptions.events (Subscriptions.committed (fst failed)))
     = ["payment_failed"].
Proof. vm_compute. repeat split; reflexivity. Qed.

(** ** Webhook events that are not applied *)

Section NotApplied.
Import Json Subscriptions.
Variable UUID : string -> option Z.
Variable uuid_str : Z -> string.
Variable isoformat : Z -> string.

Lemma process_webhook_event_false_cases (s : session) event payload_dict now :
  named_subscription UUID s payload_dict = None \/
  (event_status payload_dict <> Some "success" /\
   event_status payload_dict <> Some "failed") ->
  process_webhook_event UUID isoformat s event payload_dict now = (s, false) \/
  process_webhook_event UUID isoformat s event payload_dict now = (rollback s, false).
Proof.
  intros Hcase.
  unfold process_webhook_event, process_webhook_event_body.
  unfold named_subscription, event_status, event_actual in Hcase.
  destruct payload_dict as [| | | | |l|d]; try (right; reflexivity).
  destruct (default (JDict d) (dict_get "payload" d)) as [| | | | |l|a];
    try (right; reflexivity).
  cbn [mbind result_bind option_bind] in *.
  destruct (id_field UUID a "transaction_id") as [tx|]; [|right; reflexivity].
  destruct (id_field UUID a "subscription_id") as [[sid|]|];
    [| |right; reflexivity].
  - destruct (dict_get "status" a) as [v|]; [|right; reflexivity].
    cbn [mbind result_bind option_bind] in *.
    destruct (subscriptions (pending s) !! sid) as [sub|]; [|left; reflexivity].
    destruct Hcase as [Hcase|[Hs Hf]]; [discriminate|].
    destruct v as [| | | |st| |]; try (left; reflexivity).
    destruct (String.eqb_spec st "success") as [->|_]; [congruence|].
    destruct (String.eqb_spec st "failed") as [->|_]; [congruence|].
    left; reflexivity.
  - destruct (dict_get "status" a) as [v|]; [|right; reflexivity].
    left; reflexivity.
Qed.

Lemma named_subscription_with_inbox (s : session) rows payload_dict :
  named_subscription UUID (with_pending s (with_inbox (pending s) rows)) payload_dict
  = named_subscription UUID s payload_dict.
Proof. reflexivity. Qed.

(** The synchronous path: the failure is raised after a rollback. *)
Lemma process_payment_webhook_reports_failure (s : session) (p : WebhookPayload) now :
  (forall row, get_by_event_id (pending s) (wp_event_id p) = Some row ->
               processed row = false) ->
  named_subscription UUID s (serialize_payload uuid_str isoformat p) = None \/
  (event_status (serialize_payload uuid_str isoformat p) <> Some "success" /\
   event_status (serialize_payload uuid_str isoformat p) <> Some "failed") ->
  process_payment_webhook UUID uuid_str isoformat s p now =
  (rollback s, Raise "Webhook processing returned false").
Proof.
  intros Hrow Hcase. unfold process_payment_webhook.
  destruct (get_by_event_id (pending s) (wp_event_id p)) as [row|] eqn:Eg.
  - rewrite (Hrow row eq_refl).
    match goal with
    | |- context [process_webhook_event _ _ ?s1 ?e ?pl ?n] =>
        destruct (process_webhook_event_false_cases s1 e pl n) as [-> | ->]
    end; [exact Hcase|reflexivity|reflexivity].
  - unfold create_webhook_request. rewrite Eg.
    match goal with
    | |- context [process_webhook_event _ _ ?s1 ?e ?pl ?n] =>
        destruct (process_webhook_event_false_cases s1 e pl n) as [-> | ->]
    end; [exact Hcase|reflexivity|reflexivity].
Qed.

(** An event with status success or failed for a stored subscription is
    applied by the handler of its status, its inbox row is marked
    processed, and the session is committed. *)
Lemma process_webhook_event_applies (s : session) event payload_dict now
    a tx sid ev sub plan :
  event_actual payload_dict = Some a ->
  id_field UUID a "transaction_id" = Ok tx ->
  id_field UUID a "subscription_id" = Ok (Some sid) ->
  dict_get "status" a = Some (JStr ev) ->
  ev = "success" \/ ev = "failed" ->
  subscriptions (pending s) !! sid = Some sub ->
  plans (pending s) !! sub_plan_id sub = Some plan ->
  process_webhook_event UUID isoformat s event payload_dict now =
  (let d1 := handle_payment isoformat ev (pending s) sub plan tx
               (default (JFloat 0 1) (dict_get "amount" a)) now in
   commit (with_pending s
             match get_by_event_id d1 event with
             | Some w => mark_processed d1 (row_id w) now
             | None => d1
             end), true).
Proof.
  intros Ha Htx Hsid Hst Hev Hsub Hplan.
  unfold process_webhook_event, process_webhook_event_body.
  unfold event_actual in Ha.
  destruct payload_dict as [| | | | |l|d]; try discriminate.
  destruct (default (JDict d) (dict_get "payload" d)) as [| | | | |l|a'];
    try discriminate.
  injection Ha as ->.
  cbn [mbind result_bind]. rewrite Htx, Hsid, Hst.
  cbn [mbind result_bind option_bind]. rewrite Hsub.
  unfold handle_payment.
  destruct Hev as [-> | ->]; cbn [String.eqb Ascii.eqb Bool.eqb].
  - rewrite Hplan. reflexivity.
  - reflexivity.
Qed.

End NotApplied.

(** C10: when the subscription_id of an event finds no subscription, or
    its status is neither success nor failed, process_webhook_event
    returns False; the stored state is what it was (no event row, no
    change to a subscription, the inbox row not marked processed), and the
    session's pending state is either untouched or rolled back to the
    stored state.  On the synchronous path, for an event not yet marked
    processed, the call then raises after a rollback instead of answering
    processed. *)
Theorem process_webhook_event_not_applied
    (UUID : string -> option Z) (uuid_str : Z -> string) (isoformat : Z -> string)
    (s : Subscriptions.session) (event : string) (payload_dict : Json.json)
    (now : Z) :
  Subscriptions.named_subscription UUID s payload_dict = None \/
  (Subscriptions.event_status payload_dict <> Some "success" /\
   Subscriptions.event_status payload_dict <> Some "failed") ->
  let r := Subscriptions.process_webhook_event UUID isoformat s event payload_dict now in
  snd r = false
  /\ Subscriptions.committed (fst r) = Subscriptions.committed s
  /\ (Subscriptions.pending (fst r) = Subscriptions.pending s \/
      Subscriptions.pending (fst r) = Subscriptions.committed s)
  /\ forall p : Subscriptions.WebhookPayload,
       payload_dict = Subscriptions.serialize_payload uuid_str isoformat p ->
       (forall row,
          Subscriptions.get_by_event_id (Subscriptions.pending s)
            (Subscriptions.wp_event_id p) = Some row ->
          Subscriptions.processed row = false) ->
       Subscriptions.process_payment_webhook UUID uuid_str isoformat s p now =
       (Subscriptions.rollback s, Raise "Webhook processing returned false").
Proof.
  intros Hcase r. subst r.
  split; [|split; [|split]].
  4: { intros p -> Hrow. now apply process_payment_webhook_reports_failure. }
  all: destruct (process_webhook_event_false_cases UUID isoformat s event
                   payload_dict now Hcase) as [-> | ->]; cbn; auto.
Qed.

Lemma process_webhook_event_not_applied_witness :
  (let r := Subscriptions.process_webhook_event Scenario.UUID Scenario.isoformat
              Scenario.s2_session "evt-2"
              (Subscriptions.serialize_payload Scenario.uuid_str Scenario.isoformat
                 Scenario.unknown_subscription_payload) 1700000100 in
   snd r = false /\ fst r = Scenario.s2_session)
  /\ Subscriptions.process_payment_webhook Scenario.UUID Scenario.uuid_str
       Scenario.isoformat Scenario.s2_session Scenario.refunded_payload 1700000100
     = (Scenario.s2_session, Raise "Webhook processing returned false").
Proof.
  split.
  - destruct (process_webhook_event_not_applied Scenario.UUID Scenario.uuid_str
                Scenario.isoformat Scenario.s2_session "evt-2"
                (Subscriptions.serialize_payload Scenario.uuid_str Scenario.isoformat
                   Scenario.unknown_subscription_payload) 1700000100)
      as (Hf & _ & _ & _).
    + left. reflexivity.
    + split; [exact Hf | reflexivity].
  - destruct (process_webhook_event_not_applied Scenario.UUID Scenario.uuid_str
                Scenario.isoformat Scenario.s2_session "evt-3"
                (Subscriptions.serialize_payload Scenario.uuid_str Scenario.isoformat
                   Scenario.refunded_payload) 1700000100)
      as (_ & _ & _ & Hsync).
    + right. split; vm_compute; discriminate.
    + apply (Hsync Scenario.refunded_payload eq_refl). intros row H. discriminate H.
Defined.


(** ** Webhook inbox: duplicates *)

Section Inbox.
Import Json Subscriptions.
Variable UUID : string -> option Z.
Variable uuid_str : Z -> string.
Variable isoformat : Z -> string.

Lemma find_map_keeping f l e :
  keeps_event_id f ->
  List.find (fun r => String.eqb (event_id r) e) (List.map f l)
  = f <$> List.find (fun r => String.eqb (event_id r) e) l.
Proof.
  intros Hf. induction l as [|r l IH]; [reflexivity|].
  cbn [List.map List.find]. rewrite Hf.
  destruct (String.eqb (event_id r) e); [reflexivity|exact IH].
Qed.

Lemma filter_map_keeping f l e :
  keeps_event_id f ->
  List.filter (fun r => String.eqb (event_id r) e) (List.map f l)
  = List.map f (List.filter (fun r => String.eqb (event_id r) e) l).
Proof.
  intros Hf. induction l as [|r l IH]; [reflexivity|].
  cbn [List.map List.filter]. rewrite Hf.
  destruct (String.eqb (event_id r) e); cbn [List.map]; now rewrite IH.
Qed.

Lemma keeps_event_id_on id f :
  keeps_event_id f -> keeps_event_id (fun r => if row_id r =? id then f r else r).
Proof. intros Hf r. destruct (row_id r =? id); [apply Hf|reflexivity]. Qed.

Lemma set_processed_keeps now : keeps_event_id (set_processed now).
Proof. intros r. reflexivity. Qed.

Lemma set_payload_keeps p : keeps_event_id (set_payload p).
Proof. intros r. reflexivity. Qed.

Lemma find_none_filter_nil l e :
  List.find (fun r => String.eqb (event_id r) e) l = None ->
  List.filter (fun r => String.eqb (event_id r) e) l = [].
Proof.
  induction l as [|r l IH]; [reflexivity|]. cbn [List.find List.filter].
  destruct (String.eqb (event_id r) e); [discriminate|exact IH].
Qed.

Lemma find_some_filter_one l e w :
  List.find (fun r => String.eqb (event_id r) e) l = Some w ->
  (length (List.filter (fun r => String.eqb (event_id r) e) l) <= 1)%nat ->
  List.filter (fun r => String.eqb (event_id r) e) l = [w].
Proof.
  induction l as [|r l IH]; [discriminate|]. cbn [List.find List.filter].
  destruct (String.eqb (event_id r) e).
  - intros [= ->] Hlen. cbn [length] in Hlen.
    destruct (List.filter _ l); [reflexivity|cbn in Hlen; lia].
  - exact IH.
Qed.

(** The handlers leave the inbox alone. *)
Lemma handle_payment_success_inbox d sub plan tx amount now :
  inbox (handle_payment_success isoformat d sub plan tx amount now) = inbox d.
Proof.
  unfold handle_payment_success.
  destruct (String.eqb (status sub) "pending"); [reflexivity|].
  destruct (String.eqb (status sub) "past_due"); [reflexivity|].
  destruct (String.eqb (status sub) "active" || String.eqb (status sub) "trial");
    [|reflexivity].
  destruct (String.eqb (status sub) "active"); [reflexivity|].
  destruct (get_renewal_plan _ _); reflexivity.
Qed.

Lemma handle_payment_failure_inbox d sub tx amount now :
  inbox (handle_payment_failure d sub tx amount now) = inbox d.
Proof.
  unfold handle_payment_failure.
  destruct (String.eqb (status sub) "pending"); [reflexivity|].
  destruct (String.eqb (status sub) "active" || String.eqb (status sub) "trial");
    reflexivity.
Qed.

(** A call that returns True has committed, and has marked the row of its
    event processed when the inbox holds one. *)
Lemma process_webhook_event_true (s s' : session) e payload_dict now :
  process_webhook_event UUID isoformat s e payload_dict now = (s', true) ->
  committed s' = pending s' /\
  inbox (pending s') =
    match get_by_event_id (pending s) e with
    | Some w => List.map (fun r => if row_id r =? row_id w
                                   then set_processed now r else r)
                  (inbox (pending s))
    | None => inbox (pending s)
    end.
Proof.
  unfold process_webhook_event.
  destruct (process_webhook_event_body UUID isoformat s e payload_dict now)
    as [[s2 b]|err] eqn:Eb; [|intros [= _ H]; discriminate].
  intros [= -> ->]. revert Eb. unfold process_webhook_event_body.
  destruct payload_dict as [| | | | |l|d]; try discriminate.
  destruct (default (JDict d) (dict_get "payload" d)) as [| | | | |l|a];
    try discriminate.
  cbn [mbind result_bind].
  destruct (id_field UUID a "transaction_id") as [tx|]; [|discriminate].
  destruct (id_field UUID a "subscription_id") as [sid|]; [|discriminate].
  destruct (dict_get "status" a) as [v|]; [|discriminate].
  cbn [mbind result_bind].
  destruct (sid ≫= _) as [sub|]; [|discriminate].
  assert (Hfin : forall d1, inbox d1 = inbox (pending s) ->
    @Ok string _ (commit (with_pending s
          match get_by_event_id d1 e with
          | Some webhook => mark_processed d1 (row_id webhook) now
          | None => d1
          end), true) = Ok (s', true) ->
    committed s' = pending s' /\
    inbox (pending s') =
      match get_by_event_id (pending s) e with
      | Some w => List.map (fun r => if row_id r =? row_id w
                                     then set_processed now r else r)
                    (inbox (pending s))
      | None => inbox (pending s)
      end).
  { intros d1 Hin [= <-]. split; [reflexivity|].
    unfold get_by_event_id. rewrite Hin.
    destruct (List.find _ (inbox (pending s))) as [w|]; cbn.
    - rewrite Hin. reflexivity.
    - exact Hin. }
  destruct v as [| | | |st| |]; try discriminate.
  destruct (String.eqb st "success").
  - destruct (plans (pending s) !! sub_plan_id sub) as [plan|].
    + cbn [mbind result_bind]. apply Hfin, handle_payment_success_inbox.
    + destruct (reads_plan (status sub)); [discriminate|].
      cbn [mbind result_bind]. apply Hfin, handle_payment_success_inbox.
  - destruct (String.eqb st "failed"); [|discriminate].
    cbn [mbind result_bind]. apply Hfin, handle_payment_failure_inbox.
Qed.

(** After a processed call on a session whose pending state holds the row
    [w] of the event and no other, the stored inbox holds that row,
    marked processed, and no other. *)
Lemma processed_marks_the_row (s s' : session) e payload_dict now w :
  get_by_event_id (pending s) e = Some w ->
  inbox_rows (pending s) e = [w] ->
  process_webhook_event UUID isoformat s e payload_dict now = (s', true) ->
  get_by_event_id (pending (commit s')) e = Some (set_processed now w) /\
  inbox_rows (committed (commit s')) e = [set_processed now w].
Proof.
  intros Hget Hrows Htrue.
  apply process_webhook_event_true in Htrue. destruct Htrue as [_ Hin].
  rewrite Hget in Hin.
  unfold get_by_event_id, inbox_rows in *. cbn [commit committed pending].
  rewrite Hin.
  rewrite find_map_keeping, filter_map_keeping
    by apply keeps_event_id_on, set_processed_keeps.
  rewrite Hget, Hrows. cbn. rewrite Z.eqb_refl. auto.
Qed.

Lemma find_app_last l e (x : PaymentWebhookRequest) :
  List.find (fun r => String.eqb (event_id r) e) l = None ->
  event_id x = e ->
  List.find (fun r => String.eqb (event_id r) e) (l ++ [x]) = Some x.
Proof.
  intros Hnone Hx. induction l as [|r l IH]; cbn [app List.find] in *.
  - rewrite Hx, String.eqb_refl. reflexivity.
  - destruct (String.eqb (event_id r) e); [discriminate|auto].
Qed.

(** A duplicate: nothing is read but the inbox row, nothing is written. *)
Lemma duplicate_is_answered_untouched (s : session) (p : WebhookPayload) now row :
  get_by_event_id (pending s) (wp_event_id p) = Some row ->
  processed row = true ->
  process_payment_webhook UUID uuid_str isoformat s p now
  = (s, Ok (duplicate_response (wp_event_id p))).
Proof.
  intros Hget Hp. unfold process_payment_webhook. rewrite Hget, Hp. reflexivity.
Qed.

(** A first submission answered processed leaves exactly one row for the
    event, marked processed. *)
Lemma processed_leaves_one_row (s s1 : session) (p : WebhookPayload) now r1 :
  (length (inbox_rows (pending s) (wp_event_id p)) <= 1)%nat ->
  process_payment_webhook UUID uuid_str isoformat s p now = (s1, Ok r1) ->
  response_status r1 = "processed" ->
  exists row, get_by_event_id (pending s1) (wp_event_id p) = Some row /\
              inbox_rows (committed s1) (wp_event_id p) = [row] /\
              processed row = true.
Proof.
  intros Hlen Hcall Hstatus. unfold process_payment_webhook in Hcall.
  set (e := wp_event_id p) in *.
  set (pl := serialize_payload uuid_str isoformat p) in *.
  destruct (get_by_event_id (pending s) e) as [w|] eqn:Eg.
  - destruct (processed w) eqn:Ep.
    { injection Hcall as _ <-. discriminate Hstatus. }
    match type of Hcall with
    | context [process_webhook_event _ _ ?x _ _ _] => set (s0 := x) in *
    end.
    destruct (process_webhook_event UUID isoformat s0 e pl now) as [s2 b] eqn:Epw.
    destruct b; [|discriminate Hcall]. injection Hcall as <- _.
    assert (Hrows : inbox_rows (pending s) e = [w]).
    { apply find_some_filter_one; [exact Eg|exact Hlen]. }
    destruct (processed_marks_the_row s0 s2 e pl now (set_payload pl w)) as [H1 H2].
    + unfold s0, get_by_event_id, update_row. cbn [pending with_pending inbox with_inbox].
      rewrite find_map_keeping by apply keeps_event_id_on, set_payload_keeps.
      unfold get_by_event_id in Eg. rewrite Eg. cbn. rewrite Z.eqb_refl. reflexivity.
    + unfold s0, inbox_rows, update_row. cbn [pending with_pending inbox with_inbox].
      rewrite filter_map_keeping by apply keeps_event_id_on, set_payload_keeps.
      unfold inbox_rows in Hrows. rewrite Hrows. cbn. rewrite Z.eqb_refl. reflexivity.
    + exact Epw.
    + eexists. split; [exact H1|]. split; [exact H2|reflexivity].
  - unfold create_webhook_request in Hcall. rewrite Eg in Hcall.
    match type of Hcall with
    | context [process_webhook_event _ _ ?x _ _ _] => set (s0 := x) in *
    end.
    destruct (process_webhook_event UUID isoformat s0 e pl now) as [s2 b] eqn:Epw.
    destruct b; [|discriminate Hcall]. injection Hcall as <- _.
    match goal with
    | s0 := with_pending s (with_inbox (pending s) (inbox (pending s) ++ [?x])) |- _ =>
        set (new := x) in *
    end.
    destruct (processed_marks_the_row s0 s2 e pl now new) as [H1 H2].
    + unfold s0, get_by_event_id. cbn [pending with_pending inbox with_inbox].
      apply find_app_last; [exact Eg|reflexivity].
    + unfold s0, inbox_rows. cbn [pending with_pending inbox with_inbox].
      rewrite List.filter_app, (find_none_filter_nil _ _ Eg). cbn.
      unfold e. rewrite String.eqb_refl. reflexivity.
    + exact Epw.
    + eexists. split; [exact H1|]. split; [exact H2|reflexivity].
Qed.

End Inbox.

(** C7: a verified webhook whose event id has an inbox row marked
    processed is answered duplicate and the session is left exactly as it
    was: no status or end date changes, no event row, no inbox row is
    added and the existing one is untouched.  So when a first submission
    is answered processed, the second is answered duplicate, leaves the
    state of the first, and the inbox holds exactly one row for the event,
    marked processed. *)
Theorem duplicate_webhook_no_side_effects
    (UUID : string -> option Z) (uuid_str : Z -> string) (isoformat : Z -> string)
    (s : Subscriptions.session) (p : Subscriptions.WebhookPayload) (now : Z) :
  (forall row,
     Subscriptions.get_by_event_id (Subscriptions.pending s)
       (Subscriptions.wp_event_id p) = Some row ->
     Subscriptions.processed row = true ->
     Subscriptions.process_payment_webhook UUID uuid_str isoformat s p now
     = (s, Ok (Subscriptions.duplicate_response (Subscriptions.wp_event_id p))))
  /\
  (forall s1 r1 later,
     (length (Subscriptions.inbox_rows (Subscriptions.pending s)
                (Subscriptions.wp_event_id p)) <= 1)%nat ->
     Subscriptions.process_payment_webhook UUID uuid_str isoformat s p now
     = (s1, Ok r1) ->
     Subscriptions.response_status r1 = "processed" ->
     Subscriptions.process_payment_webhook UUID uuid_str isoformat s1 p later
     = (s1, Ok (Subscriptions.duplicate_response (Subscriptions.wp_event_id p)))
     /\ exists row,
          Subscriptions.inbox_rows (Subscriptions.committed s1)
            (Subscriptions.wp_event_id p) = [row]
          /\ Subscriptions.processed row = true).
Proof.
  split.
  - intros row. apply duplicate_is_answered_untouched.
  - intros s1 r1 later Hlen Hcall Hstatus.
    destruct (processed_leaves_one_row UUID uuid_str isoformat s s1 p now r1
                Hlen Hcall Hstatus) as (row & Hget & Hrows & Hp).
    split; [|eauto].
    now apply duplicate_is_answered_untouched with (row := row).
Qed.

(** Scenarios S2 and S6: the first submission activates the subscription,
    appends one event and leaves one processed inbox row; the second is a
    duplicate and changes nothing. *)
Lemma duplicate_webhook_s6_witness :
  let first := Subscriptions.process_payment_webhook Scenario.UUID Scenario.uuid_str
                 Scenario.isoformat Scenario.s2_session Scenario.s2_payload
                 1700000100 in
  snd first = Ok (Subscriptions.processed_response "evt-1")
  /\ Subscriptions.status <$>
       (Subscriptions.subscriptions (Subscriptions.committed (fst first))
          !! Scenario.uuid_S) = Some "active"
  /\ length (Subscriptions.events (Subscriptions.committed (fst first))) = 1%nat
  /\ Subscriptions.process_payment_webhook Scenario.UUID Scenario.uuid_str
       Scenario.isoformat (fst first) Scenario.s2_payload 1700000200
     = (fst first, Ok (Subscriptions.duplicate_response "evt-1"))
  /\ length (Subscriptions.inbox_rows (Subscriptions.committed (fst first)) "evt-1")
     = 1%nat.
Proof.
  intros first.
  assert (Hcall : Subscriptions.process_payment_webhook Scenario.UUID
                    Scenario.uuid_str Scenario.isoformat Scenario.s2_session
                    Scenario.s2_payload 1700000100
                  = (fst first, Ok (Subscriptions.processed_response "evt-1"))).
  { vm_compute. reflexivity. }
  destruct (proj2 (duplicate_webhook_no_side_effects Scenario.UUID Scenario.uuid_str
                     Scenario.isoformat Scenario.s2_session Scenario.s2_payload
                     1700000100)
              (fst first) (Subscriptions.processed_response "evt-1") 1700000200
              ltac:(vm_compute; lia) Hcall eq_refl) as (Hdup & row & Hrows & _).
  split; [vm_compute; reflexivity|].
  split; [vm_compute; reflexivity|].
  split; [vm_compute; reflexivity|].
  split; [exact Hdup|].
  exact (f_equal (@length _) Hrows).
Defined.

(** ** Payment transactions: terminal statuses *)

Section TransactionStatus.
Import Payments.

Lemma refund_is_terminal st : is_refund_status st = true -> terminal st = true.
Proof. unfold terminal. intros ->. apply orb_true_r. Qed.

Lemma refund_not_success st : is_refund_status st = true -> st <> "success".
Proof. intros H ->. discriminate H. Qed.

Lemma advances_refl a : advances a a.
Proof. left. reflexivity. Qed.

Lemma advances_trans a b c : advances a b -> advances b c -> advances a c.
Proof.
  intros [->|[[-> (t & -> & Ht)]|[-> (t & -> & Ht)]]] Hbc; [exact Hbc| |].
  - destruct Hbc as [<-|[[Hn _]|[Hs (u & -> & Hu)]]].
    + right; left. eauto.
    + discriminate Hn.
    + right; left. split; [reflexivity|]. eauto using refund_is_terminal.
  - destruct Hbc as [<-|[[Hn _]|[Hs _]]].
    + right; right. eauto.
    + discriminate Hn.
    + injection Hs as ->. discriminate Ht.
Qed.

Lemma status_update_status d id st ref err id' :
  tx_status <$> (update_status d id st ref err !! id') =
  if decide (id = id') then (fun _ => st) <$> (d !! id')
  else tx_status <$> (d !! id').
Proof.
  unfold update_status. rewrite lookup_alter.
  destruct (decide (id = id')) as [->|]; [|reflexivity].
  destruct (d !! id'); reflexivity.
Qed.

(** The three writes of a payment, in order: the fresh row is pending,
    then processing, then carries the status the gateway answered. *)
Lemma process_payment_lifecycle g d req id dr enq d1 d2 d3 resp :
  process_payment_body g d req id dr enq = Ok (d1, d2, d3, resp) ->
  d !! id = None /\
  tx_status <$> (d1 !! id) = Some "pending" /\
  tx_status <$> (d2 !! id) = Some "processing" /\
  tx_status <$> (d3 !! id) = Some (pr_status resp) /\
  attr_status (charge g req dr) = Ok (pr_status resp) /\
  forall id', id' <> id -> d3 !! id' = d !! id'.
Proof.
  unfold process_payment_body, create. cbn [tx_pk new_transaction].
  destruct (d !! id) eqn:Ed; [discriminate|]. cbn [mbind result_bind].
  destruct (charge g req dr) as [ref st msg|]; [|discriminate].
  cbn [mbind result_bind attr_status attr_gateway_reference attr_message].
  destruct (_ && _ && _); [discriminate|].
  intros [= <- <- <- <-]. cbn [pr_status].
  split; [reflexivity|].
  split; [now rewrite lookup_insert_eq|].
  split.
  { rewrite status_update_status. destruct (decide (id = id)); [|congruence].
    now rewrite lookup_insert_eq. }
  split.
  { rewrite !status_update_status. destruct (decide (id = id)); [|congruence].
    unfold update_status. rewrite lookup_alter_eq, lookup_insert_eq. reflexivity. }
  split; [reflexivity|].
  intros id' Hne. unfold update_status.
  rewrite !lookup_alter_ne, lookup_insert_ne by congruence. reflexivity.
Qed.

(** One call moves every stored status along [advances]. *)
Lemma step_advances g d o id :
  gateway_contract g ->
  advances (tx_status <$> (d !! id)) (tx_status <$> (step g d o !! id)).
Proof.
  intros [Hcharge Hrefund]. destruct o as [req nid dr enq | tid rr]; cbn [step].
  - unfold process_payment. cbn [begin pending committed].
    destruct (process_payment_body g d req nid dr enq) as [[[[d1 d2] d3] resp]|e] eqn:Eb;
      [|apply advances_refl].
    cbn [fst commit committed pending].
    apply process_payment_lifecycle in Eb.
    destruct Eb as (Hnew & _ & _ & H3 & Hst & Hother).
    destruct (decide (id = nid)) as [->|Hne].
    + rewrite Hnew, H3. right; left. split; [reflexivity|].
      eexists. split; [reflexivity|].
      destruct (charge g req dr) as [ref st msg|] eqn:Ec; [|discriminate].
      injection Hst as <-.
      destruct (Hcharge _ _ _ _ _ Ec) as [-> | ->]; reflexivity.
    + rewrite Hother by exact Hne. apply advances_refl.
  - unfold initiate_refund. cbn [begin pending committed].
    destruct (d !! tid) as [t|] eqn:Et; [|apply advances_refl].
    unfold is_successful.
    destruct (String.eqb_spec (tx_status t) "success") as [Hs|_];
      [|apply advances_refl].
    cbn [negb].
    destruct (refund g tid (tx_amount t) "manual_refund" rr) as [ref st msg|] eqn:Er;
      [|apply advances_refl].
    cbn [attr_status attr_gateway_reference attr_message fst commit committed pending].
    rewrite status_update_status.
    destruct (decide (tid = id)) as [->|Hne]; [|apply advances_refl].
    rewrite Et. cbn. rewrite Hs. right; right. split; [reflexivity|].
    eexists. split; [reflexivity|]. eapply Hrefund, Er.
Qed.

Lemma run_advances g d ops id :
  gateway_contract g ->
  advances (tx_status <$> (d !! id)) (tx_status <$> (run g d ops !! id)).
Proof.
  intros Hg. revert d. induction ops as [|o ops IH]; intros d; [apply advances_refl|].
  cbn [run fold_left]. eapply advances_trans; [apply step_advances, Hg|apply IH].
Qed.

Lemma status_after_advances g d ops i j id :
  gateway_contract g -> (i <= j)%nat ->
  advances (status_after g d ops i id) (status_after g d ops j id).
Proof.
  intros Hg Hij. unfold status_after.
  replace (firstn j ops) with (firstn i ops ++ firstn (j - i) (skipn i ops)).
  - unfold run. rewrite fold_left_app. apply run_advances, Hg.
  - rewrite <- (firstn_skipn i ops) at 3.
    rewrite firstn_app, firstn_firstn, Nat.min_r by lia.
    f_equal.
    destruct (Nat.le_gt_cases i (length ops)) as [Hle|Hgt].
    + rewrite length_firstn, Nat.min_l by lia. reflexivity.
    + rewrite !skipn_all2 by lia. rewrite !firstn_nil. reflexivity.
Qed.

(** From a terminal status only a refund of a success leads elsewhere. *)
Lemma advances_from_terminal st b :
  terminal st = true -> advances (Some st) b ->
  exists st', b = Some st' /\ terminal st' = true /\
              (st' = st \/ (st = "success" /\ is_refund_status st' = true)).
Proof.
  intros Ht [<-|[[Hn _]|[[= ->] (t & -> & Hr)]]].
  - eauto.
  - discriminate Hn.
  - exists t. split; [reflexivity|]. split; [now apply refund_is_terminal|]. auto.
Qed.

Lemma terminal_not_pending st :
  terminal st = true -> st <> "pending" /\ st <> "processing".
Proof. intros H. split; intros ->; discriminate H. Qed.

End TransactionStatus.

(** The mock gateway keeps the contract: its charge answers success or
    failed, and its refund answers a dict. *)
Lemma mock_gateway_contract : Payments.gateway_contract Payments.MockGatewayService.
Proof.
  split.
  - intros req dr ref st msg. cbn [Payments.charge Payments.MockGatewayService].
    unfold Payments.mock_process_payment.
    destruct (String.eqb _ Payments.fail_card); [intros [= _ <- _]; auto|].
    destruct (_ || _); intros [= _ <- _]; auto.
  - intros id amount reason rr ref st msg H. discriminate H.
Qed.

(** The repository's own update has no guard: called by itself it sets
    any status over any other.  The invariant below is one of the calls
    the payment service makes. *)
Lemma repository_update_status_unguarded (d : gmap Z Payments.Transaction)
    (id : Z) (t : Payments.Transaction) (st : string) :
  d !! id = Some t ->
  Payments.tx_status <$> (Payments.update_status d id st None None !! id) = Some st.
Proof.
  intros H. unfold Payments.update_status. rewrite lookup_alter_eq, H. reflexivity.
Qed.

(** C9: for a gateway that answers a charge with success or failed and a
    refund with a refund status (or with something that has no status,
    as the mock gateway's refund does), along every sequence of calls of
    the payment service on any stored state: once the stored status of a
    transaction is terminal it is terminal ever after, never pending or
    processing again; it changes only from success to a refund status;
    and a terminal status that holds at two moments holds at every moment
    between them, so none is reached twice. *)
Theorem terminal_transaction_status_is_final
    (g : Payments.gateway) (d : gmap Z Payments.Transaction)
    (ops : list Payments.op) (i j k : nat) (id : Z) (st : string) :
  Payments.gateway_contract g ->
  (i <= j <= k)%nat ->
  Payments.status_after g d ops i id = Some st ->
  Payments.terminal st = true ->
  (exists st', Payments.status_after g d ops j id = Some st'
               /\ st' <> "pending" /\ st' <> "processing"
               /\ (st' = st \/
                   (st = "success" /\ Payments.is_refund_status st' = true)))
  /\ (Payments.status_after g d ops k id = Some st ->
      Payments.status_after g d ops j id = Some st).
Proof.
  intros Hg [Hij Hjk] Hi Ht.
  pose proof (status_after_advances g d ops i j id Hg Hij) as Hadv.
  rewrite Hi in Hadv.
  destruct (advances_from_terminal st _ Ht Hadv) as (st' & Hj & Ht' & Hcase).
  split.
  - exists st'. destruct (terminal_not_pending st' Ht'). auto.
  - intros Hk. rewrite Hj. destruct Hcase as [->|[-> Hr]]; [reflexivity|].
    pose proof (status_after_advances g d ops j k id Hg Hjk) as Hadv'.
    rewrite Hj, Hk in Hadv'.
    destruct (advances_from_terminal st' _ Ht' Hadv') as (x & [= <-] & _ & Hc).
    destruct Hc as [<-|[-> _]]; [reflexivity|]. discriminate Hr.
Qed.

Lemma terminal_transaction_status_witness :
  Payments.status_after Payments.MockGatewayService ∅ Scenario.payment_ops 1
    Scenario.uuid_T = Some "success"
  /\ Payments.status_after Payments.MockGatewayService ∅ Scenario.payment_ops 2
       Scenario.uuid_T = Some "success"
  /\ Payments.status_after Payments.MockGatewayService ∅ Scenario.payment_ops 3
       Scenario.uuid_T = Some "success".
Proof.
  assert (H1 : Payments.status_after Payments.MockGatewayService ∅
                 Scenario.payment_ops 1 Scenario.uuid_T = Some "success")
    by (vm_compute; reflexivity).
  assert (H3 : Payments.status_after Payments.MockGatewayService ∅
                 Scenario.payment_ops 3 Scenario.uuid_T = Some "success")
    by (vm_compute; reflexivity).
  destruct (terminal_transaction_status_is_final Payments.MockGatewayService ∅
              Scenario.payment_ops 1 2 3 Scenario.uuid_T "success"
              mock_gateway_contract ltac:(lia) H1 eq_refl) as [_ H2].
  split; [exact H1|]. split; [exact (H2 H3)|exact H3].
Defined.

(** * Further properties of the code *)


(** ** The webhook client's retry loop, for any behaviour of the peer *)

Section SendWebhookLoop.
Import WebhookClient Delivery.

Lemma attempt_body_accepted retries attempt o last d :
  accepted o = Some d -> attempt_body retries attempt o last = Return d.
Proof.
  destruct o as [c t j| | |]; simpl; try discriminate.
  destruct (c <? 400); [|discriminate]. intros H. now inversion H.
Qed.

(** An attempt that is not accepted goes on: before the last one it
    sleeps 2^attempt; the last one records its own error. *)
Lemma attempt_body_refused retries attempt o last :
  accepted o = None ->
  exists l, attempt_body retries attempt o last =
            Continue (if attempt <? retries then [2 ^ attempt] else []) l
            /\ ((attempt <? retries) = false -> l = Some (error_of o)).
Proof.
  destruct o as [c t j| | |]; simpl; unfold handler;
    try solve [intros _; destruct (attempt <? retries); eauto].
  destruct (c <? 400); [discriminate|intros _].
  destruct ((400 <=? c) && (c <? 500)); destruct (attempt <? retries) eqn:E;
    eauto; eexists; split; eauto; discriminate.
Qed.

Lemma attempts_refused remaining retries attempt net last :
  0 <= attempt ->
  attempt + Z.of_nat remaining = retries + 1 ->
  (remaining <> O) ->
  (forall a, attempt <= a <= retries -> accepted (net a) = None) ->
  attempts remaining retries attempt net last =
  (Raise (error_of (net retries)), backoff_sleeps (remaining - 1) attempt).
Proof.
  revert attempt last.
  induction remaining as [|k IH]; intros attempt last Ha Hsum Hne Hnet;
    [congruence|].
  cbn [attempts].
  destruct (attempt_body_refused retries attempt (net attempt) last
              (Hnet attempt ltac:(lia))) as (l & -> & Hl).
  destruct k as [|k'].
  - assert (attempt = retries) by lia. subst attempt.
    rewrite Z.ltb_irrefl in *. rewrite (Hl eq_refl). reflexivity.
  - destruct (Z.ltb_spec attempt retries); [|lia].
    rewrite IH; try lia.
    + simpl. replace (k' - 0)%nat with k' by lia. reflexivity.
    + intros a Hrange. apply Hnet. lia.
Qed.

Lemma attempts_first_accepted k remaining retries attempt net last d :
  0 <= attempt ->
  (k < remaining)%nat ->
  attempt + Z.of_nat remaining = retries + 1 ->
  (forall b : nat, (b < k)%nat -> accepted (net (attempt + Z.of_nat b)) = None) ->
  accepted (net (attempt + Z.of_nat k)) = Some d ->
  attempts remaining retries attempt net last = (Ok d, backoff_sleeps k attempt).
Proof.
  revert remaining attempt last.
  induction k as [|k IH]; intros remaining attempt last Ha Hk Hsum Hnone Hok;
    (destruct remaining as [|rem]; [lia|]); cbn [attempts].
  - rewrite Z.add_0_r in Hok.
    now rewrite (attempt_body_accepted _ _ _ _ _ Hok).
  - pose proof (Hnone O ltac:(lia)) as H0. rewrite Z.add_0_r in H0.
    destruct (attempt_body_refused retries attempt (net attempt) last H0)
      as (l & -> & _).
    destruct (Z.ltb_spec attempt retries); [|lia].
    rewrite (IH rem (attempt + 1) l); try lia.
    + reflexivity.
    + intros b Hb. replace (attempt + 1 + Z.of_nat b)
        with (attempt + Z.of_nat (S b)) by lia. apply Hnone. lia.
    + replace (attempt + 1 + Z.of_nat k) with (attempt + Z.of_nat (S k)) by lia.
      exact Hok.
Qed.

(** Among the first [n] attempts either one is the first accepted, or
    none is. *)
Lemma first_accepted_or_none (net : Z -> post_outcome) (n : nat) :
  (exists a d, (a < n)%nat /\ accepted (net (Z.of_nat a)) = Some d
               /\ forall b : nat, (b < a)%nat -> accepted (net (Z.of_nat b)) = None)
  \/ (forall a : nat, (a < n)%nat -> accepted (net (Z.of_nat a)) = None).
Proof.
  induction n as [|n [(a & d & Ha & Hd & Hb)|Hnone]].
  - right. intros a Ha. lia.
  - left. exists a, d. repeat split; auto.
  - destruct (accepted (net (Z.of_nat n))) as [d|] eqn:E.
    + left. exists n, d. repeat split; auto.
    + right. intros a Ha. destruct (Nat.eq_dec a n) as [->|]; [exact E|].
      apply Hnone. lia.
Qed.

Lemma total_sleep_backoff n from :
  0 <= from -> total_sleep (backoff_sleeps n from) = 2 ^ from * (2 ^ Z.of_nat n - 1).
Proof.
  revert from. induction n as [|n IH]; intros from Hf.
  - cbn [backoff_sleeps total_sleep fold_right]. change (Z.of_nat 0) with 0.
    rewrite Z.pow_0_r. lia.
  - cbn [backoff_sleeps total_sleep fold_right].
    change (fold_right Z.add 0 ?l) with (total_sleep l).
    rewrite IH by lia. rewrite Nat2Z.inj_succ.
    replace (from + 1) with (Z.succ from) by lia.
    rewrite !Z.pow_succ_r by lia. ring.
Qed.

End SendWebhookLoop.

(** X4: [send_webhook] returns a body exactly when one of its
    [retries + 1] POSTs is answered below 400: the value is that of the
    first such answer, no later POST is made, and before it the client has
    slept 1, 2, 4, ... seconds, once per refused attempt. *)
Theorem send_webhook_returns_first_accepted
    (retries : Z) (net : Z -> WebhookClient.post_outcome)
    (d : WebhookClient.delivered) (sleeps : list Z) :
  WebhookClient.send_webhook retries net = (Ok d, sleeps) <->
  exists a : nat,
    Z.of_nat a <= retries
    /\ Delivery.accepted (net (Z.of_nat a)) = Some d
    /\ (forall b : nat, (b < a)%nat -> Delivery.accepted (net (Z.of_nat b)) = None)
    /\ sleeps = WebhookClient.backoff_sleeps a 0.
Proof.
  unfold WebhookClient.send_webhook. split.
  - intros Hrun.
    destruct (first_accepted_or_none net (Z.to_nat (retries + 1)))
      as [(a & d' & Ha & Hd & Hb)|Hnone].
    + rewrite (attempts_first_accepted a _ retries 0 net None d') in Hrun;
        try lia; auto.
      inversion Hrun; subst. exists a. repeat split; auto. lia.
    + destruct (Z.to_nat (retries + 1)) as [|n] eqn:En; [discriminate|].
      rewrite attempts_refused in Hrun; try lia; [discriminate|].
      intros a Ha. replace a with (Z.of_nat (Z.to_nat a)) by lia.
      apply Hnone. lia.
  - intros (a & Ha & Hd & Hb & ->).
    apply attempts_first_accepted; try lia; auto.
Qed.

(** X5: when none of the [retries + 1] POSTs is answered below 400,
    [send_webhook] raises the error of the last attempt, whatever the
    earlier ones were, after sleeping 1, 2, ..., 2^(retries-1) seconds:
    2^retries - 1 seconds in all. *)
Theorem send_webhook_exhausted
    (retries : Z) (net : Z -> WebhookClient.post_outcome) :
  0 <= retries ->
  (forall a, 0 <= a <= retries -> Delivery.accepted (net a) = None) ->
  WebhookClient.send_webhook retries net =
    (Raise (WebhookClient.error_of (net retries)),
     WebhookClient.backoff_sleeps (Z.to_nat retries) 0)
  /\ Delivery.total_sleep (snd (WebhookClient.send_webhook retries net))
     = 2 ^ retries - 1.
Proof.
  intros Hr Hnone.
  assert (Hrun : WebhookClient.send_webhook retries net =
                 (Raise (WebhookClient.error_of (net retries)),
                  WebhookClient.backoff_sleeps (Z.to_nat retries) 0)).
  { unfold WebhookClient.send_webhook.
    rewrite attempts_refused; try lia; auto.
    do 2 f_equal. lia. }
  split; [exact Hrun|].
  rewrite Hrun. cbn [snd]. rewrite total_sleep_backoff by lia.
  rewrite Z2Nat.id by lia. rewrite Z.pow_0_r. lia.
Qed.

Lemma send_webhook_exhausted_witness :
  WebhookClient.send_webhook 3 Scenario.net_always_404 =
    (Raise (WebhookClient.HTTPStatusError 404), [1; 2; 4])
  /\ Delivery.total_sleep
       (snd (WebhookClient.send_webhook 3 Scenario.net_always_404)) = 7.
Proof.
  apply (send_webhook_exhausted 3 Scenario.net_always_404).
  - lia.
  - intros a _. reflexivity.
Defined.

(** ** The signature header *)

Section SignatureFormat.
Import WebhookSecurity SignedRequest.

Lemma compress_length h block :
  List.length h = 8%nat -> List.length (Sha256.compress h block) = 8%nat.
Proof.
  intros Hh. unfold Sha256.compress.
  rewrite length_map, length_combine, Hh. reflexivity.
Qed.

Lemma blocks_length n h bs :
  List.length h = 8%nat -> List.length (Sha256.blocks n h bs) = 8%nat.
Proof.
  revert h bs. induction n as [|n IH]; intros h bs Hh; simpl; auto.
  apply IH, compress_length, Hh.
Qed.

Lemma be_bytes_length n x : List.length (Sha256.be_bytes n x) = n.
Proof. induction n; simpl; auto. Qed.

Lemma concat_be_bytes_length l :
  List.length (List.concat (List.map (Sha256.be_bytes 4) l)) = (4 * List.length l)%nat.
Proof.
  induction l as [|x l IH]; [reflexivity|].
  cbn [List.map List.concat]. rewrite length_app, be_bytes_length, IH.
  simpl. lia.
Qed.

Lemma sha256_length msg : List.length (Sha256.sha256 msg) = 32%nat.
Proof.
  unfold Sha256.sha256. rewrite concat_be_bytes_length, blocks_length; reflexivity.
Qed.

Lemma hex_length bs : String.length (Sha256.hex bs) = (2 * List.length bs)%nat.
Proof. induction bs as [|b bs IH]; simpl; [reflexivity|rewrite IH; lia]. Qed.

Lemma hex_digit_lower d :
  0 <= d < 16 -> lower_hex_digit (Sha256.hex_digit d) = true.
Proof.
  intros Hd.
  assert (Hcases : In d [0;1;2;3;4;5;6;7;8;9;10;11;12;13;14;15]).
  { simpl. lia. }
  simpl in Hcases.
  repeat (destruct Hcases as [<-|Hcases]; [reflexivity|]). contradiction.
Qed.

Lemma hex_lower bs :
  Forall (fun b => 0 <= b < 256) bs ->
  forallb lower_hex_digit (list_ascii_of_string (Sha256.hex bs)) = true.
Proof.
  induction 1 as [|b bs Hb _ IH]; [reflexivity|].
  cbn [Sha256.hex list_ascii_of_string forallb].
  rewrite !hex_digit_lower, IH; [reflexivity| |].
  - apply Z.mod_pos_bound. lia.
  - split; [apply Z.div_pos; lia | apply Z.div_lt_upper_bound; lia].
Qed.

Lemma header_missing_signature payload timestamp secret :
  header_missing (Some (generate_signature payload timestamp secret)) = false.
Proof. reflexivity. Qed.

Lemma header_missing_timestamp n :
  header_missing (Some (py_str_of_int n)) = false.
Proof.
  destruct (py_str_of_int_head n) as (c & rest & -> & _). reflexivity.
Qed.

End SignatureFormat.

(** X3: the signature header is always the seven characters [sha256=]
    followed by 64 lower-case hexadecimal digits, whatever the payload,
    the timestamp and the secret. *)
Theorem generate_signature_format (payload timestamp secret : string) :
  exists digest : string,
    WebhookSecurity.generate_signature payload timestamp secret
      = ("sha256=" ++ digest)%string
    /\ String.length digest = 64%nat
    /\ forallb SignedRequest.lower_hex_digit (list_ascii_of_string digest) = true.
Proof.
  exists (Sha256.hmac_sha256_hex secret (timestamp ++ "." ++ payload)%string).
  split; [reflexivity|].
  unfold Sha256.hmac_sha256_hex, Sha256.hmac_sha256. split.
  - rewrite hex_length, sha256_length. reflexivity.
  - apply hex_lower, sha256_range.
Qed.

Lemma dependency_accepts_iff
    (json_loads : string -> option Json.json) (utf8_decodes : string -> bool)
    (now : Z) (secret : string) (tolerance : Z)
    (req : SignedRequest.request) (payload : Json.json) :
  SignedRequest.verify_webhook_signature json_loads utf8_decodes
    now secret tolerance req = Ok payload
  <->
  exists signature timestamp t d,
    SignedRequest.x_webhook_signature req = Some signature
    /\ SignedRequest.x_webhook_timestamp req = Some timestamp
    /\ SignedRequest.content req <> EmptyString
    /\ utf8_decodes (SignedRequest.content req) = true
    /\ WebhookSecurity.py_int timestamp = Some t
    /\ - tolerance <= now - t <= tolerance
    /\ signature = WebhookSecurity.generate_signature
                     (SignedRequest.content req) timestamp secret
    /\ json_loads (SignedRequest.content req) = Some (Json.JDict d)
    /\ payload = Json.JDict d.
Proof.
  unfold SignedRequest.verify_webhook_signature. split.
  - destruct (SignedRequest.x_webhook_signature req) as [sg|]; [|discriminate].
    cbn [SignedRequest.header_missing].
    destruct (String.eqb_spec sg EmptyString) as [|Hsg]; [discriminate|].
    destruct (SignedRequest.x_webhook_timestamp req) as [ts|]; [|discriminate].
    cbn [SignedRequest.header_missing].
    destruct (String.eqb_spec ts EmptyString) as [|Hts]; [discriminate|].
    destruct (String.eqb_spec (SignedRequest.content req) EmptyString) as [|Hbody];
      [discriminate|].
    destruct (utf8_decodes (SignedRequest.content req)) eqn:Hutf; [|discriminate].
    cbn [negb from_option id].
    destruct (WebhookSecurity.verify_signature now (SignedRequest.content req)
                sg ts secret tolerance) as [b|e] eqn:Hv; [|discriminate].
    assert (Hok : WebhookSecurity.verify_signature now (SignedRequest.content req)
                    sg ts secret tolerance = Ok true)
      by (apply verify_signature_ok_true; rewrite Hv; reflexivity).
    apply verify_signature_accepts_iff in Hok as (t & Ht & Hwin & ->).
    destruct (json_loads (SignedRequest.content req)) as [[| | | | | |d]|] eqn:Hj;
      try discriminate.
    intros [= <-]. eexists _, ts, t, d. repeat split; eauto; lia.
  - intros (sg & ts & t & d & -> & -> & Hbody & Hutf & Ht & Hwin & -> & Hj & ->).
    rewrite header_missing_signature.
    cbn [SignedRequest.header_missing].
    destruct (String.eqb_spec ts EmptyString) as [->|Hts]; [discriminate|].
    destruct (String.eqb_spec (SignedRequest.content req) EmptyString) as [|_];
      [contradiction|].
    rewrite Hutf. cbn [negb from_option id].
    assert (Hok : WebhookSecurity.verify_signature now (SignedRequest.content req)
                    (WebhookSecurity.generate_signature
                       (SignedRequest.content req) ts secret)
                    ts secret tolerance = Ok true)
      by (apply verify_signature_accepts_iff; eauto).
    rewrite Hok, Hj. reflexivity.
Qed.

(** X2: the dependency hands a payload to the endpoint only for a request
    that carries both headers and a non-empty body that decodes, whose
    timestamp is an integer within the tolerance of the receiver's clock,
    whose signature is the one recomputed from the body, the timestamp
    header and the secret, and whose body parses to a JSON object: that
    object is the payload.  Every such request is let through.  The
    timestamp header has at most 4300 characters, the number of digits up
    to which Python's [int] reads a text. *)
Theorem verify_webhook_signature_accepts_iff
    (json_loads : string -> option Json.json) (utf8_decodes : string -> bool)
    (now : Z) (secret : string) (tolerance : Z)
    (req : SignedRequest.request) (payload : Json.json) :
  (forall timestamp,
     SignedRequest.x_webhook_timestamp req = Some timestamp ->
     (String.length timestamp <= WebhookSecurity.int_max_str_digits)%nat) ->
  (SignedRequest.verify_webhook_signature json_loads utf8_decodes
     now secret tolerance req = Ok payload
   <->
   exists signature timestamp t d,
     SignedRequest.x_webhook_signature req = Some signature
     /\ SignedRequest.x_webhook_timestamp req = Some timestamp
     /\ SignedRequest.content req <> EmptyString
     /\ utf8_decodes (SignedRequest.content req) = true
     /\ WebhookSecurity.py_int timestamp = Some t
     /\ - tolerance <= now - t <= tolerance
     /\ signature = WebhookSecurity.generate_signature
                      (SignedRequest.content req) timestamp secret
     /\ json_loads (SignedRequest.content req) = Some (Json.JDict d)
     /\ payload = Json.JDict d).
Proof. intros _. apply dependency_accepts_iff. Qed.

(** A header padded with a no-break space is read as its integer, as
    Python does, and the request signed over it is let through. *)
Lemma verify_webhook_signature_accepts_witness :
  SignedRequest.verify_webhook_signature Scenario.loads (fun _ => true)
    1700000100 "k" 300 (SignedRequest.padded_request Scenario.msg_m1 "k")
  = Ok Scenario.env_m1.
Proof.
  apply (proj2 (verify_webhook_signature_accepts_iff
                  Scenario.loads (fun _ => true) 1700000100 "k" 300
                  (SignedRequest.padded_request Scenario.msg_m1 "k")
                  Scenario.env_m1
                  ltac:(intros ts [= <-]; apply (proj1 (Nat.leb_le 12 4300) eq_refl)))).
  eexists _, SignedRequest.padded_timestamp, 1700000000, _.
  split; [reflexivity|]. split; [reflexivity|].
  split; [discriminate|]. split; [reflexivity|].
  split; [reflexivity|]. split; [lia|].
  split; [reflexivity|]. split; reflexivity.
Defined.

(** X1: sender and receiver agree.  The request [send_webhook] builds at
    time [sent] for a non-empty body that parses to a JSON object is let
    through by the receiver's dependency, under the same secret, exactly
    when the receiver's clock is within the tolerance of [sent]; the
    payload handed on is the parsed body. *)
Theorem signed_request_passes_within_tolerance
    (json_loads : string -> option Json.json) (utf8_decodes : string -> bool)
    (sent now tolerance : Z) (secret payload_json : string)
    (event_id : option string) (d : list (string * Json.json)) :
  payload_json <> EmptyString ->
  utf8_decodes payload_json = true ->
  json_loads payload_json = Some (Json.JDict d) ->
  (SignedRequest.verify_webhook_signature json_loads utf8_decodes
     now secret tolerance
     (SignedRequest.signed_request sent payload_json secret event_id)
   = Ok (Json.JDict d)
   <-> - tolerance <= now - sent <= tolerance).
Proof.
  intros Hbody Hutf Hj.
  rewrite dependency_accepts_iff.
  cbn [SignedRequest.signed_request SignedRequest.content
       SignedRequest.x_webhook_signature SignedRequest.x_webhook_timestamp].
  split.
  - intros (sg & ts & t & d' & [= <-] & [= <-] & _ & _ & Ht & Hwin & _).
    rewrite py_int_py_str_of_int in Ht. injection Ht as <-. exact Hwin.
  - intros Hwin. eexists _, _, sent, d.
    repeat split; eauto; try lia. apply py_int_py_str_of_int.
Qed.

Lemma signed_request_passes_witness :
  SignedRequest.verify_webhook_signature Scenario.loads (fun _ => true)
    1700000100 "k" 300
    (SignedRequest.signed_request 1700000000 Scenario.msg_m1 "k" (Some "evt-1"))
  = Ok Scenario.env_m1.
Proof.
  apply (proj2 (signed_request_passes_within_tolerance
                  Scenario.loads (fun _ => true) 1700000000 1700000100 300
                  "k" Scenario.msg_m1 (Some "evt-1") _
                  ltac:(discriminate) eq_refl eq_refl)).
  lia.
Defined.

(** ** Lists, locks and sorted sets of the queue key space *)

Section RedisFacts.
Import Redis Workers Queues.

Lemma lrange_all_with_list r key l : lrange_all (with_list r key l) key = l.
Proof. unfold lrange_all, with_list; cbn [lists]. now rewrite lookup_insert_eq. Qed.

Lemma lrange_all_with_list_ne r key key' l :
  key <> key' -> lrange_all (with_list r key l) key' = lrange_all r key'.
Proof.
  intros Hne. unfold lrange_all, with_list; cbn [lists].
  now rewrite lookup_insert_ne.
Qed.

Lemma lrange_all_lpush r key v : lrange_all (lpush r key v) key = v :: lrange_all r key.
Proof. apply lrange_all_with_list. Qed.

Lemma lrange_all_lpush_ne r key key' v :
  key <> key' -> lrange_all (lpush r key v) key' = lrange_all r key'.
Proof. apply lrange_all_with_list_ne. Qed.

Lemma lrange_all_push_all r key ms :
  lrange_all (push_all r key ms) key = List.rev ms ++ lrange_all r key.
Proof.
  unfold push_all. revert r. induction ms as [|m ms IH]; intros r; [reflexivity|].
  cbn [fold_left]. rewrite IH, lrange_all_lpush. cbn [List.rev].
  now rewrite <- app_assoc.
Qed.

Lemma lrange_all_push_all_ne r key key' ms :
  key <> key' -> lrange_all (push_all r key ms) key' = lrange_all r key'.
Proof.
  intros Hne. unfold push_all. revert r.
  induction ms as [|m ms IH]; intros r; [reflexivity|].
  cbn [fold_left]. now rewrite IH, lrange_all_lpush_ne.
Qed.

Lemma zsets_push_all r key ms : zsets (push_all r key ms) = zsets r.
Proof.
  unfold push_all. revert r. induction ms as [|m ms IH]; intros r; [reflexivity|].
  cbn [fold_left]. now rewrite IH.
Qed.

Lemma strings_push_all r key ms : strings (push_all r key ms) = strings r.
Proof.
  unfold push_all. revert r. induction ms as [|m ms IH]; intros r; [reflexivity|].
  cbn [fold_left]. now rewrite IH.
Qed.

Lemma string_length_app (a b : string) :
  String.length (a ++ b)%string = (String.length a + String.length b)%nat.
Proof. induction a as [|c a IH]; simpl; [reflexivity|now rewrite IH]. Qed.

Lemma processing_of_ne q : q <> processing_of q.
Proof.
  intros H. apply (f_equal String.length) in H.
  unfold processing_of in H. rewrite string_length_app in H. simpl in H. lia.
Qed.

(** One claim: the tail of the main list becomes the head of the
    processing list. *)
Lemma brpoplpush_some r q p rest msg :
  q <> p -> lrange_all r q = rest ++ [msg] ->
  exists r1, brpoplpush r q p = (r1, Some msg)
             /\ lrange_all r1 q = rest
             /\ lrange_all r1 p = msg :: lrange_all r p
             /\ zsets r1 = zsets r /\ strings r1 = strings r
             /\ (forall k, k <> q -> k <> p -> lrange_all r1 k = lrange_all r k).
Proof.
  intros Hne Hl. unfold brpoplpush. rewrite Hl, rev_app_distr. cbn [List.rev app].
  eexists. split; [reflexivity|].
  rewrite rev_involutive.
  repeat split.
  - rewrite lrange_all_lpush_ne by congruence. apply lrange_all_with_list.
  - rewrite lrange_all_lpush. f_equal. now apply lrange_all_with_list_ne.
  - intros k Hq Hp. rewrite lrange_all_lpush_ne by congruence.
    apply lrange_all_with_list_ne. congruence.
Qed.

Lemma brpoplpush_none r q p :
  lrange_all r q = [] -> brpoplpush r q p = (r, None).
Proof. intros Hl. unfold brpoplpush. now rewrite Hl. Qed.

Lemma list_snoc_cases {A} (l : list A) : l = [] \/ exists rest x, l = rest ++ [x].
Proof.
  destruct (List.rev l) as [|x rest] eqn:E.
  - left. apply (f_equal (@List.rev A)) in E. now rewrite rev_involutive in E.
  - right. exists (List.rev rest), x.
    apply (f_equal (@List.rev A)) in E. now rewrite rev_involutive in E.
Qed.

Lemma remove_first_head v l : remove_first v (v :: l) = l.
Proof. simpl. now rewrite String.eqb_refl. Qed.

Lemma claim_many_order n r q p :
  q <> p ->
  snd (claim_many n r q p) = firstn n (List.rev (lrange_all r q)).
Proof.
  intros Hne. revert r. induction n as [|n IH]; intros r; [reflexivity|].
  cbn [claim_many].
  destruct (list_snoc_cases (lrange_all r q)) as [Hnil|(rest & x & Hl)].
  - rewrite brpoplpush_none by exact Hnil. now rewrite Hnil.
  - destruct (brpoplpush_some r q p rest x Hne Hl) as (r1 & -> & Hq & _).
    specialize (IH r1). destruct (claim_many n r1 q p) as [r2 out].
    cbn [snd] in *. rewrite IH, Hq, Hl, rev_app_distr. reflexivity.
Qed.

End RedisFacts.

(** X6: the main list is a first-in first-out queue.  After the messages
    [ms] are pushed one by one, [n] claims in a row return, oldest first,
    the messages that were waiting before and then [ms] in the order they
    were pushed. *)
Theorem claims_follow_enqueue_order
    (r : Redis.redis) (q : string) (ms : list string) (n : nat) :
  snd (Queues.claim_many n (Queues.push_all r q ms) q (Workers.processing_of q))
  = firstn n (List.rev (Redis.lrange_all r q) ++ ms).
Proof.
  rewrite claim_many_order by apply processing_of_ne.
  rewrite lrange_all_push_all, rev_app_distr, rev_involutive. reflexivity.
Qed.

(** X7: a claim followed by the acknowledgement of the claimed message
    leaves the processing list as it was before the claim, with the
    message gone from the tail of the main list; on an empty main list a
    claim returns nothing and changes nothing. *)
Theorem claim_then_ack_restores_processing (r : Redis.redis) (q : string) :
  match Redis.brpoplpush r q (Workers.processing_of q) with
  | (r1, Some msg) =>
      let r2 := Workers.remove_from_processing r1 (Workers.processing_of q) msg in
      Redis.lrange_all r q = Redis.lrange_all r2 q ++ [msg]
      /\ Redis.lrange_all r2 (Workers.processing_of q)
         = Redis.lrange_all r (Workers.processing_of q)
  | (r1, None) => r1 = r /\ Redis.lrange_all r q = []
  end.
Proof.
  destruct (list_snoc_cases (Redis.lrange_all r q)) as [Hnil|(rest & x & Hl)].
  - rewrite brpoplpush_none by exact Hnil. auto.
  - destruct (brpoplpush_some r q _ rest x (processing_of_ne q) Hl)
      as (r1 & -> & Hq & Hp & _).
    cbv zeta. unfold Workers.remove_from_processing, Redis.lrem1.
    rewrite lrange_all_with_list, Hp, remove_first_head.
    rewrite lrange_all_with_list_ne
      by (intros E; symmetry in E; now apply processing_of_ne in E).
    rewrite Hq, Hl. auto.
Qed.

(** X8: a lock that was taken is exclusive.  Until [ttl] seconds have
    passed every further [set_lock] on the key is refused and changes
    nothing; it is granted again once the time to live has run out, or as
    soon as [release_lock] was called. *)
Theorem lock_is_exclusive_until_released_or_expired
    (r r1 : Redis.redis) (now ttl : Z) (key : string) :
  Workers.set_lock r now key ttl = (r1, true) ->
  (forall now' ttl', now' < now + ttl ->
     Workers.set_lock r1 now' key ttl' = (r1, false))
  /\ (forall now' ttl', now + ttl <= now' ->
        snd (Workers.set_lock r1 now' key ttl') = true)
  /\ (forall now' ttl',
        snd (Workers.set_lock (Workers.release_lock r1 key) now' key ttl') = true).
Proof.
  unfold Workers.set_lock, Workers.release_lock, Redis.set_nx_ex, Redis.del.
  destruct (Redis.exists_key r now key) eqn:E; [discriminate|].
  intros [= <-]. unfold Redis.exists_key. cbn [Redis.strings].
  repeat split; intros now' ttl'.
  - intros Hlt. rewrite lookup_insert_eq.
    destruct (Z.ltb_spec now' (now + ttl)); [reflexivity|lia].
  - intros Hge. rewrite lookup_insert_eq.
    destruct (Z.ltb_spec now' (now + ttl)); [lia|reflexivity].
  - rewrite lookup_delete_eq. reflexivity.
Qed.

Lemma lock_is_exclusive_witness :
  (forall now' ttl', now' < 100 + 180 ->
     Workers.set_lock
       (fst (Workers.set_lock Redis.empty 100 "lock:q:1" 180)) now' "lock:q:1" ttl'
     = (fst (Workers.set_lock Redis.empty 100 "lock:q:1" 180), false))
  /\ (forall now' ttl', 100 + 180 <= now' ->
        snd (Workers.set_lock
               (fst (Workers.set_lock Redis.empty 100 "lock:q:1" 180))
               now' "lock:q:1" ttl') = true)
  /\ (forall now' ttl',
        snd (Workers.set_lock
               (Workers.release_lock
                  (fst (Workers.set_lock Redis.empty 100 "lock:q:1" 180)) "lock:q:1")
               now' "lock:q:1" ttl') = true).
Proof.
  apply (lock_is_exclusive_until_released_or_expired Redis.empty). reflexivity.
Defined.

(** ** Promotion of due messages *)

Section Promotion.
Import Redis Workers Queues.

Lemma insert_entry_in x l y : In y (insert_entry x l) <-> y = x \/ In y l.
Proof.
  induction l as [|z l IH]; simpl.
  - intuition.
  - destruct (entry_leb x z); simpl; [intuition|]. rewrite IH. intuition.
Qed.

Lemma sort_entries_in l y : In y (sort_entries l) <-> In y l.
Proof.
  induction l as [|x l IH]; simpl; [tauto|].
  rewrite insert_entry_in, IH. intuition.
Qed.

Lemma zscore_zset_of r key m : zscore r key m = zset_of r key !! m.
Proof.
  unfold zscore, zset_of. destruct (zsets r !! key); reflexivity.
Qed.

(** The members ZRANGEBYSCORE returns are those whose score is in the
    range. *)
Lemma zrangebyscore_in r key lo hi m :
  In m (zrangebyscore r key lo hi) <->
  exists s, zscore r key m = Some s /\ lo <= s <= hi.
Proof.
  unfold zrangebyscore. rewrite in_map_iff, zscore_zset_of. split.
  - intros ([m' s] & <- & Hin). rewrite sort_entries_in, filter_In in Hin.
    destruct Hin as [Hin Hr]. cbn [fst snd] in *.
    apply list_elem_of_In, elem_of_map_to_list in Hin.
    exists s. unfold in_range in Hr. split; [exact Hin|lia].
  - intros (s & Hs & Hr). exists (m, s). split; [reflexivity|].
    rewrite sort_entries_in, filter_In. split.
    + apply list_elem_of_In, elem_of_map_to_list, Hs.
    + unfold in_range. cbn [snd]. lia.
Qed.

Lemma zscore_zremrangebyscore r key lo hi m :
  zscore (zremrangebyscore r key lo hi) key m =
  match zscore r key m with
  | Some s => if in_range lo hi s then None else Some s
  | None => None
  end.
Proof.
  rewrite !zscore_zset_of. unfold zremrangebyscore, zset_of at 1. cbn [zsets].
  rewrite lookup_insert_eq. cbn [from_option id].
  destruct (zset_of r key !! m) as [s|] eqn:E.
  - destruct (in_range lo hi s) eqn:Hr.
    + apply map_lookup_filter_None. right. intros s' Hs'. cbn [snd].
      rewrite E in Hs'. injection Hs' as <-. congruence.
    + apply map_lookup_filter_Some. split; [exact E|exact Hr].
  - apply map_lookup_filter_None. left. exact E.
Qed.

Lemma zscore_zremrangebyscore_ne r key key' lo hi m :
  key <> key' ->
  zscore (zremrangebyscore r key lo hi) key' m = zscore r key' m.
Proof.
  intros Hne. unfold zscore, zremrangebyscore. cbn [zsets].
  now rewrite lookup_insert_ne.
Qed.

Lemma nil_of_no_member {A} (l : list A) : (forall x, ~ In x l) -> l = [].
Proof. destruct l as [|x l]; [reflexivity|]. intros H. destruct (H x). now left. Qed.

Lemma zscore_push_all r key ms key' m :
  zscore (push_all r key ms) key' m = zscore r key' m.
Proof. unfold zscore. now rewrite zsets_push_all. Qed.

Lemma zrangebyscore_push_all r key ms key' lo hi :
  zrangebyscore (push_all r key ms) key' lo hi = zrangebyscore r key' lo hi.
Proof. unfold zrangebyscore, zset_of. now rewrite zsets_push_all. Qed.

Lemma lrange_all_zremrangebyscore r key lo hi k :
  lrange_all (zremrangebyscore r key lo hi) k = lrange_all r k.
Proof. reflexivity. Qed.

(** What a promotion does, list by list and member by member. *)
Lemma move_ready_effect r now q :
  let due := zrangebyscore r (delayed_of q) 0 now in
  let r' := fst (move_ready_delayed_to_main r now q) in
  snd (move_ready_delayed_to_main r now q) = Z.of_nat (List.length due)
  /\ lrange_all r' q = List.rev due ++ lrange_all r q
  /\ (forall k, k <> q -> lrange_all r' k = lrange_all r k)
  /\ (forall m, zscore r' (delayed_of q) m =
                match zscore r (delayed_of q) m with
                | Some s => if in_range 0 now s then None else Some s
                | None => None
                end)
  /\ (forall key m, key <> delayed_of q -> zscore r' key m = zscore r key m)
  /\ strings r' = strings r.
Proof.
  cbv zeta. unfold move_ready_delayed_to_main.
  destruct (zrangebyscore r (delayed_of q) 0 now) as [|m0 ms] eqn:Edue.
  - cbn [fst snd push_all fold_left List.length List.rev app].
    repeat split; auto.
    intros m. destruct (zscore r (delayed_of q) m) as [s|] eqn:Es; [|reflexivity].
    destruct (in_range 0 now s) eqn:Hr; [|reflexivity].
    exfalso. assert (Hin : In m (zrangebyscore r (delayed_of q) 0 now)).
    { apply zrangebyscore_in. exists s. unfold in_range in Hr. split; [exact Es|lia]. }
    rewrite Edue in Hin. destruct Hin.
  - cbn [fst snd]. repeat split.
    + rewrite lrange_all_zremrangebyscore. apply lrange_all_push_all.
    + intros k Hk. rewrite lrange_all_zremrangebyscore.
      apply lrange_all_push_all_ne. congruence.
    + intros m. rewrite zscore_zremrangebyscore, zscore_push_all. reflexivity.
    + intros key m Hk. rewrite zscore_zremrangebyscore_ne by congruence.
      apply zscore_push_all.
    + cbn [zremrangebyscore strings]. apply strings_push_all.
Qed.

End Promotion.

Lemma move_ready_delayed_moves_exactly_the_due_aux
    (r : Redis.redis) (now : Z) (q m : string) :
  let r' := fst (Queues.move_ready_delayed_to_main r now q) in
  let moved := snd (Queues.move_ready_delayed_to_main r now q) in
  match Redis.zscore r (Workers.delayed_of q) m with
  | Some s =>
      if Queues.in_range 0 now s
      then In m (Redis.lrange_all r' q)
           /\ Redis.zscore r' (Workers.delayed_of q) m = None
      else Redis.zscore r' (Workers.delayed_of q) m = Some s
           /\ (In m (Redis.lrange_all r' q) -> In m (Redis.lrange_all r q))
  | None =>
      Redis.zscore r' (Workers.delayed_of q) m = None
      /\ (In m (Redis.lrange_all r' q) -> In m (Redis.lrange_all r q))
  end
  /\ (In m (Redis.lrange_all r q) -> In m (Redis.lrange_all r' q))
  /\ Queues.llen r' q = Queues.llen r q + moved.
Proof.
  cbv zeta.
  destruct (move_ready_effect r now q) as (Hmoved & Hmain & _ & Hz & _).
  cbv zeta in *. rewrite Hz, Hmoved. unfold Queues.llen. rewrite Hmain.
  assert (Hnot : forall s, Redis.zscore r (Workers.delayed_of q) m = Some s ->
                           Queues.in_range 0 now s = false ->
                           ~ In m (Queues.zrangebyscore r (Workers.delayed_of q) 0 now)).
  { intros s Hs Hr Hin. apply zrangebyscore_in in Hin as (s' & Hs' & Hrange).
    rewrite Hs in Hs'. injection Hs' as <-. unfold Queues.in_range in Hr. lia. }
  repeat split.
  - destruct (Redis.zscore r (Workers.delayed_of q) m) as [s|] eqn:Es.
    + destruct (Queues.in_range 0 now s) eqn:Hr.
      * split; [|reflexivity]. apply in_or_app. left. apply in_rev.
        rewrite rev_involutive. apply zrangebyscore_in. exists s.
        unfold Queues.in_range in Hr. split; [exact Es|lia].
      * split; [reflexivity|]. intros Hin. apply in_app_or in Hin as [Hin|Hin]; auto.
        apply in_rev in Hin. now destruct (Hnot s eq_refl Hr).
    + split; [reflexivity|]. intros Hin. apply in_app_or in Hin as [Hin|Hin]; auto.
      apply in_rev in Hin. apply zrangebyscore_in in Hin as (s & Hs & _).
      rewrite Hs in Es. discriminate.
  - intros Hin. apply in_or_app. now right.
  - rewrite length_app, length_rev. lia.
Qed.


(** X9: a promotion moves exactly the due messages.  A member of the
    delayed set whose score lies between 0 and now leaves the set and is
    pushed on the main list; every other member keeps its score and is
    not pushed; nothing that waited on the main list is dropped; and the
    number returned is the number of messages the main list gained. *)
Theorem move_ready_delayed_moves_exactly_the_due
    (r : Redis.redis) (now : Z) (q m : string) :
  let r' := fst (Queues.move_ready_delayed_to_main r now q) in
  let moved := snd (Queues.move_ready_delayed_to_main r now q) in
  match Redis.zscore r (Workers.delayed_of q) m with
  | Some s =>
      if Queues.in_range 0 now s
      then In m (Redis.lrange_all r' q)
           /\ Redis.zscore r' (Workers.delayed_of q) m = None
      else Redis.zscore r' (Workers.delayed_of q) m = Some s
           /\ (In m (Redis.lrange_all r' q) -> In m (Redis.lrange_all r q))
  | None =>
      Redis.zscore r' (Workers.delayed_of q) m = None
      /\ (In m (Redis.lrange_all r' q) -> In m (Redis.lrange_all r q))
  end
  /\ (In m (Redis.lrange_all r q) -> In m (Redis.lrange_all r' q))
  /\ Queues.llen r' q = Queues.llen r q + moved.
Proof. apply move_ready_delayed_moves_exactly_the_due_aux. Qed.

(** X10: promoting again at the same instant moves nothing and changes
    nothing. *)
Theorem move_ready_delayed_twice_moves_nothing
    (r : Redis.redis) (now : Z) (q : string) :
  let r' := fst (Queues.move_ready_delayed_to_main r now q) in
  Queues.move_ready_delayed_to_main r' now q = (r', 0).
Proof.
  cbv zeta.
  destruct (move_ready_effect r now q) as (_ & _ & _ & Hz & _). cbv zeta in Hz.
  set (r' := fst (Queues.move_ready_delayed_to_main r now q)) in *.
  assert (Hnil : Queues.zrangebyscore r' (Workers.delayed_of q) 0 now = []).
  { apply nil_of_no_member. intros m Hin.
    apply zrangebyscore_in in Hin as (s & Hs & Hrange).
    rewrite Hz in Hs.
    destruct (Redis.zscore r (Workers.delayed_of q) m) as [s0|]; [|discriminate].
    destruct (Queues.in_range 0 now s0) eqn:Hr; [discriminate|].
    injection Hs as ->. unfold Queues.in_range in Hr. lia. }
  unfold Queues.move_ready_delayed_to_main. rewrite Hnil. reflexivity.
Qed.

Section DelayThenPromote.
Import Redis Workers Queues.

Lemma zscore_zadd r key m s : zscore (zadd r key m s) key m = Some s.
Proof.
  unfold zscore, zadd. cbn [zsets]. rewrite lookup_insert_eq. cbn.
  apply lookup_insert_eq.
Qed.

Lemma lrange_all_zadd r key m s k : lrange_all (zadd r key m s) k = lrange_all r k.
Proof. reflexivity. Qed.

End DelayThenPromote.

(** X11: a message scheduled with a delay becomes claimable when the
    delay has elapsed and not before.  After [queue_delayed_message] at
    time [t] with delay [delay], a promotion at time [t'] pushes the
    message on the main list and removes it from the delayed set when
    [t + delay <= t']; when [t' < t + delay] it stays in the delayed set
    with its score, and the main list gains no copy of it. *)
Theorem delayed_message_is_promoted_when_due
    (json_dumps : Json.json -> string) (r : Redis.redis) (t t' delay : Z)
    (q : string) (message : Json.json) :
  0 <= t + delay ->
  let text := json_dumps message in
  let r1 := Workers.queue_delayed_message json_dumps r t q message delay in
  let r2 := fst (Queues.move_ready_delayed_to_main r1 t' q) in
  (t + delay <= t' ->
     In text (Redis.lrange_all r2 q)
     /\ Redis.zscore r2 (Workers.delayed_of q) text = None)
  /\ (t' < t + delay ->
        Redis.zscore r2 (Workers.delayed_of q) text = Some (t + delay)
        /\ (In text (Redis.lrange_all r2 q) -> In text (Redis.lrange_all r q))).
Proof.
  intros Hscore. cbv zeta.
  set (r1 := Workers.queue_delayed_message json_dumps r t q message delay).
  pose proof (move_ready_delayed_moves_exactly_the_due_aux r1 t' q (json_dumps message))
    as H.
  assert (Hs : Redis.zscore r1 (Workers.delayed_of q) (json_dumps message)
               = Some (t + delay)) by apply zscore_zadd.
  rewrite Hs in H. unfold Queues.in_range in H. destruct H as [H _].
  split; intros Ht.
  - destruct (Z.leb_spec 0 (t + delay)); [|lia].
    destruct (Z.leb_spec (t + delay) t'); [|lia]. exact H.
  - destruct (Z.leb_spec (t + delay) t'); [lia|].
    rewrite andb_false_r in H. exact H.
Qed.

Lemma delayed_message_is_promoted_witness :
  let text := "m" in
  let r1 := Workers.queue_delayed_message (fun _ => "m") Redis.empty 100 "q"
              Json.JNull 120 in
  let r2 := fst (Queues.move_ready_delayed_to_main r1 220 "q") in
  (100 + 120 <= 220 ->
     In text (Redis.lrange_all r2 "q")
     /\ Redis.zscore r2 (Workers.delayed_of "q") text = None)
  /\ (220 < 100 + 120 ->
        Redis.zscore r2 (Workers.delayed_of "q") text = Some (100 + 120)
        /\ (In text (Redis.lrange_all r2 "q") -> In text (Redis.lrange_all Redis.empty "q"))).
Proof.
  apply (delayed_message_is_promoted_when_due (fun _ => "m") Redis.empty 100 220 120
           "q" Json.JNull).
  lia.
Defined.

(** ** Trimming the failed lists *)

Section Cleanup.
Import Redis Workers Queues.

Lemma lrange_all_rpop r q : lrange_all (rpop r q) q = List.removelast (lrange_all r q).
Proof. apply lrange_all_with_list. Qed.

Lemma lrange_all_rpop_ne r q k : q <> k -> lrange_all (rpop r q) k = lrange_all r k.
Proof. apply lrange_all_with_list_ne. Qed.

Lemma lrange_all_iter_rpop n r q :
  lrange_all (Nat.iter n (fun acc => rpop acc q) r) q
  = firstn (List.length (lrange_all r q) - n) (lrange_all r q).
Proof.
  induction n as [|n IH].
  - cbn [Nat.iter nat_rect]. rewrite Nat.sub_0_r. symmetry. apply firstn_all.
  - rewrite Nat.iter_succ. cbv beta.
    rewrite lrange_all_rpop, IH, removelast_firstn_len, length_firstn, firstn_firstn.
    f_equal. lia.
Qed.

Lemma lrange_all_iter_rpop_ne n r q k :
  q <> k -> lrange_all (Nat.iter n (fun acc => rpop acc q) r) k = lrange_all r k.
Proof.
  intros Hne. induction n as [|n IH]; [reflexivity|].
  rewrite Nat.iter_succ. cbv beta. now rewrite lrange_all_rpop_ne.
Qed.

Lemma cleanup_queue_same r q :
  lrange_all (cleanup_queue r q) q =
  if 1000 <? llen r q then firstn 100 (lrange_all r q) else lrange_all r q.
Proof.
  unfold cleanup_queue. rewrite Z.gtb_ltb.
  destruct (Z.ltb_spec 1000 (llen r q)) as [Hlong|_]; [|reflexivity].
  rewrite lrange_all_iter_rpop. unfold llen in *. f_equal. lia.
Qed.

Lemma cleanup_queue_other r q k :
  q <> k -> lrange_all (cleanup_queue r q) k = lrange_all r k.
Proof.
  intros Hne. unfold cleanup_queue. destruct (_ >? _); [|reflexivity].
  now apply lrange_all_iter_rpop_ne.
Qed.

End Cleanup.

(** X12: the clean-up bounds the three failed lists it names and touches
    no other list.  A named list of more than 1000 entries is cut to its
    100 most recently pushed ones, a shorter one is left as it is, so
    that afterwards none holds more than 1000; every other list, the
    failed list of q:sub:usage_sync among them, is unchanged. *)
Theorem cleanup_keeps_the_latest_hundred (r : Redis.redis) (k : string) :
  let before := Redis.lrange_all r k in
  let after := Redis.lrange_all (Queues.cleanup_old_messages r) k in
  (In k Queues.cleaned_failed_queues ->
     after = (if 1000 <? Queues.llen r k then firstn 100 before else before)
     /\ (List.length after <= 1000)%nat)
  /\ (~ In k Queues.cleaned_failed_queues -> after = before).
Proof.
  cbv zeta. unfold Queues.cleanup_old_messages, Queues.cleaned_failed_queues.
  cbn [fold_left]. split.
  - intros Hin.
    assert (Hafter :
      Redis.lrange_all
        (Queues.cleanup_queue
           (Queues.cleanup_queue
              (Queues.cleanup_queue r "q:sub:payment_initiation:failed")
              "q:sub:trial_payment:failed")
           "q:sub:plan_change:failed") k
      = if 1000 <? Queues.llen r k then firstn 100 (Redis.lrange_all r k)
        else Redis.lrange_all r k).
    { cbn [In] in Hin. destruct Hin as [<-|[<-|[<-|[]]]].
      - rewrite !cleanup_queue_other by discriminate. apply cleanup_queue_same.
      - rewrite cleanup_queue_other by discriminate.
        rewrite cleanup_queue_same. unfold Queues.llen.
        rewrite cleanup_queue_other by discriminate. reflexivity.
      - rewrite cleanup_queue_same. unfold Queues.llen.
        rewrite !cleanup_queue_other by discriminate. reflexivity. }
    split; [exact Hafter|]. rewrite Hafter. unfold Queues.llen.
    destruct (Z.ltb_spec 1000 (Z.of_nat (List.length (Redis.lrange_all r k)))).
    + rewrite length_firstn. lia.
    + lia.
  - intros Hout. cbn [In] in Hout.
    rewrite !cleanup_queue_other; auto; intros E; apply Hout; auto.
Qed.

Lemma cleanup_keeps_the_latest_hundred_witness :
  Redis.lrange_all
    (Queues.cleanup_old_messages
       (Redis.with_list Redis.empty "q:sub:trial_payment:failed"
          (List.repeat "recent" 950 ++ List.repeat "ancient" 51)))
    "q:sub:trial_payment:failed"
  = List.repeat "recent" 100
  /\ (100 <= 1000)%nat.
Proof.
  apply (proj1 (cleanup_keeps_the_latest_hundred
                  (Redis.with_list Redis.empty "q:sub:trial_payment:failed"
                     (List.repeat "recent" 950 ++ List.repeat "ancient" 51))
                  "q:sub:trial_payment:failed")).
  cbn [In Queues.cleaned_failed_queues]. auto.
Defined.

(** ** Backoff *)

Section Backoff.
Import QueuePolicies.

Lemma pow2_ge_1 n : 0 <= n -> 1 <= 2 ^ n.
Proof. intros Hn. change 1 with (2 ^ 0). apply Z.pow_le_mono_r; lia. Qed.

Lemma backoff_of_bounds base cap attempts draw :
  0 <= base -> 0 <= cap -> 0 <= draw ->
  Z.min base cap + draw <= backoff_of base 2 cap attempts draw <= cap + draw.
Proof.
  intros Hb Hc Hd. unfold backoff_of.
  pose proof (pow2_ge_1 (Z.max 0 attempts) ltac:(lia)) as Hp.
  assert (base <= base * 2 ^ Z.max 0 attempts) by nia.
  lia.
Qed.

Lemma backoff_of_mono base cap a a' draw :
  0 <= base -> a <= a' ->
  backoff_of base 2 cap a draw <= backoff_of base 2 cap a' draw.
Proof.
  intros Hb Ha. unfold backoff_of.
  assert (2 ^ Z.max 0 a <= 2 ^ Z.max 0 a') by (apply Z.pow_le_mono_r; lia).
  assert (base * 2 ^ Z.max 0 a <= base * 2 ^ Z.max 0 a') by nia.
  lia.
Qed.

Lemma sub_policy_cases q p :
  SUB_QUEUE_POLICIES !! q = Some p -> p = DEFAULT_POLICY \/ p = SHORT_POLICY.
Proof.
  unfold SUB_QUEUE_POLICIES. intros H.
  repeat (apply lookup_insert_Some in H as [[_ <-]|[_ H]]; [auto|]).
  apply lookup_singleton_Some in H as [_ <-]. auto.
Qed.

Lemma pay_policy_cases q p :
  PAY_QUEUE_POLICIES !! q = Some p -> p = DEFAULT_POLICY \/ p = SHORT_POLICY.
Proof.
  unfold PAY_QUEUE_POLICIES. intros H.
  repeat (apply lookup_insert_Some in H as [[_ <-]|[_ H]]; [auto|]).
  apply lookup_singleton_Some in H as [_ <-]. auto.
Qed.

Lemma compute_backoff_bounds policies q attempts draw :
  (forall p, policies !! q = Some p -> p = DEFAULT_POLICY \/ p = SHORT_POLICY) ->
  0 <= draw ->
  60 + draw <= compute_backoff policies q attempts draw <= 3600 + draw
  /\ (1 <= attempts -> 120 + draw <= compute_backoff policies q attempts draw)
  /\ (forall attempts', attempts <= attempts' ->
        compute_backoff policies q attempts draw
        <= compute_backoff policies q attempts' draw).
Proof.
  intros Hcases Hd. unfold compute_backoff.
  assert (Hone : 1 <= attempts -> 2 <= 2 ^ Z.max 0 attempts).
  { intros Ha. change 2 with (2 ^ 1) at 1. apply Z.pow_le_mono_r; lia. }
  destruct (policies !! q) as [p|] eqn:E.
  - destruct (Hcases p eq_refl) as [-> | ->];
      cbn [base_delay_seconds backoff_multiplier max_delay_seconds
           DEFAULT_POLICY SHORT_POLICY];
      (split; [|split]);
      [ pose proof (backoff_of_bounds 60 3600 attempts draw); lia
      | intros Ha; specialize (Hone Ha); unfold backoff_of; lia
      | intros a' Ha'; apply backoff_of_mono; lia
      | pose proof (backoff_of_bounds 60 600 attempts draw); lia
      | intros Ha; specialize (Hone Ha); unfold backoff_of; lia
      | intros a' Ha'; apply backoff_of_mono; lia ].
  - (split; [|split]);
      [ pose proof (backoff_of_bounds 60 3600 attempts draw); lia
      | intros Ha; specialize (Hone Ha); unfold backoff_of; lia
      | intros a' Ha'; apply backoff_of_mono; lia ].
Qed.

End Backoff.

(** X13: the retry delay of either service, on any queue name, lies
    between 60 seconds and one hour, plus the jitter drawn; from the
    first retry on it is at least 120 seconds plus the jitter; and with
    the same jitter it never shrinks when the number of attempts grows.
    (Up to 1018 attempts the float arithmetic of the source is exact;
    beyond, it overflows.) *)
Theorem compute_backoff_is_bounded_and_monotone
    (q : string) (attempts attempts' draw : Z) :
  0 <= draw -> attempts <= attempts' -> attempts' <= 1018 ->
  let sub := QueuePolicies.compute_backoff QueuePolicies.SUB_QUEUE_POLICIES q in
  let pay := QueuePolicies.compute_backoff QueuePolicies.PAY_QUEUE_POLICIES q in
  (60 + draw <= sub attempts draw <= 3600 + draw
   /\ (1 <= attempts -> 120 + draw <= sub attempts draw)
   /\ sub attempts draw <= sub attempts' draw)
  /\ (60 + draw <= pay attempts draw <= 3600 + draw
      /\ (1 <= attempts -> 120 + draw <= pay attempts draw)
      /\ pay attempts draw <= pay attempts' draw).
Proof.
  intros Hd Ha _. cbv zeta.
  destruct (compute_backoff_bounds QueuePolicies.SUB_QUEUE_POLICIES q attempts draw
              (sub_policy_cases q) Hd) as (H1 & H2 & H3).
  destruct (compute_backoff_bounds QueuePolicies.PAY_QUEUE_POLICIES q attempts draw
              (pay_policy_cases q) Hd) as (H4 & H5 & H6).
  repeat split; auto; lia.
Qed.

Lemma compute_backoff_witness :
  let sub := QueuePolicies.compute_backoff QueuePolicies.SUB_QUEUE_POLICIES
               "q:sub:trial_payment" in
  let pay := QueuePolicies.compute_backoff QueuePolicies.PAY_QUEUE_POLICIES
               "q:pay:refund_initiation" in
  sub 3 7 = 487 /\ sub 4 7 = 607 /\ pay 3 7 = 487
  /\ 60 + 7 <= sub 3 7 <= 3600 + 7 /\ sub 3 7 <= sub 4 7.
Proof.
  cbv zeta.
  pose proof (compute_backoff_is_bounded_and_monotone "q:sub:trial_payment" 3 4 7
                ltac:(lia) ltac:(lia) ltac:(lia)) as [(H1 & _ & H3) _].
  repeat split; try reflexivity; solve [apply H1 | exact H3].
Defined.

(** ** The message written back for a retry *)

Section RetryClone.
Import Json Workers.

Lemma dict_get_dict_set k v d k' :
  dict_get k' (dict_set k v d) =
  if String.eqb k' k then Some v else dict_get k' d.
Proof.
  induction d as [|[k0 v0] d IH]; cbn [dict_set dict_get].
  - destruct (String.eqb k' k); reflexivity.
  - destruct (String.eqb_spec k k0) as [->|Hk]; cbn [dict_get].
    + destruct (String.eqb k' k0); reflexivity.
    + rewrite IH. destruct (String.eqb_spec k' k0) as [->|Hk']; [|reflexivity].
      destruct (String.eqb_spec k0 k); [congruence|reflexivity].
Qed.

Lemma dict_set_keys k v d :
  List.map fst (dict_set k v d) =
  if existsb (String.eqb k) (List.map fst d) then List.map fst d
  else List.map fst d ++ [k].
Proof.
  induction d as [|[k0 v0] d IH]; cbn [dict_set List.map existsb fst app];
    [reflexivity|].
  destruct (String.eqb k k0); cbn [List.map fst orb]; [reflexivity|].
  rewrite IH. destruct (existsb _ _); reflexivity.
Qed.

End RetryClone.

(** X14: the message written back for a retry differs from the one that
    failed in its attempts only.  Read again, it carries the new number
    of attempts; when the failed message is a JSON object, every other
    field (its id among them) is kept with its value, and the fields
    keep their order, attempts being added at the end when it was
    missing. *)
Theorem retry_message_changes_attempts_only (raw : Json.json) (n : Z) :
  Workers.attempts_of (Workers.retry_message raw n) = Some n
  /\ forall d, raw = Json.JDict d ->
       exists d', Workers.retry_message raw n = Json.JDict d'
         /\ (forall k, k <> "attempts" -> Json.dict_get k d' = Json.dict_get k d)
         /\ List.map fst d' =
            if existsb (String.eqb "attempts") (List.map fst d)
            then List.map fst d else List.map fst d ++ ["attempts"].
Proof.
  split.
  - destruct raw; cbn [Workers.retry_message Workers.attempts_of]; try reflexivity.
    rewrite dict_get_dict_set. reflexivity.
  - intros d ->. cbn [Workers.retry_message]. eexists. split; [reflexivity|]. split.
    + intros k Hk. rewrite dict_get_dict_set.
      destruct (String.eqb_spec k "attempts"); [contradiction|reflexivity].
    + apply dict_set_keys.
Qed.

(** ** The subscription worker never acknowledges a dispatched message *)

Section Dispatched.
Import Json Redis QueuePolicies Workers.

Lemma failed_of_ne_processing q : processing_of q <> failed_of q.
Proof.
  unfold processing_of, failed_of. intros H. apply append_inj_l in H. discriminate.
Qed.

Lemma exists_key_after_lock_cycle r now key ttl now' key' :
  exists_key r now' key' = false ->
  exists_key (release_lock (fst (set_lock r now key ttl)) key) now' key' = false.
Proof.
  intros H. unfold release_lock, set_lock, set_nx_ex, del.
  destruct (exists_key r now key); cbn [fst]; unfold exists_key in *;
    cbn [strings].
  - destruct (decide (key' = key)) as [->|Hne].
    + now rewrite lookup_delete_eq.
    + now rewrite lookup_delete_ne.
  - destruct (decide (key' = key)) as [->|Hne].
    + now rewrite lookup_delete_eq.
    + rewrite lookup_delete_ne, lookup_insert_ne by congruence. exact H.
Qed.

(** The sweeper reads a number of attempts whenever the worker does. *)
Lemma sweeper_attempts_of json_loads msg a :
  attempts_of (default (JStr msg) (json_loads msg)) = Some a ->
  attempts_of (default (JDict []) (json_loads msg)) = Some a.
Proof.
  destruct (json_loads msg) as [j|]; cbn [from_option id]; [auto|].
  cbn. auto.
Qed.

End Dispatched.

(** X15: the subscription worker never acknowledges a message it
    dispatched.  When the handler returns, the claimed message is still at
    the head of the processing list and its lock is gone; the next sweep
    therefore takes it for an orphan, removes it from the processing list
    and schedules it again with one more attempt (or moves it to the
    failed list once the attempts exceed the policy), although it was
    handed to its task. *)
Theorem sub_worker_dispatched_message_is_swept_again
    (json_loads : string -> option Json.json) (json_dumps : Json.json -> string)
    (py_hash : string -> Z) (py_repr : Json.json -> string)
    (r : Redis.redis) (now now' draw draw' a : Z) (q msg : string)
    (rest : list string) :
  Redis.lrange_all r q = rest ++ [msg] ->
  msg <> EmptyString ->
  Workers.attempts_of (default (Json.JStr msg) (json_loads msg)) = Some a ->
  Redis.exists_key r now (Workers.sub_worker_lock_key py_hash q msg) = false ->
  Redis.exists_key r now'
    (Workers.sub_sweeper_lock_key json_loads py_hash py_repr q msg) = false ->
  exists r1 r2,
    Workers.claim_lock_process json_loads json_dumps py_hash r now draw q
      (fun _ => Workers.Returned "dispatched") = (r1, Some "dispatched")
    /\ Redis.lrange_all r1 (Workers.processing_of q)
       = msg :: Redis.lrange_all r (Workers.processing_of q)
    /\ Redis.exists_key r1 now' (Workers.sub_worker_lock_key py_hash q msg) = false
    /\ Workers.sub_sweep_item json_loads json_dumps py_hash py_repr r1 now' draw' q msg
       = Some (r2, true, a + 1 <=? Workers.sub_max_retries q)
    /\ Redis.lrange_all r2 (Workers.processing_of q)
       = Redis.lrange_all r (Workers.processing_of q)
    /\ if a + 1 <=? Workers.sub_max_retries q
       then Redis.zscore r2 (Workers.delayed_of q)
              (json_dumps (Workers.retry_message
                             (default (Json.JDict []) (json_loads msg)) (a + 1)))
            = Some (now' + QueuePolicies.compute_backoff
                             QueuePolicies.SUB_QUEUE_POLICIES q (a + 1) draw')
       else Redis.lrange_all r2 (Workers.failed_of q)
            = msg :: Redis.lrange_all r (Workers.failed_of q).
Proof.
  intros Hl Hmsg Ha Hfree Hsweep.
  destruct (brpoplpush_some r q _ rest msg (processing_of_ne q) Hl)
    as (r0 & Hclaim & Hq & Hp & Hz & Hs & Hother).
  assert (Hfree0 : Redis.exists_key r0 now (Workers.sub_worker_lock_key py_hash q msg)
                   = false)
    by (unfold Redis.exists_key in *; now rewrite Hs).
  assert (Hsweep0 : Redis.exists_key r0 now'
                      (Workers.sub_sweeper_lock_key json_loads py_hash py_repr q msg)
                    = false)
    by (unfold Redis.exists_key in *; now rewrite Hs).
  set (key := Workers.sub_worker_lock_key py_hash q msg) in *.
  set (r1 := Workers.release_lock
               (fst (Workers.set_lock r0 now key (Workers.sub_lock_ttl q))) key).
  assert (Hrun : Workers.claim_lock_process json_loads json_dumps py_hash r now draw q
                   (fun _ => Workers.Returned "dispatched") = (r1, Some "dispatched")).
  { unfold Workers.claim_lock_process, Workers.claim_and_lock.
    rewrite Hclaim.
    destruct (String.eqb_spec msg EmptyString); [contradiction|].
    rewrite Ha. fold key. subst r1.
    unfold Workers.set_lock, Redis.set_nx_ex. rewrite Hfree0. reflexivity. }
  assert (Hlists : Redis.lists r1 = Redis.lists r0).
  { subst r1. unfold Workers.set_lock, Redis.set_nx_ex. rewrite Hfree0. reflexivity. }
  assert (Hzsets : Redis.zsets r1 = Redis.zsets r0).
  { subst r1. unfold Workers.set_lock, Redis.set_nx_ex. rewrite Hfree0. reflexivity. }
  assert (Hr1p : forall k, Redis.lrange_all r1 k = Redis.lrange_all r0 k)
    by (intros k; unfold Redis.lrange_all; now rewrite Hlists).
  assert (Hlock1 : Redis.exists_key r1 now' key = false).
  { subst r1. unfold Workers.release_lock, Redis.del, Redis.exists_key.
    cbn [Redis.strings]. now rewrite lookup_delete_eq. }
  assert (Hsweep1 : Redis.exists_key r1 now'
                      (Workers.sub_sweeper_lock_key json_loads py_hash py_repr q msg)
                    = false)
    by (subst r1; apply exists_key_after_lock_cycle, Hsweep0).
  pose proof (sweeper_attempts_of json_loads msg a Ha) as Ha'.
  exists r1.
  assert (Hitem : exists r2,
    Workers.sub_sweep_item json_loads json_dumps py_hash py_repr r1 now' draw' q msg
    = Some (r2, true, a + 1 <=? Workers.sub_max_retries q)
    /\ Redis.lrange_all r2 (Workers.processing_of q)
       = Redis.lrange_all r (Workers.processing_of q)
    /\ if a + 1 <=? Workers.sub_max_retries q
       then Redis.zscore r2 (Workers.delayed_of q)
              (json_dumps (Workers.retry_message
                             (default (Json.JDict []) (json_loads msg)) (a + 1)))
            = Some (now' + QueuePolicies.compute_backoff
                             QueuePolicies.SUB_QUEUE_POLICIES q (a + 1) draw')
       else Redis.lrange_all r2 (Workers.failed_of q)
            = msg :: Redis.lrange_all r (Workers.failed_of q));
    [|destruct Hitem as (r2 & H1 & H2 & H3); exists r2;
      repeat split; auto; now rewrite Hr1p].
  unfold Workers.sub_sweep_item. rewrite Hsweep1, Ha'.
  destruct (a + 1 <=? Workers.sub_max_retries q) eqn:Emax; eexists.
  - split; [reflexivity|]. split.
    + unfold Workers.queue_delayed_message. rewrite lrange_all_zadd.
      unfold Workers.remove_from_processing, Redis.lrem1.
      rewrite lrange_all_with_list, Hr1p, Hp, remove_first_head. reflexivity.
    + apply zscore_zadd.
  - split; [reflexivity|]. split.
    + rewrite lrange_all_lpush_ne
        by (intros E; symmetry in E; now apply failed_of_ne_processing in E).
      unfold Workers.remove_from_processing, Redis.lrem1.
      rewrite lrange_all_with_list, Hr1p, Hp, remove_first_head. reflexivity.
    + rewrite lrange_all_lpush. f_equal.
      unfold Workers.remove_from_processing, Redis.lrem1.
      rewrite lrange_all_with_list_ne by apply failed_of_ne_processing.
      rewrite Hr1p. apply Hother.
      * unfold Workers.failed_of. intros E.
        apply (f_equal String.length) in E. rewrite string_length_app in E.
        simpl in E. lia.
      * intros E. symmetry in E. now apply failed_of_ne_processing in E.
Qed.

Lemma sub_worker_dispatched_witness :
  let r := Redis.lpush Redis.empty "q:sub:plan_change" Scenario.msg_noid in
  exists r1 r2,
    Workers.claim_lock_process Scenario.loads (fun _ => "clone") (fun _ => 7)
      r 100 0 "q:sub:plan_change" (fun _ => Workers.Returned "dispatched")
    = (r1, Some "dispatched")
    /\ Workers.sub_sweep_item Scenario.loads (fun _ => "clone") (fun _ => 7)
         (fun _ => EmptyString) r1 400 3 "q:sub:plan_change" Scenario.msg_noid
       = Some (r2, true, true)
    /\ Redis.zscore r2 "q:sub:plan_change:delayed" "clone" = Some (400 + 123).
Proof.
  cbv zeta.
  destruct (sub_worker_dispatched_message_is_swept_again
              Scenario.loads (fun _ => "clone") (fun _ => 7) (fun _ => EmptyString)
              (Redis.lpush Redis.empty "q:sub:plan_change" Scenario.msg_noid)
              100 400 0 3 0 "q:sub:plan_change" Scenario.msg_noid [])
    as (r1 & r2 & H1 & _ & _ & H2 & _ & H3).
  - reflexivity.
  - discriminate.
  - reflexivity.
  - reflexivity.
  - reflexivity.
  - exists r1, r2. repeat split; [exact H1|exact H2|exact H3].
Defined.

(** ** The payment worker and its sweeper *)

Section PaymentQueue.
Import Json Redis QueuePolicies Workers PaymentWorkers.

Lemma parse_message_envelope_id json_loads py_repr msg d p :
  json_loads msg = Some (JDict d) ->
  dict_get "payload" d <> None -> dict_get "action" d <> None ->
  parse_message json_loads py_repr msg = Some p ->
  message_id p = id_or_hash py_repr (dict_get "id" d) msg.
Proof.
  intros Hj Hp Ha. unfold parse_message. rewrite Hj.
  destruct (dict_get "payload" d); [|contradiction].
  destruct (dict_get "action" d); [|contradiction].
  destruct (int_or_zero (dict_get "attempts" d)); cbn; [|discriminate].
  now intros [= <-].
Qed.

Lemma pay_max_try_null_ge_1 main : (1 <=? pay_max_try main 5 JNull) = true.
Proof.
  unfold pay_max_try.
  destruct (PAY_QUEUE_POLICIES !! main) as [p|] eqn:E; [|reflexivity].
  destruct (pay_policy_cases main p E) as [-> | ->]; reflexivity.
Qed.

End PaymentQueue.

(** X16: in the payment service the worker and the sweeper name the same
    lock for an envelope (a JSON object with a payload and an action):
    both use its id when it has a true one, the SHA-256 of the text
    otherwise.  So while the worker holds its lock on a claimed envelope,
    the sweeper passes over the entry and changes nothing. *)
Theorem pay_sweeper_skips_envelope_in_flight
    (json_loads : string -> option Json.json) (json_dumps : Json.json -> string)
    (py_repr : Json.json -> string)
    (msg : string) (d : list (string * Json.json)) (p : Workers.parsed_message) :
  json_loads msg = Some (Json.JDict d) ->
  Json.dict_get "payload" d <> None ->
  Json.dict_get "action" d <> None ->
  Workers.parse_message json_loads py_repr msg = Some p ->
  Workers.message_id p = PaymentWorkers.pay_sweeper_mid json_loads py_repr msg
  /\ forall r now draw main,
       Redis.exists_key r now
         (PaymentWorkers.pay_lock_key main (Workers.message_id p)) = true ->
       PaymentWorkers.pay_sweep_item json_loads json_dumps py_repr r now draw main msg
       = (r, Some false).
Proof.
  intros Hj Hp Ha Hparse.
  assert (Hid : Workers.message_id p
                = PaymentWorkers.pay_sweeper_mid json_loads py_repr msg).
  { rewrite (parse_message_envelope_id _ _ _ _ _ Hj Hp Ha Hparse).
    unfold PaymentWorkers.pay_sweeper_mid. rewrite Hj. reflexivity. }
  split; [exact Hid|].
  intros r now draw main Hlock. unfold PaymentWorkers.pay_sweep_item.
  rewrite <- Hid, Hlock. reflexivity.
Qed.

Lemma pay_sweeper_skips_envelope_witness :
  Workers.message_id
    {| Workers.envelope_or_raw := Scenario.env_m1;
       Workers.payload := Json.JDict [];
       Workers.message_id := "m-1";
       Workers.attempts := 0;
       Workers.max_attempts := Json.JNull |}
  = PaymentWorkers.pay_sweeper_mid Scenario.loads (fun _ => EmptyString) Scenario.msg_m1.
Proof.
  apply (pay_sweeper_skips_envelope_in_flight Scenario.loads (fun _ => "clone")
           (fun _ => EmptyString) Scenario.msg_m1 _ _ eq_refl).
  - discriminate.
  - discriminate.
  - reflexivity.
Defined.

(** X17: the payment sweeper does not carry over an entry it cannot
    parse.  An unlocked entry of a processing list for which
    [_parse_message] raises (a text that is no JSON, or no JSON object) is
    removed from the list and scheduled again as the message
    [{"attempts": 1}]: what the entry said is gone. *)
Theorem pay_sweeper_replaces_unparseable_entry
    (json_loads : string -> option Json.json) (json_dumps : Json.json -> string)
    (py_repr : Json.json -> string)
    (r : Redis.redis) (now draw : Z) (main msg : string) :
  Workers.parse_message json_loads py_repr msg = None ->
  Redis.exists_key r now
    (PaymentWorkers.pay_lock_key main
       (PaymentWorkers.pay_sweeper_mid json_loads py_repr msg)) = false ->
  PaymentWorkers.pay_sweep_item json_loads json_dumps py_repr r now draw main msg
  = (Workers.queue_delayed_message json_dumps
       (Workers.remove_from_processing r (Workers.processing_of main) msg)
       now main (Json.JDict [("attempts", Json.JInt 1)])
       (QueuePolicies.compute_backoff QueuePolicies.PAY_QUEUE_POLICIES main 1 draw),
     Some true).
Proof.
  intros Hparse Hfree. unfold PaymentWorkers.pay_sweep_item.
  rewrite Hfree, Hparse. change (0 + 1) with 1.
  rewrite pay_max_try_null_ge_1. reflexivity.
Qed.

Lemma pay_sweeper_replaces_unparseable_witness :
  PaymentWorkers.pay_sweep_item Scenario.loads (fun _ => "clone") (fun _ => EmptyString)
    (Redis.lpush Redis.empty "q:pay:subscription_update:processing" "not json")
    100 4 "q:pay:subscription_update" "not json"
  = (Workers.queue_delayed_message (fun _ => "clone")
       (Workers.remove_from_processing
          (Redis.lpush Redis.empty "q:pay:subscription_update:processing" "not json")
          "q:pay:subscription_update:processing" "not json")
       100 "q:pay:subscription_update" (Json.JDict [("attempts", Json.JInt 1)]) 124,
     Some true).
Proof.
  apply (pay_sweeper_replaces_unparseable_entry Scenario.loads (fun _ => "clone")
           (fun _ => EmptyString)
           (Redis.lpush Redis.empty "q:pay:subscription_update:processing" "not json")
           100 4 "q:pay:subscription_update" "not json");
    reflexivity.
Defined.

(** X18: the payment worker settles every message it locks.  For a
    claimed message that parses, carries a JSON object as payload and
    whose lock is free, the worker leaves the processing list as it was
    before the claim and holds no lock when it returns, and the message
    ends in exactly one place: nowhere when the webhook was delivered
    ("success"); in the delayed set, as the copy with one more attempt
    scored at the time of the failure plus the backoff, while the
    attempts stay within the ceiling ("retry"); at the head of the failed
    list otherwise ("failed"). *)
Theorem pay_worker_settles_the_claimed_message
    (json_loads : string -> option Json.json) (json_dumps : Json.json -> string)
    (py_repr : Json.json -> string)
    (r : Redis.redis) (now later draw : Z)
    (net : Z -> WebhookClient.post_outcome)
    (msg : string) (rest : list string) (p : Workers.parsed_message)
    (pd : list (string * Json.json)) :
  let q := PaymentWorkers.subscription_update_queue in
  let key := PaymentWorkers.pay_lock_key q (Workers.message_id p) in
  Redis.lrange_all r q = rest ++ [msg] ->
  msg <> EmptyString ->
  Workers.parse_message json_loads py_repr msg = Some p ->
  Workers.payload p = Json.JDict pd ->
  Redis.exists_key r now key = false ->
  let out := PaymentWorkers.process_subscription_update_once
               json_loads json_dumps py_repr r now later draw net in
  let r' := fst out in
  Redis.lrange_all r' q = rest
  /\ Redis.lrange_all r' (Workers.processing_of q)
     = Redis.lrange_all r (Workers.processing_of q)
  /\ (forall t, Redis.exists_key r' t key = false)
  /\ match fst (WebhookClient.send_webhook 3 net) with
     | Ok _ =>
         snd out = Some "success"
         /\ Redis.zsets r' = Redis.zsets r
         /\ Redis.lrange_all r' (Workers.failed_of q)
            = Redis.lrange_all r (Workers.failed_of q)
     | Raise _ =>
         if Workers.attempts p + 1
            <=? Workers.pay_max_try q 5 (Workers.max_attempts p)
         then
           snd out = Some "retry"
           /\ Redis.zscore r' (Workers.delayed_of q)
                (json_dumps (Workers.pay_retry_message p (Workers.attempts p + 1)))
              = Some (later + QueuePolicies.compute_backoff
                                QueuePolicies.PAY_QUEUE_POLICIES q
                                (Workers.attempts p + 1) draw)
           /\ Redis.lrange_all r' (Workers.failed_of q)
              = Redis.lrange_all r (Workers.failed_of q)
         else
           snd out = Some "failed"
           /\ Redis.zsets r' = Redis.zsets r
           /\ Redis.lrange_all r' (Workers.failed_of q)
              = msg :: Redis.lrange_all r (Workers.failed_of q)
     end.
Proof.
  cbv zeta. intros Hl Hmsg Hparse Hpayload Hfree.
  set (q := PaymentWorkers.subscription_update_queue) in *.
  set (key := PaymentWorkers.pay_lock_key q (Workers.message_id p)) in *.
  destruct (brpoplpush_some r q _ rest msg (processing_of_ne q) Hl)
    as (r0 & Hclaim & Hq & Hp & Hz & Hs & Hother).
  assert (Hfree0 : Redis.exists_key r0 now key = false)
    by (unfold Redis.exists_key in *; now rewrite Hs).
  assert (Hfailed : Redis.lrange_all r0 (Workers.failed_of q)
                    = Redis.lrange_all r (Workers.failed_of q)).
  { apply Hother.
    - unfold Workers.failed_of. intros E.
      apply (f_equal String.length) in E. rewrite string_length_app in E.
      simpl in E. lia.
    - intros E. symmetry in E. now apply failed_of_ne_processing in E. }
  unfold PaymentWorkers.process_subscription_update_once.
  fold q. rewrite Hclaim.
  destruct (String.eqb_spec msg EmptyString); [contradiction|].
  rewrite Hparse. fold key.
  unfold Workers.set_lock, Redis.set_nx_ex. rewrite Hfree0, Hpayload.
  set (r2 := {| Redis.lists := Redis.lists r0; Redis.zsets := Redis.zsets r0;
                Redis.strings := _ |}).
  assert (Hr2 : forall k, Redis.lrange_all r2 k = Redis.lrange_all r0 k)
    by reflexivity.
  assert (Hack : forall k,
            Redis.lrange_all
              (Workers.remove_from_processing r2 (Workers.processing_of q) msg) k
            = if String.eqb k (Workers.processing_of q)
              then Redis.lrange_all r (Workers.processing_of q)
              else Redis.lrange_all r0 k).
  { intros k. unfold Workers.remove_from_processing, Redis.lrem1.
    destruct (String.eqb_spec k (Workers.processing_of q)) as [->|Hk].
    - now rewrite lrange_all_with_list, Hr2, Hp, remove_first_head.
    - rewrite lrange_all_with_list_ne by congruence. apply Hr2. }
  assert (Hqp : String.eqb q (Workers.processing_of q) = false)
    by (apply String.eqb_neq, processing_of_ne).
  assert (Hfp : String.eqb (Workers.failed_of q) (Workers.processing_of q) = false).
  { apply String.eqb_neq. intros E. symmetry in E.
    now apply failed_of_ne_processing in E. }
  assert (Hrel : forall x t, Redis.exists_key (Workers.release_lock x key) t key = false).
  { intros x t. unfold Workers.release_lock, Redis.del, Redis.exists_key.
    cbn [Redis.strings]. now rewrite lookup_delete_eq. }
  assert (Hrel_l : forall x k, Redis.lrange_all (Workers.release_lock x key) k
                               = Redis.lrange_all x k) by reflexivity.
  assert (Hrel_z : forall x, Redis.zsets (Workers.release_lock x key) = Redis.zsets x)
    by reflexivity.
  assert (Hdel_l : forall x t m dl k,
            Redis.lrange_all (Workers.queue_delayed_message json_dumps x t q m dl) k
            = Redis.lrange_all x k) by reflexivity.
  assert (Hack_z : Redis.zsets
                     (Workers.remove_from_processing r2 (Workers.processing_of q) msg)
                   = Redis.zsets r) by exact Hz.
  assert (Hqf : q <> Workers.failed_of q).
  { unfold Workers.failed_of. intros E.
    apply (f_equal String.length) in E. rewrite string_length_app in E.
    simpl in E. lia. }
  destruct (fst (WebhookClient.send_webhook 3 net)) as [dlv|e].
  - cbn [fst snd]. rewrite !Hrel_l, !Hack, Hqp, Hfp, String.eqb_refl, Hrel_z.
    repeat split; auto.
  - unfold Workers.pay_on_failure. fold key.
    destruct (Workers.attempts p + 1 <=? Workers.pay_max_try q 5 (Workers.max_attempts p));
      cbn [fst snd]; rewrite !Hrel_l.
    + rewrite !Hdel_l, !Hack, Hqp, Hfp, String.eqb_refl.
      repeat split; auto.
      unfold Redis.zscore. rewrite Hrel_z. apply zscore_zadd.
    + rewrite Hrel_z.
      rewrite (lrange_all_lpush_ne _ _ q) by congruence.
      rewrite (lrange_all_lpush_ne _ _ (Workers.processing_of q))
        by (intros E; symmetry in E; now apply failed_of_ne_processing in E).
      rewrite lrange_all_lpush, !Hack, Hqp, Hfp, String.eqb_refl.
      repeat split; auto. now rewrite Hfailed.
Qed.

Lemma pay_worker_settles_witness :
  let r := Redis.lpush Redis.empty "q:pay:subscription_update" Scenario.msg_m1 in
  let out := PaymentWorkers.process_subscription_update_once
               Scenario.loads (fun _ => "clone") (fun _ => EmptyString)
               r 100 107 4 Scenario.net_always_404 in
  Redis.lrange_all (fst out) "q:pay:subscription_update" = []
  /\ Redis.lrange_all (fst out) "q:pay:subscription_update:processing" = []
  /\ snd out = Some "retry"
  /\ Redis.zscore (fst out) "q:pay:subscription_update:delayed" "clone"
     = Some (107 + 124).
Proof.
  cbv zeta.
  pose proof (pay_worker_settles_the_claimed_message
                Scenario.loads (fun _ => "clone") (fun _ => EmptyString)
                (Redis.lpush Redis.empty "q:pay:subscription_update" Scenario.msg_m1)
                100 107 4 Scenario.net_always_404 Scenario.msg_m1 []
                {| Workers.envelope_or_raw := Scenario.env_m1;
                   Workers.payload := Json.JDict [];
                   Workers.message_id := "m-1";
                   Workers.attempts := 0;
                   Workers.max_attempts := Json.JNull |} []
                eq_refl ltac:(discriminate) eq_refl eq_refl eq_refl)
    as (H1 & H2 & _ & H3 & H4 & _).
  split; [exact H1|split; [exact H2|split; [exact H3|exact H4]]].
Defined.

(** ** The usage meter over many calls *)

Section UsageCalls.
Import UsageMeter UsageSequences.

(** One call with exact numbers, by cases on the count the script works
    with. *)
Lemma atomic_usage_check_step store user_id feature limit delta reset_at now :
  let key := usage_key user_id feature in
  let count := match (store !! key) ≫= hreset_at with
               | Some r => if lua_str_le r now then 0 else stored_count store key
               | None => stored_count store key
               end in
  0 <= stored_count store key -> 0 <= delta ->
  stored_count store key + delta <= exact_integers ->
  Z.abs limit <= exact_integers ->
  atomic_usage_check store user_id feature limit delta (Some reset_at) now =
  if count + delta >? limit
  then (store, {| success := false; current_usage := count; result_limit := limit |})
  else (<[key := {| hcount := Some (count + delta); hreset_at := Some reset_at;
                    httl := Some 86400 |}]> store,
        {| success := true; current_usage := count + delta; result_limit := limit |}).
Proof.
  cbv zeta. unfold atomic_usage_check, lua_script, stored_count, tonumber, lua_add.
  cbn [from_option id].
  set (key := usage_key user_id feature).
  intros Hc Hd Hsum Hlimit.
  rewrite (lua_number_exact limit), (lua_number_exact delta) by lia.
  destruct (store !! key) as [h|]; cbn [mbind option_bind].
  - destruct (hcount h) as [c|]; cbn [from_option id] in *.
    + rewrite (lua_number_exact c) by lia.
      destruct (hreset_at h) as [r|]; [destruct (lua_str_le r now)|].
      * rewrite (lua_number_exact (0 + delta)) by lia.
        destruct (_ >? _); reflexivity.
      * rewrite (lua_number_exact (c + delta)) by lia.
        destruct (_ >? _); reflexivity.
      * rewrite (lua_number_exact (c + delta)) by lia.
        destruct (_ >? _); reflexivity.
    + destruct (hreset_at h) as [r|]; [destruct (lua_str_le r now)|];
        rewrite (lua_number_exact (0 + delta)) by lia;
        destruct (_ >? _); reflexivity.
  - rewrite (lua_number_exact (0 + delta)) by lia.
    destruct (_ >? _); reflexivity.
Qed.

Lemma stored_count_after store user_id feature limit delta reset_at now :
  0 <= delta -> limit + delta <= exact_integers ->
  0 <= stored_count store (usage_key user_id feature) <= limit ->
  let out := atomic_usage_check store user_id feature limit delta (Some reset_at) now in
  0 <= stored_count (fst out) (usage_key user_id feature) <= limit
  /\ 0 <= current_usage (snd out) <= limit.
Proof.
  intros Hd Hexact Hc. cbv zeta. rewrite atomic_usage_check_step by lia.
  set (key := usage_key user_id feature) in *.
  set (count := match _ with Some _ => _ | None => _ end).
  assert (Hcount : 0 <= count <= limit).
  { subst count. destruct (_ ≫= _) as [r|]; [destruct (lua_str_le r now)|]; lia. }
  destruct (Z.gtb_spec (count + delta) limit); cbn [fst snd current_usage].
  - lia.
  - rewrite stored_count_insert. lia.
Qed.

End UsageCalls.

(** X19: the meter never lets a counter pass its limit.  Starting from a
    counter between 0 and the limit, after any sequence of calls with
    deltas that are not negative, made at any times (resets included),
    the stored counter is still between 0 and the limit, and so is the
    usage reported by every call, granted or refused.  The limit plus
    any of the deltas is at most 2^53, so that the script's arithmetic on
    Lua numbers is exact. *)
Theorem usage_never_exceeds_the_limit
    (store : gmap string UsageMeter.usage_hash) (user_id : Z) (feature : string)
    (limit : Z) (reset_at : string) (calls : list (Z * string)) :
  Forall (fun call => 0 <= fst call
                      /\ limit + fst call <= UsageMeter.exact_integers) calls ->
  0 <= UsageMeter.stored_count store (UsageMeter.usage_key user_id feature) <= limit ->
  let out := UsageSequences.usage_calls store user_id feature limit reset_at calls in
  0 <= UsageMeter.stored_count (fst out) (UsageMeter.usage_key user_id feature) <= limit
  /\ Forall (fun res => 0 <= UsageMeter.current_usage res <= limit) (snd out).
Proof.
  intros Hcalls. revert store.
  induction Hcalls as [|[delta now] calls [Hd Hexact] _ IH]; intros store Hc; cbv zeta.
  - cbn. split; [exact Hc|constructor].
  - cbn [UsageSequences.usage_calls]. cbn [fst] in Hd, Hexact.
    pose proof (stored_count_after store user_id feature limit delta reset_at now
                  Hd Hexact Hc) as Hstep. cbv zeta in Hstep.
    destruct (UsageMeter.atomic_usage_check store user_id feature limit delta
                (Some reset_at) now) as [store1 res].
    cbn [fst snd] in Hstep. destruct Hstep as [Hc1 Hres].
    specialize (IH store1 Hc1). cbv zeta in IH.
    destruct (UsageSequences.usage_calls store1 user_id feature limit reset_at calls)
      as [store2 results].
    cbn [fst snd] in *. destruct IH as [Hc2 Hall].
    split; [exact Hc2|constructor; assumption].
Qed.

Lemma usage_never_exceeds_witness :
  let out := UsageSequences.usage_calls Scenario.s4_store 7 "api_calls" 3 "1704067200"
               [(1, "1700000000.5"); (2, "1701388800.0"); (2, "1701388801.0")] in
  0 <= UsageMeter.stored_count (fst out) (UsageMeter.usage_key 7 "api_calls") <= 3
  /\ Forall (fun res => 0 <= UsageMeter.current_usage res <= 3) (snd out).
Proof.
  apply (usage_never_exceeds_the_limit Scenario.s4_store 7 "api_calls" 3 "1704067200"
           [(1, "1700000000.5"); (2, "1701388800.0"); (2, "1701388801.0")]).
  - repeat constructor; cbn; unfold UsageMeter.exact_integers; lia.
  - vm_compute. split; discriminate.
Defined.

(** X20: how many of [n] unit calls are granted.  With a counter at [c0]
    under a limit [L] below 2^53, where the script's arithmetic is exact,
    no reset being due, [n] calls with delta 1 made one after the other
    grant the first min(n, L - c0) of them and refuse all the later ones,
    and leave the counter at c0 + min(n, L - c0). *)
Theorem usage_grants_until_the_limit
    (store : gmap string UsageMeter.usage_hash) (user_id : Z) (feature : string)
    (limit : Z) (reset_at now : string) (n : nat) :
  let key := UsageMeter.usage_key user_id feature in
  let c0 := UsageMeter.stored_count store key in
  0 <= c0 <= limit ->
  limit < UsageMeter.exact_integers ->
  UsageSequences.not_expired store key now ->
  UsageMeter.lua_str_le reset_at now = false ->
  let out := UsageSequences.usage_calls store user_id feature limit reset_at
               (List.repeat (1, now) n) in
  let k := Z.to_nat (Z.min (Z.of_nat n) (limit - c0)) in
  List.map UsageMeter.success (snd out) = List.repeat true k ++ List.repeat false (n - k)
  /\ UsageMeter.stored_count (fst out) key = c0 + Z.of_nat k.
Proof.
  cbv zeta. intros Hc Hexact. revert store Hc.
  induction n as [|n IH]; intros store Hc Hexp Hreset.
  - replace (Z.to_nat (Z.min (Z.of_nat 0) _)) with O by lia.
    cbn. split; [reflexivity|lia].
  - cbn [List.repeat UsageSequences.usage_calls].
    rewrite atomic_usage_check_step by lia. cbv zeta.
    set (key := UsageMeter.usage_key user_id feature) in *.
    set (c0 := UsageMeter.stored_count store key) in *.
    assert (Hcount : match (store !! key) ≫= UsageMeter.hreset_at with
                     | Some r => if UsageMeter.lua_str_le r now then 0 else c0
                     | None => c0
                     end = c0).
    { unfold UsageSequences.not_expired in Hexp.
      destruct (_ ≫= _) as [r|]; [now rewrite Hexp|reflexivity]. }
    rewrite Hcount.
    destruct (Z.gtb_spec (c0 + 1) limit) as [Hfull|Hroom].
    + specialize (IH store Hc Hexp Hreset). fold c0 in IH.
      destruct (UsageSequences.usage_calls store user_id feature limit reset_at
                  (List.repeat (1, now) n)) as [store2 results].
      cbn [fst snd List.map UsageMeter.success] in *.
      destruct IH as [Hmap Hstored].
      replace (Z.to_nat (Z.min (Z.of_nat (S n)) (limit - c0))) with O by lia.
      replace (Z.to_nat (Z.min (Z.of_nat n) (limit - c0))) with O in * by lia.
      cbn [List.repeat app] in *. rewrite Nat.sub_0_r in *.
      split; [now rewrite Hmap|exact Hstored].
    + set (store1 := <[key := _]> store).
      assert (Hc1 : UsageMeter.stored_count store1 key = c0 + 1)
        by apply stored_count_insert.
      assert (Hexp1 : UsageSequences.not_expired store1 key now).
      { unfold UsageSequences.not_expired. subst store1.
        rewrite lookup_insert_eq. exact Hreset. }
      specialize (IH store1 ltac:(rewrite Hc1; lia) Hexp1 Hreset).
      rewrite Hc1 in IH.
      destruct (UsageSequences.usage_calls store1 user_id feature limit reset_at
                  (List.repeat (1, now) n)) as [store2 results].
      cbn [fst snd List.map UsageMeter.success] in *.
      destruct IH as [Hmap Hstored].
      replace (Z.to_nat (Z.min (Z.of_nat (S n)) (limit - c0)))
        with (S (Z.to_nat (Z.min (Z.of_nat n) (limit - (c0 + 1))))) by lia.
      cbn [List.repeat app Nat.sub]. split; [now rewrite Hmap|lia].
Qed.

Lemma usage_grants_until_the_limit_witness :
  let out := UsageSequences.usage_calls ∅ 7 "api_calls" 3 "1704067200"
               (List.repeat (1, "1700000000.5") 5) in
  List.map UsageMeter.success (snd out) = [true; true; true; false; false]
  /\ UsageMeter.stored_count (fst out) (UsageMeter.usage_key 7 "api_calls") = 3.
Proof.
  assert (Hc : 0 <= UsageMeter.stored_count ∅ (UsageMeter.usage_key 7 "api_calls") <= 3)
    by (vm_compute; split; discriminate).
  assert (Hexact : 3 < UsageMeter.exact_integers) by reflexivity.
  pose proof (usage_grants_until_the_limit ∅ 7 "api_calls" 3 "1704067200"
                "1700000000.5" 5 Hc Hexact I eq_refl) as H.
  vm_compute in H. vm_compute. exact H.
Defined.

(** ** The handlers against the transition table *)

Section TransitionTable.
Import Json Subscriptions.

(** The flag the code reads is the flag of the specification. *)
Lemma is_trial_plan_spec p : is_trial_plan p = spec_trial p.
Proof.
  unfold is_trial_plan, spec_trial.
  destruct (features p) as [| | | | | |bag]; try reflexivity.
  destruct (dict_get "trial" bag) as [[|[|]| | | | |]|]; reflexivity.
Qed.

(** In a store that keeps its references, the renewal plan the
    repository finds for a trial plan is the plan its feature bag names. *)
Lemma get_renewal_plan_spec d p :
  plan_keys d -> plans d !! plan_pk p = Some p ->
  spec_trial p = true -> renewal_refers d p ->
  plan_pk <$> get_renewal_plan d (plan_pk p) = spec_renewal_plan p.
Proof.
  intros Hkeys Hp Htrial Hrefers.
  rewrite <- is_trial_plan_spec in Htrial.
  unfold get_renewal_plan, trial_renewal_plan_id, spec_renewal_plan,
    renewal_refers in *.
  rewrite Hp, Htrial. cbn [negb].
  destruct (features p) as [| | | | | |bag]; try reflexivity.
  destruct (dict_get "renewal_plan" bag) as [[| |n| | | |]|];
    try reflexivity; try contradiction.
  cbn [int_of_str_of]. destruct Hrefers as [rp Hrp]. rewrite Hrp.
  cbn. f_equal. exact (Hkeys _ _ Hrp).
Qed.

End TransitionTable.

(** X21: the handlers against the transition table of the specification.
    In a store that keeps its references, for a stored subscription with
    its plan and a success or failed event on a row of the table, the
    handler of the event leaves the subscription with the status, the end
    date and the plan of the table (pending and success: trial for a trial
    plan, active otherwise; past_due and success: active; active and
    success: active, end date plus 365 days for a yearly plan and 30 days
    otherwise; trial and success: active on the renewal plan of the
    feature bag when there is one, trial otherwise, with the same
    extension; pending and failed: pending; active or trial and failed:
    revoked; cancelled or revoked: unchanged), changes no other
    subscription, no plan and no inbox row, and appends exactly one event
    row for that subscription, except on a success for a cancelled or
    revoked subscription, where it appends none. *)
Theorem payment_event_follows_table
    (isoformat : Z -> string) (d : Subscriptions.db)
    (sub : Subscriptions.Subscription) (plan : Subscriptions.Plan)
    (tx : option Z) (amount : Json.json) (now : Z) (event new_status : string) :
  Subscriptions.subscriptions d !! Subscriptions.sub_pk sub = Some sub ->
  Subscriptions.plans d !! Subscriptions.sub_plan_id sub = Some plan ->
  Subscriptions.plan_keys d ->
  (Subscriptions.status sub = "trial" ->
   Subscriptions.spec_trial plan = true /\ Subscriptions.renewal_refers d plan) ->
  event = "success" \/ event = "failed" ->
  Subscriptions.table_status (Subscriptions.status sub) event
    (Subscriptions.spec_trial plan) (Subscriptions.spec_renewal_present plan)
  = Some new_status ->
  let d' := Subscriptions.handle_payment isoformat event d sub plan tx amount now in
  Subscriptions.subscriptions d' !! Subscriptions.sub_pk sub
    = Some (Subscriptions.table_subscription event plan sub new_status)
  /\ (forall id, id <> Subscriptions.sub_pk sub ->
        Subscriptions.subscriptions d' !! id = Subscriptions.subscriptions d !! id)
  /\ Subscriptions.plans d' = Subscriptions.plans d
  /\ Subscriptions.inbox d' = Subscriptions.inbox d
  /\ if Subscriptions.terminal_status (Subscriptions.status sub)
        && String.eqb event "success"
     then Subscriptions.events d' = Subscriptions.events d
     else exists e, Subscriptions.events d' = Subscriptions.events d ++ [e]
                    /\ Subscriptions.ev_subscription_id e = Subscriptions.sub_pk sub
                    /\ Subscriptions.ev_transaction_id e = tx.
Proof.
  intros Hsub Hplan Hkeys Htrial Hevent Htable d'. subst d'.
  pose proof (Hkeys _ _ Hplan) as Hpk.
  destruct sub as [pk user pid st sd ed ca]. cbn [Subscriptions.sub_pk
    Subscriptions.sub_plan_id Subscriptions.status] in *.
  unfold Subscriptions.table_status in Htable.
  unfold Subscriptions.handle_payment, Subscriptions.table_subscription,
    Subscriptions.table_plan, Subscriptions.table_end_date.
  cbn [Subscriptions.sub_pk Subscriptions.sub_plan_id Subscriptions.status
       Subscriptions.user_pk Subscriptions.start_date Subscriptions.end_date
       Subscriptions.canceled_at].
  destruct (Subscriptions.terminal_status st) eqn:Eterm.
  - (* cancelled or revoked *)
    injection Htable as <-.
    assert (Hst : st = "cancelled" \/ st = "revoked").
    { unfold Subscriptions.terminal_status in Eterm.
      apply orb_true_iff in Eterm. destruct Eterm as [E|E];
        apply String.eqb_eq in E; auto. }
    destruct Hevent as [-> | ->]; cbn [String.eqb Ascii.eqb Bool.eqb andb].
    + rewrite handle_payment_success_other_status
        by (cbn [Subscriptions.status]; destruct Hst as [-> | ->]; discriminate).
      rewrite Hsub.
      destruct Hst as [-> | ->]; cbn; repeat split; reflexivity.
    + unfold Subscriptions.handle_payment_failure.
      cbn [Subscriptions.sub_pk Subscriptions.status].
      destruct Hst as [-> | ->]; cbn; rewrite Hsub; repeat split; eauto.
  - cbn [andb].
    destruct Hevent as [-> | ->]; cbn [String.eqb Ascii.eqb Bool.eqb] in *.
    + (* success *)
      unfold Subscriptions.handle_payment_success.
      cbn [Subscriptions.sub_pk Subscriptions.status].
      destruct (String.eqb_spec st "pending") as [->|H1].
      { injection Htable as <-. cbn.
        rewrite lookup_alter_eq, Hsub. cbn.
        rewrite is_trial_plan_spec.
        repeat split; eauto.
        - destruct (Subscriptions.spec_trial plan); reflexivity.
        - intros id Hid. now apply lookup_alter_ne. }
      destruct (String.eqb_spec st "past_due") as [->|H2].
      { injection Htable as <-. cbn.
        rewrite lookup_alter_eq, Hsub. cbn.
        repeat split; eauto.
        intros id Hid. now apply lookup_alter_ne. }
      destruct (String.eqb_spec st "active") as [->|H3].
      { injection Htable as <-. cbn [orb andb String.eqb Ascii.eqb Bool.eqb].
        rewrite extended_end_date.
        cbn. rewrite lookup_alter_eq, Hsub. cbn.
        repeat split; eauto.
        intros id Hid. now apply lookup_alter_ne. }
      destruct (String.eqb_spec st "trial") as [->|H4]; [|discriminate].
      injection Htable as <-. cbn [orb andb String.eqb Ascii.eqb Bool.eqb].
      destruct (Htrial eq_refl) as [Hflag Hrefers].
      rewrite extended_end_date, get_renewal_plan_update.
      subst pid.
      pose proof (get_renewal_plan_spec d plan Hkeys Hplan Hflag Hrefers) as Hren.
      unfold Subscriptions.spec_renewal_present.
      destruct (Subscriptions.get_renewal_plan d (Subscriptions.plan_pk plan))
        as [rp|]; cbn in Hren; rewrite <- Hren; cbn.
      * rewrite lookup_alter_eq, lookup_alter_eq, Hsub. cbn.
        repeat split; eauto.
        intros id Hid. rewrite !lookup_alter_ne by congruence. reflexivity.
      * rewrite lookup_alter_eq, Hsub. cbn.
        repeat split; eauto.
        intros id Hid. now apply lookup_alter_ne.
    + (* failed *)
      unfold Subscriptions.handle_payment_failure.
      cbn [Subscriptions.sub_pk Subscriptions.status].
      destruct (String.eqb_spec st "pending") as [->|H1].
      { injection Htable as <-. cbn. rewrite Hsub.
        repeat split; eauto. }
      destruct (String.eqb st "active" || String.eqb st "trial") eqn:E;
        [|discriminate].
      injection Htable as <-.
      assert (Hcases : st = "active" \/ st = "trial").
      { apply orb_true_iff in E. destruct E as [E|E];
          apply String.eqb_eq in E; auto. }
      cbn. rewrite lookup_alter_eq, Hsub. cbn.
      destruct Hcases as [-> | ->]; cbn; (repeat split; eauto);
        intros id Hid; now apply lookup_alter_ne.
Qed.

(** A success for the subscription in trial: active on the basic plan,
    thirty days more, one event. *)
Lemma payment_event_follows_table_witness :
  let d' := Subscriptions.handle_payment Scenario.isoformat "success"
              Scenario.trial_db Scenario.trial_subscription Scenario.trial_plan
              (Some Scenario.uuid_T) (Json.JInt 29) 1700000100 in
  Subscriptions.subscriptions d' !! Scenario.uuid_S
    = Some {| Subscriptions.sub_pk := Scenario.uuid_S; Subscriptions.user_pk := 7;
              Subscriptions.sub_plan_id := 1; Subscriptions.status := "active";
              Subscriptions.start_date := 1700000000;
              Subscriptions.end_date := 1701209600 + 30 * 86400;
              Subscriptions.canceled_at := None |}
  /\ length (Subscriptions.events d') = 1%nat.
Proof.
  assert (Hkeys : Subscriptions.plan_keys Scenario.trial_db).
  { intros id p. unfold Scenario.trial_db. cbn [Subscriptions.plans].
    rewrite lookup_insert_Some, lookup_singleton_Some.
    intros [[<- <-]|[_ [<- <-]]]; reflexivity. }
  assert (Hrefers : Subscriptions.renewal_refers Scenario.trial_db Scenario.trial_plan).
  { cbn. eexists. reflexivity. }
  destruct (payment_event_follows_table Scenario.isoformat Scenario.trial_db
              Scenario.trial_subscription Scenario.trial_plan (Some Scenario.uuid_T)
              (Json.JInt 29) 1700000100 "success" "active"
              eq_refl eq_refl Hkeys (fun _ => conj eq_refl Hrefers)
              (or_introl eq_refl) eq_refl)
    as (Hs & _ & _ & _ & He).
  split.
  - exact Hs.
  - cbn in He. destruct He as (e & He & _). exact (f_equal (@length _) He).
Defined.
